(** * FII/DII strength classification: a shallow embedding and its properties

    The Python scripts of the repository classify daily institutional
    positioning into strength labels.  This development embeds the
    classification pipeline (percentile thresholds, tier and direction
    classification, the two composition tables, the look-back window
    selection and the back-test scoring) and proves the properties the
    specification states about it.

    Conventions of the embedding:
    - Python [str] values are [string]s, Python [dict] literals are [gmap]s
      built by successive insertion (a later duplicate key overrides an
      earlier one, as in Python);
    - Python floats are idealised as rationals [Q]: comparisons, [abs] and
      negation are exact on floats, while [*], [/], [+] and [-] are taken
      without rounding;
    - a Python exception is an explicit [Raise] result. *)

From Stdlib Require Import QArith Qround Qabs Lqa Lia ZArith Ascii String.
From stdpp Require Import gmap strings list sorting.

Open Scope string_scope.

(** ** Python primitives used by the scripts *)

Module Py.

Inductive exn : Type := IndexError | ZeroDivisionError.

Inductive result (A : Type) : Type :=
| Return (a : A)
| Raise (e : exn).
Arguments Return {A} a.
Arguments Raise {A} e.

Definition bind {A B : Type} (r : result A) (k : A -> result B) : result B :=
  match r with
  | Return a => k a
  | Raise e => Raise e
  end.

(** [l[i]] on a Python list: negative indices count from the end, any
    index outside [-len, len) raises [IndexError]. *)
Definition getitem {A : Type} (l : list A) (i : Z) : result A :=
  let n := Z.of_nat (length l) in
  let j := (if i <? 0 then n + i else i)%Z in
  if ((0 <=? j) && (j <? n))%Z
  then match l !! Z.to_nat j with
       | Some x => Return x
       | None => Raise IndexError
       end
  else Raise IndexError.

(** A dict literal [{k1: v1, k2: v2, ...}]: entries are inserted from left
    to right. *)
Definition dict_literal {K V : Type} `{Countable K}
    (entries : list (K * V)) : gmap K V :=
  fold_left (fun m kv => <[kv.1 := kv.2]> m) entries ∅.

(** [d.get(k, dflt)] *)
Definition dict_get {K V : Type} `{Countable K}
    (d : gmap K V) (k : K) (dflt : V) : V :=
  default dflt (d !! k).

(** The f-string [f"{a} {b}"] on two strings. *)
Definition fmt2 (a b : string) : string := a +:+ " " +:+ b.

(** [sub in s] on strings: [sub] occurs in [s] as a substring. *)
Fixpoint contains (sub s : string) : bool :=
  String.prefix sub s ||
  match s with
  | EmptyString => false
  | String _ s' => contains sub s'
  end.

(** The ASCII characters [str.isspace] accepts (tab to carriage return,
    the four separators 28-31 and the blank); blanks outside ASCII are not
    modelled. *)
Definition is_space (c : ascii) : bool :=
  let n := nat_of_ascii c in
  ((9 <=? n) && (n <=? 13) || (28 <=? n) && (n <=? 32))%nat.

(** [s.split()]: the maximal runs of non-blank characters, in order.
    [cur] is the run being read, if any. *)
Fixpoint split_from (cur : option string) (s : string) : list string :=
  match s with
  | EmptyString =>
      match cur with
      | Some w => [w]
      | None => []
      end
  | String c s' =>
      if is_space c
      then match cur with
           | Some w => w :: split_from None s'
           | None => split_from None s'
           end
      else split_from (Some (default EmptyString cur +:+ String c EmptyString)) s'
  end.

Definition split (s : string) : list string := split_from None s.

(** [l[a:b]] for non-negative bounds. *)
Definition slice {A : Type} (a b : nat) (l : list A) : list A :=
  drop a (take b l).

(** [pandas.Series.unique]: the distinct values in order of first
    appearance. *)
Fixpoint unique {A : Type} `{EqDecision A} (l : list A) : list A :=
  match l with
  | [] => []
  | x :: l' => x :: filter (fun y => y <> x) (unique l')
  end.

(** Comparisons of floats, as booleans. *)
Definition Qgt_bool (x y : Q) : bool := negb (Qle_bool x y).
Definition Qlt_bool (x y : Q) : bool := negb (Qle_bool y x).
Definition Qge_bool (x y : Q) : bool := Qle_bool y x.

End Py.

#[global] Instance result_ret : MRet Py.result := @Py.Return.
#[global] Instance result_bind : MBind Py.result :=
  fun A B k r => Py.bind r k.

#[global] Instance Qle_rel_dec : RelDecision Qle.
Proof.
  intros x y. destruct (Qlt_le_dec y x) as [Hlt | Hle].
  - right. intros Hle. exact (Qlt_not_le _ _ Hlt Hle).
  - left. exact Hle.
Defined.

(** [sorted(l)] on floats, and [sorted(l, reverse=True)] on dates. *)
Definition sorted (l : list Q) : list Q := merge_sort Qle l.
Definition sorted_reverse (l : list Z) : list Z := merge_sort (flip Z.le) l.

(** The two orders are transitive and total, as the sorting lemmas
    require. *)
#[local] Instance Qle_transitive : Transitive Qle := Qle_trans.

#[local] Instance Qle_total : Total Qle.
Proof.
  intros x y. destruct (Qlt_le_dec x y) as [Hlt | Hle].
  - left. apply Qlt_le_weak. exact Hlt.
  - right. exact Hle.
Qed.

#[local] Instance Zge_transitive : Transitive (flip Z.le).
Proof. intros x y z Hxy Hyz. unfold flip in *. lia. Qed.

#[local] Instance Zge_total : Total (flip Z.le).
Proof. intros x y. unfold flip. lia. Qed.

(** Evaluates the decisions on closed propositions in the goal. *)
Ltac eval_bool_decide :=
  repeat match goal with
  | |- context [bool_decide ?P] =>
      let b := eval vm_compute in (bool_decide P) in
      change (bool_decide P) with b
  end.

(** Splits the hypotheses that an element belongs to an explicit list. *)
Ltac split_elem_of :=
  repeat match goal with
  | H : _ ∈ _ :: _ |- _ => apply elem_of_cons in H as [-> | H]
  | H : _ ∈ [] |- _ => apply elem_of_nil in H; contradiction
  end.

(** Proves that the head of an explicit list of distinct constants is not
    in its tail. *)
Ltac distinct_head :=
  let H := fresh in
  intros H;
  repeat (apply elem_of_cons in H as [H | H]; [discriminate H |]);
  apply elem_of_nil in H; exact H.

(** ** Labels *)

Inductive StrengthTier : Type := MILD | MEDIUM | STRONG.
Inductive Direction : Type := BULLISH | BEARISH.

(** A label is a tier with a direction, or the sentinel. *)
Inductive Label : Type :=
| Decisive (t : StrengthTier) (d : Direction)
| INDECISIVE.

Definition tier_str (t : StrengthTier) : string :=
  match t with
  | MILD => "MILD"
  | MEDIUM => "MEDIUM"
  | STRONG => "STRONG"
  end.

Definition direction_str (d : Direction) : string :=
  match d with
  | BULLISH => "BULLISH"
  | BEARISH => "BEARISH"
  end.

(** The strings the scripts use for labels: ["STRONG BULLISH"], ...,
    ["INDECISIVE"]. *)
Definition label_str (l : Label) : string :=
  match l with
  | Decisive t d => Py.fmt2 (tier_str t) (direction_str d)
  | INDECISIVE => "INDECISIVE"
  end.

Definition flip_direction (d : Direction) : Direction :=
  match d with
  | BULLISH => BEARISH
  | BEARISH => BULLISH
  end.

Definition flip_label (l : Label) : Label :=
  match l with
  | Decisive t d => Decisive t (flip_direction d)
  | INDECISIVE => INDECISIVE
  end.

(** The strings of the tiers and of the directions. *)
Definition is_tier_str (s : string) : Prop := exists t, s = tier_str t.
Definition is_direction_str (s : string) : Prop :=
  exists d, s = direction_str d.

(** Auxiliary: number of blanks of a string, and the cut at the first blank. *)
Fixpoint blanks (s : string) : nat :=
  match s with
  | EmptyString => 0
  | String c s' => (if Ascii.eqb c " " then 1 else 0) + blanks s'
  end.

Fixpoint cut_at_blank (s : string) : option (string * string) :=
  match s with
  | EmptyString => None
  | String c s' =>
      if Ascii.eqb c " " then Some (EmptyString, s')
      else match cut_at_blank s' with
           | Some (a, b) => Some (String c a, b)
           | None => None
           end
  end.

(** ** SignalComposer: the OI-by-change truth table *)

Module SignalComposer.

(** [truth_table] of [apply_truth_table]; the literal is the same, entry
    for entry, in custom_percentile_method_2.py,
    fii_strength_calculator_3.py, fii_strength_calculator.py and the
    respective-percentile script. *)
Definition truth_table_entries : list ((string * string) * string) :=
  [ (("STRONG BULLISH", "STRONG BULLISH"), "STRONG BULLISH");
    (("STRONG BULLISH", "MEDIUM BULLISH"), "STRONG BULLISH");
    (("STRONG BULLISH", "MILD BULLISH"), "STRONG BULLISH");
    (("STRONG BULLISH", "STRONG BEARISH"), "INDECISIVE");
    (("STRONG BULLISH", "MEDIUM BEARISH"), "INDECISIVE");
    (("STRONG BULLISH", "MILD BEARISH"), "STRONG BULLISH");

    (("MEDIUM BULLISH", "STRONG BULLISH"), "STRONG BULLISH");
    (("MEDIUM BULLISH", "MEDIUM BULLISH"), "MEDIUM BULLISH");
    (("MEDIUM BULLISH", "MILD BULLISH"), "MEDIUM BULLISH");
    (("MEDIUM BULLISH", "STRONG BEARISH"), "INDECISIVE");
    (("MEDIUM BULLISH", "MEDIUM BEARISH"), "INDECISIVE");
    (("MEDIUM BULLISH", "MILD BEARISH"), "MEDIUM BULLISH");

    (("MILD BULLISH", "STRONG BULLISH"), "MEDIUM BULLISH");
    (("MILD BULLISH", "MEDIUM BULLISH"), "MILD BULLISH");
    (("MILD BULLISH", "MILD BULLISH"), "MILD BULLISH");
    (("MILD BULLISH", "STRONG BEARISH"), "MEDIUM BEARISH");
    (("MILD BULLISH", "MEDIUM BEARISH"), "INDECISIVE");
    (("MILD BULLISH", "MILD BEARISH"), "INDECISIVE");

    (("STRONG BEARISH", "STRONG BULLISH"), "INDECISIVE");
    (("STRONG BEARISH", "MEDIUM BULLISH"), "INDECISIVE");
    (("STRONG BEARISH", "MILD BULLISH"), "STRONG BEARISH");
    (("STRONG BEARISH", "STRONG BEARISH"), "STRONG BEARISH");
    (("STRONG BEARISH", "MEDIUM BEARISH"), "STRONG BEARISH");
    (("STRONG BEARISH", "MILD BEARISH"), "STRONG BEARISH");

    (("MEDIUM BEARISH", "STRONG BULLISH"), "INDECISIVE");
    (("MEDIUM BEARISH", "MEDIUM BULLISH"), "INDECISIVE");
    (("MEDIUM BEARISH", "MILD BULLISH"), "MEDIUM BEARISH");
    (("MEDIUM BEARISH", "STRONG BEARISH"), "STRONG BEARISH");
    (("MEDIUM BEARISH", "MEDIUM BEARISH"), "MEDIUM BEARISH");
    (("MEDIUM BEARISH", "MILD BEARISH"), "MEDIUM BEARISH");

    (("MILD BEARISH", "STRONG BULLISH"), "MEDIUM BULLISH");
    (("MILD BEARISH", "MEDIUM BULLISH"), "INDECISIVE");
    (("MILD BEARISH", "MILD BULLISH"), "INDECISIVE");
    (("MILD BEARISH", "STRONG BEARISH"), "MEDIUM BEARISH");
    (("MILD BEARISH", "MEDIUM BEARISH"), "MILD BEARISH");
    (("MILD BEARISH", "MILD BEARISH"), "MILD BEARISH") ].

Definition truth_table : gmap (string * string) string :=
  Py.dict_literal truth_table_entries.

Definition apply_truth_table
    (oi_strength oi_direction change_strength change_direction : string)
    : string :=
  let oi_combined := Py.fmt2 oi_strength oi_direction in
  let change_combined := Py.fmt2 change_strength change_direction in
  Py.dict_get truth_table (oi_combined, change_combined) "INDECISIVE".

(** The compatibility matrix as the specification prints it in its
    section 4.3: rows are the OI label, columns the change label. *)
Definition spec_matrix (oi change : Label) : Label :=
  let SB := Decisive STRONG BULLISH in
  let MB := Decisive MEDIUM BULLISH in
  let MLB := Decisive MILD BULLISH in
  let Sb := Decisive STRONG BEARISH in
  let Mb := Decisive MEDIUM BEARISH in
  let Mlb := Decisive MILD BEARISH in
  let IND := INDECISIVE in
  let row (sb mb mlb sB mB mlB : Label) : Label :=
    match change with
    | Decisive STRONG BULLISH => sb
    | Decisive MEDIUM BULLISH => mb
    | Decisive MILD BULLISH => mlb
    | Decisive STRONG BEARISH => sB
    | Decisive MEDIUM BEARISH => mB
    | Decisive MILD BEARISH => mlB
    | INDECISIVE => IND
    end in
  match oi with
  | Decisive STRONG BULLISH => row SB SB SB IND IND SB
  | Decisive MEDIUM BULLISH => row SB MB MB IND IND MB
  | Decisive MILD BULLISH => row MB MLB MLB Mb IND IND
  | Decisive STRONG BEARISH => row IND IND Sb Sb Sb Sb
  | Decisive MEDIUM BEARISH => row IND IND Mb Sb Mb Mb
  | Decisive MILD BEARISH => row MB IND IND Mb Mlb Mlb
  | INDECISIVE => IND
  end.

End SignalComposer.

(** ** PercentileThresholdEstimator *)

Module Percentile.

(** [divmod(x, 1)] on a float: the floor and the fractional part. *)
Definition divmod1 (x : Q) : Z * Q := (Qfloor x, (x - inject_Z (Qfloor x))%Q).

(** [(percentile / 100) * (len(sorted_list) - 1)] *)
Definition position (percentile : Q) (sorted_list : list Q) : Q :=
  ((percentile / 100) * inject_Z (Z.of_nat (length sorted_list) - 1))%Q.

(** The value both scripts compute on a non-empty sample, as a function of
    the position: the element at the integer part, moved towards the next
    element by the fractional part.  (Reading outside the list gives 0
    here; the scripts never do so for a position in [0, len - 1].) *)
Definition item (sorted_list : list Q) (i : Z) : Q :=
  nth (Z.to_nat i) sorted_list 0%Q.

Definition interpolate (sorted_list : list Q) (t_pos : Q) : Q :=
  let '(t_pos_int, t_pos_frac) := divmod1 t_pos in
  if Qeq_bool t_pos_frac 0
  then item sorted_list t_pos_int
  else (item sorted_list t_pos_int
        + t_pos_frac * (item sorted_list (t_pos_int + 1)
                        - item sorted_list t_pos_int))%Q.

(** [get_threshold] of custom_percentile_method_2.py (and, word for word,
    of fii_dii_helper_v2.py): no guard on the sample's length. *)
Module Platform.

Definition get_threshold (percentile : Q) (sorted_list : list Q)
    : Py.result Q :=
  let t_pos := position percentile sorted_list in
  let '(t_pos_int, t_pos_frac) := divmod1 t_pos in
  if Qeq_bool t_pos_frac 0
  then Py.getitem sorted_list t_pos_int
  else
    (* [sorted_list[t_pos_int]] is read twice; reads have no effect, so
       the second read is [lo] again *)
    lo ← Py.getitem sorted_list t_pos_int;
    hi ← Py.getitem sorted_list (t_pos_int + 1);
    mret (lo + t_pos_frac * (hi - lo))%Q.

End Platform.

(** [get_threshold] of fii_strength_calculator_3.py and of the
    respective-percentile script: short samples and the last position are
    answered before the interpolation. *)
Module Guarded.

Definition get_threshold (percentile : Q) (sorted_list : list Q)
    : Py.result Q :=
  if bool_decide (sorted_list = []) || (length sorted_list <=? 1)%nat
  then
    if bool_decide (sorted_list <> [])
    then Py.getitem sorted_list 0
    else Py.Return 0%Q
  else
    let t_pos := position percentile sorted_list in
    let '(t_pos_int, t_pos_frac) := divmod1 t_pos in
    if (Z.of_nat (length sorted_list) - 1 <=? t_pos_int)%Z
    then Py.getitem sorted_list (-1)
    else if Qeq_bool t_pos_frac 0
    then Py.getitem sorted_list t_pos_int
    else
      lo ← Py.getitem sorted_list t_pos_int;
      hi ← Py.getitem sorted_list (t_pos_int + 1);
      mret (lo + t_pos_frac * (hi - lo))%Q.

End Guarded.

(** The four thresholds of one segment. *)
Record ThresholdSet : Type := mkThresholdSet {
  oi_p80 : Q;
  oi_p40 : Q;
  change_p80 : Q;
  change_p20 : Q
}.

(** The invariant the specification states for a threshold set. *)
Definition ordered (ts : ThresholdSet) : Prop :=
  (oi_p40 ts <= oi_p80 ts)%Q /\ (change_p20 ts <= change_p80 ts)%Q.

(** Every threshold set stored in a percentile dict is ordered. *)
Definition all_ordered (m : gmap string ThresholdSet) : Prop :=
  forall (segment : string) (ts : ThresholdSet),
    m !! segment = Some ts -> ordered ts.

(** The block every script repeats per segment: absolute values, sorted
    ascending, then the 80th/40th percentile of the OI sample and the
    80th/20th percentile of the change sample.  [threshold] is the
    script's [get_threshold]. *)
Definition segment_thresholds
    (threshold : Q -> list Q -> Py.result Q)
    (oi_values change_values : list Q) : Py.result ThresholdSet :=
  let oi_sorted := sorted (map Qabs oi_values) in
  let change_sorted := sorted (map Qabs change_values) in
  p1 ← threshold 80%Q oi_sorted;
  p2 ← threshold 40%Q oi_sorted;
  p3 ← threshold 80%Q change_sorted;
  p4 ← threshold 20%Q change_sorted;
  mret (mkThresholdSet p1 p2 p3 p4).

End Percentile.

(** ** SegmentClassifier *)

Module Classifier.

(** custom_percentile_method_2.py (and fii_strength_calculator.py): the two
    branches on [is_change] are written out. *)
Module Platform.

Definition get_strength_level
    (value percentile_80 percentile_40_20 : Q) (is_change : bool) : string :=
  let abs_value := Qabs value in
  if is_change
  then
    if Py.Qge_bool abs_value percentile_80 then "STRONG"
    else if Py.Qge_bool abs_value percentile_40_20 then "MEDIUM"
    else "MILD"
  else
    if Py.Qge_bool abs_value percentile_80 then "STRONG"
    else if Py.Qge_bool abs_value percentile_40_20 then "MEDIUM"
    else "MILD".

Definition get_direction (value : Q) (segment_type : string) : string :=
  if bool_decide
       (segment_type ∈ ["FUTURE_INDEX"; "FUTURE-INDEX"; "INDEX_FUTURES"])
  then (if Py.Qgt_bool value 0 then "BULLISH" else "BEARISH")
  else if bool_decide
       (segment_type ∈ ["CALL"; "CALL_OPTIONS"; "CALL_OI"; "Call Options"])
  then (if Py.Qgt_bool value 0 then "BULLISH" else "BEARISH")
  else if bool_decide
       (segment_type ∈ ["PUT"; "PUT_OPTIONS"; "PUT_OI"; "Put Options"])
  then (if Py.Qgt_bool value 0 then "BEARISH" else "BULLISH")
  else (if Py.Qgt_bool value 0 then "BULLISH" else "BEARISH").

End Platform.

(** fii_strength_calculator_3.py and the respective-percentile script. *)
Module Respective.

Definition get_strength_level
    (value percentile_80 percentile_40_20 : Q) (is_change : bool) : string :=
  let abs_value := Qabs value in
  let threshold :=
    if negb is_change then percentile_40_20 else percentile_40_20 in
  if Py.Qge_bool abs_value percentile_80 then "STRONG"
  else if Py.Qge_bool abs_value threshold then "MEDIUM"
  else "MILD".

Definition get_direction (value : Q) (segment_name : string) : string :=
  if Py.contains "Put Options" segment_name
  then (if Py.Qgt_bool value 0 then "BEARISH" else "BULLISH")
  else (if Py.Qgt_bool value 0 then "BULLISH" else "BEARISH").

End Respective.

End Classifier.

(** ** OptionsNetComposer *)

Module NetOptions.

Definition parse_strength (strength_str : string) : string * string :=
  if bool_decide (strength_str = "INDECISIVE")
  then ("INDECISIVE", "INDECISIVE")
  else
    match Py.split strength_str with
    | [intensity; direction] => (intensity, direction)
    | _ => ("INDECISIVE", "INDECISIVE")
    end.

(** The part of [calculate_strength_for_date] that turns the Call and the
    Put final strengths into the Net Options strength; [net_oi_mapping] is
    the script's table. *)
Definition net_tuple
    (net_oi_mapping : gmap ((string * string) * (string * string))
                           (string * string))
    (call_final_strength put_final_strength : string) : string * string :=
  let call_tuple := parse_strength call_final_strength in
  let put_tuple := parse_strength put_final_strength in
  Py.dict_get net_oi_mapping (call_tuple, put_tuple)
    ("INDECISIVE", "INDECISIVE").

Definition net_final
    (net_oi_mapping : gmap ((string * string) * (string * string))
                           (string * string))
    (call_final_strength put_final_strength : string) : string :=
  let '(net_intensity, net_sentiment) :=
    net_tuple net_oi_mapping call_final_strength put_final_strength in
  if bool_decide (net_sentiment <> "INDECISIVE")
  then Py.fmt2 net_intensity net_sentiment
  else "INDECISIVE".

(** fii_strength_calculator_3.py *)
Module Combined.

Definition net_oi_mapping_entries
    : list (((string * string) * (string * string)) * (string * string)) :=
  [ ((("MEDIUM", "BULLISH"), ("INDECISIVE", "INDECISIVE")), ("MEDIUM", "BULLISH"));
    ((("MEDIUM", "BULLISH"), ("MEDIUM", "BEARISH")), ("INDECISIVE", "VOLATILE"));
    ((("MEDIUM", "BULLISH"), ("MEDIUM", "BULLISH")), ("MEDIUM", "BULLISH"));
    ((("MEDIUM", "BULLISH"), ("STRONG", "BEARISH")), ("MEDIUM", "BEARISH"));
    ((("MEDIUM", "BULLISH"), ("STRONG", "BULLISH")), ("STRONG", "BULLISH"));
    ((("MEDIUM", "BULLISH"), ("MILD", "BEARISH")), ("MEDIUM", "BULLISH"));
    ((("MEDIUM", "BULLISH"), ("MILD", "BULLISH")), ("MEDIUM", "BULLISH"));
    ((("MEDIUM", "BEARISH"), ("INDECISIVE", "INDECISIVE")), ("MEDIUM", "BEARISH"));
    ((("MEDIUM", "BEARISH"), ("MEDIUM", "BEARISH")), ("MEDIUM", "BEARISH"));
    ((("MEDIUM", "BEARISH"), ("MEDIUM", "BULLISH")), ("INDECISIVE", "NEUTRAL"));
    ((("MEDIUM", "BEARISH"), ("STRONG", "BEARISH")), ("STRONG", "BEARISH"));
    ((("MEDIUM", "BEARISH"), ("STRONG", "BULLISH")), ("STRONG", "BULLISH"));
    ((("MEDIUM", "BEARISH"), ("MILD", "BEARISH")), ("MEDIUM", "BEARISH"));
    ((("MEDIUM", "BEARISH"), ("MILD", "BULLISH")), ("MEDIUM", "BEARISH"));
    ((("STRONG", "BULLISH"), ("INDECISIVE", "INDECISIVE")), ("STRONG", "BULLISH"));
    ((("STRONG", "BULLISH"), ("MEDIUM", "BEARISH")), ("MEDIUM", "BULLISH"));
    ((("STRONG", "BULLISH"), ("MEDIUM", "BULLISH")), ("STRONG", "BULLISH"));
    ((("STRONG", "BULLISH"), ("STRONG", "BEARISH")), ("INDECISIVE", "VOLATILE"));
    ((("STRONG", "BULLISH"), ("STRONG", "BULLISH")), ("STRONG", "BULLISH"));
    ((("STRONG", "BULLISH"), ("MILD", "BEARISH")), ("STRONG", "BULLISH"));
    ((("STRONG", "BULLISH"), ("MILD", "BULLISH")), ("STRONG", "BULLISH"));
    ((("STRONG", "BEARISH"), ("INDECISIVE", "INDECISIVE")), ("STRONG", "BEARISH"));
    ((("STRONG", "BEARISH"), ("MEDIUM", "BEARISH")), ("STRONG", "BEARISH"));
    ((("STRONG", "BEARISH"), ("MEDIUM", "BULLISH")), ("MEDIUM", "BEARISH"));
    ((("STRONG", "BEARISH"), ("STRONG", "BEARISH")), ("STRONG", "BEARISH"));
    ((("STRONG", "BEARISH"), ("STRONG", "BULLISH")), ("INDECISIVE", "NEUTRAL"));
    ((("STRONG", "BEARISH"), ("MILD", "BEARISH")), ("STRONG", "BEARISH"));
    ((("STRONG", "BEARISH"), ("MILD", "BULLISH")), ("STRONG", "BEARISH"));
    ((("MILD", "BULLISH"), ("INDECISIVE", "INDECISIVE")), ("INDECISIVE", "INDECISIVE"));
    ((("MILD", "BULLISH"), ("MEDIUM", "BEARISH")), ("MILD", "BEARISH"));
    ((("MILD", "BULLISH"), ("MEDIUM", "BULLISH")), ("MEDIUM", "BULLISH"));
    ((("MILD", "BULLISH"), ("STRONG", "BEARISH")), ("STRONG", "BEARISH"));
    ((("MILD", "BULLISH"), ("STRONG", "BULLISH")), ("STRONG", "BULLISH"));
    ((("MILD", "BULLISH"), ("MILD", "BEARISH")), ("INDECISIVE", "INDECISIVE"));
    ((("MILD", "BULLISH"), ("MILD", "BULLISH")), ("MILD", "BULLISH"));
    ((("MILD", "BEARISH"), ("INDECISIVE", "INDECISIVE")), ("INDECISIVE", "INDECISIVE"));
    ((("MILD", "BEARISH"), ("MEDIUM", "BEARISH")), ("MEDIUM", "BEARISH"));
    ((("MILD", "BEARISH"), ("MEDIUM", "BULLISH")), ("MEDIUM", "BULLISH"));
    ((("MILD", "BEARISH"), ("STRONG", "BEARISH")), ("STRONG", "BEARISH"));
    ((("MILD", "BEARISH"), ("STRONG", "BULLISH")), ("STRONG", "BULLISH"));
    ((("MILD", "BEARISH"), ("MILD", "BEARISH")), ("INDECISIVE", "INDECISIVE"));
    ((("MILD", "BEARISH"), ("MILD", "BULLISH")), ("INDECISIVE", "INDECISIVE")) ].

Definition net_oi_mapping := Py.dict_literal net_oi_mapping_entries.

End Combined.

(** The respective-percentile script. *)
Module Respective.

Definition net_oi_mapping_entries
    : list (((string * string) * (string * string)) * (string * string)) :=
  [ ((("MEDIUM", "BULLISH"), ("INDECISIVE", "INDECISIVE")), ("MEDIUM", "BULLISH"));
    ((("MEDIUM", "BULLISH"), ("MEDIUM", "BEARISH")), ("VOLATILE", "VOLATILE"));
    ((("MEDIUM", "BULLISH"), ("MEDIUM", "BULLISH")), ("MEDIUM", "BULLISH"));
    ((("MEDIUM", "BULLISH"), ("STRONG", "BEARISH")), ("MEDIUM", "BEARISH"));
    ((("MEDIUM", "BULLISH"), ("STRONG", "BULLISH")), ("STRONG", "BULLISH"));
    ((("MEDIUM", "BULLISH"), ("MILD", "BEARISH")), ("MEDIUM", "BULLISH"));
    ((("MEDIUM", "BULLISH"), ("MILD", "BULLISH")), ("MEDIUM", "BULLISH"));
    ((("MEDIUM", "BEARISH"), ("INDECISIVE", "INDECISIVE")), ("MEDIUM", "BEARISH"));
    ((("MEDIUM", "BEARISH"), ("MEDIUM", "BEARISH")), ("MEDIUM", "BEARISH"));
    ((("MEDIUM", "BEARISH"), ("MEDIUM", "BULLISH")), ("NEUTRAL", "NEUTRAL"));
    ((("MEDIUM", "BEARISH"), ("STRONG", "BEARISH")), ("STRONG", "BEARISH"));
    ((("MEDIUM", "BEARISH"), ("STRONG", "BULLISH")), ("STRONG", "BULLISH"));
    ((("MEDIUM", "BEARISH"), ("MILD", "BEARISH")), ("MEDIUM", "BEARISH"));
    ((("MEDIUM", "BEARISH"), ("MILD", "BULLISH")), ("MEDIUM", "BEARISH"));
    ((("STRONG", "BULLISH"), ("INDECISIVE", "INDECISIVE")), ("STRONG", "BULLISH"));
    ((("STRONG", "BULLISH"), ("MEDIUM", "BEARISH")), ("MEDIUM", "BULLISH"));
    ((("STRONG", "BULLISH"), ("MEDIUM", "BULLISH")), ("STRONG", "BULLISH"));
    ((("STRONG", "BULLISH"), ("STRONG", "BEARISH")), ("VOLATILE", "VOLATILE"));
    ((("STRONG", "BULLISH"), ("STRONG", "BULLISH")), ("STRONG", "BULLISH"));
    ((("STRONG", "BULLISH"), ("MILD", "BEARISH")), ("STRONG", "BULLISH"));
    ((("STRONG", "BULLISH"), ("MILD", "BULLISH")), ("STRONG", "BULLISH"));
    ((("STRONG", "BEARISH"), ("INDECISIVE", "INDECISIVE")), ("STRONG", "BEARISH"));
    ((("STRONG", "BEARISH"), ("MEDIUM", "BEARISH")), ("STRONG", "BEARISH"));
    ((("STRONG", "BEARISH"), ("MEDIUM", "BULLISH")), ("MEDIUM", "BEARISH"));
    ((("STRONG", "BEARISH"), ("STRONG", "BEARISH")), ("STRONG", "BEARISH"));
    ((("STRONG", "BEARISH"), ("STRONG", "BULLISH")), ("NEUTRAL", "NEUTRAL"));
    ((("STRONG", "BEARISH"), ("MILD", "BEARISH")), ("STRONG", "BEARISH"));
    ((("STRONG", "BEARISH"), ("MILD", "BULLISH")), ("STRONG", "BEARISH"));
    ((("MILD", "BULLISH"), ("INDECISIVE", "INDECISIVE")), ("INDECISIVE", "INDECISIVE"));
    ((("MILD", "BULLISH"), ("MEDIUM", "BEARISH")), ("MILD", "BEARISH"));
    ((("MILD", "BULLISH"), ("MEDIUM", "BULLISH")), ("MEDIUM", "BULLISH"));
    ((("MILD", "BULLISH"), ("STRONG", "BEARISH")), ("STRONG", "BEARISH"));
    ((("MILD", "BULLISH"), ("STRONG", "BULLISH")), ("STRONG", "BULLISH"));
    ((("MILD", "BULLISH"), ("MILD", "BEARISH")), ("INDECISIVE", "INDECISIVE"));
    ((("MILD", "BULLISH"), ("MILD", "BULLISH")), ("MILD", "BULLISH"));
    ((("MILD", "BEARISH"), ("INDECISIVE", "INDECISIVE")), ("INDECISIVE", "INDECISIVE"));
    ((("MILD", "BEARISH"), ("MEDIUM", "BEARISH")), ("MEDIUM", "BEARISH"));
    ((("MILD", "BEARISH"), ("MEDIUM", "BULLISH")), ("MEDIUM", "BULLISH"));
    ((("MILD", "BEARISH"), ("STRONG", "BEARISH")), ("STRONG", "BEARISH"));
    ((("MILD", "BEARISH"), ("STRONG", "BULLISH")), ("STRONG", "BULLISH"));
    ((("MILD", "BEARISH"), ("MILD", "BEARISH")), ("INDECISIVE", "INDECISIVE"));
    ((("MILD", "BEARISH"), ("MILD", "BULLISH")), ("INDECISIVE", "INDECISIVE"));
    ((("INDECISIVE", "INDECISIVE"), ("INDECISIVE", "INDECISIVE")), ("INDECISIVE", "INDECISIVE"));
    ((("INDECISIVE", "INDECISIVE"), ("MEDIUM", "BEARISH")), ("MEDIUM", "BEARISH"));
    ((("INDECISIVE", "INDECISIVE"), ("MEDIUM", "BULLISH")), ("MEDIUM", "BULLISH"));
    ((("INDECISIVE", "INDECISIVE"), ("MILD", "BEARISH")), ("INDECISIVE", "INDECISIVE"));
    ((("INDECISIVE", "INDECISIVE"), ("MILD", "BULLISH")), ("INDECISIVE", "INDECISIVE"));
    ((("INDECISIVE", "INDECISIVE"), ("STRONG", "BEARISH")), ("STRONG", "BEARISH"));
    ((("INDECISIVE", "INDECISIVE"), ("STRONG", "BULLISH")), ("STRONG", "BULLISH")) ].

Definition net_oi_mapping := Py.dict_literal net_oi_mapping_entries.

End Respective.

End NetOptions.

(** ** WindowStrategy: which rows feed the thresholds *)

Module Window.

(** One row of the pivoted data frame [self.df]: a trading day (as an
    ordinal), an institution and the six columns; [None] is a missing
    value (NaN). *)
Record Row : Type := mkRow {
  date : Z;
  institution : string;
  FUTURE_INDEX : option Q;
  FUTURE_INDEX_CHANGE : option Q;
  CALL_OI : option Q;
  CALL_OI_CHANGE : option Q;
  PUT_OI : option Q;
  PUT_OI_CHANGE : option Q
}.

(** [df[df['date'].isin(dates)]] *)
Definition isin_dates (dates : list Z) (df : list Row) : list Row :=
  filter (fun r => date r ∈ dates) df.

(** [df[df['institution'] == inst][col].dropna()] *)
Definition column_values (col : Row -> option Q) (inst : string)
    (df : list Row) : list Q :=
  omap col (filter (fun r => institution r = inst) df).

(** custom_percentile_method_2.py, [calculate_strength_for_date]: the
    window is chosen per target date. *)
Module Rolling.

Definition lookback_dates (df : list Row) (target_date : Z)
    (lookback_days : nat) : list Z :=
  let all_dates_before_target :=
    Py.unique (map date (filter (fun r => (date r <= target_date)%Z) df)) in
  let all_dates_before_target := sorted_reverse all_dates_before_target in
  if (lookback_days <=? length all_dates_before_target)%nat
  then Py.slice 0 lookback_days all_dates_before_target
  else all_dates_before_target.

Definition historical_data (df : list Row) (target_date : Z)
    (lookback_days : nat) : list Row :=
  isin_dates (lookback_dates df target_date lookback_days) df.

(** [calculate_combined_options_percentiles]: the Call and the Put
    columns pooled; [None] stands for the tuple of four [None]s. *)
Definition calculate_combined_options_percentiles
    (historical_data : list Row) (inst : string)
    : Py.result (option Percentile.ThresholdSet) :=
  let hist_inst_data :=
    filter (fun r => institution r = inst) historical_data in
  if (length hist_inst_data <? 10)%nat then mret None
  else
    let combined_oi_values :=
      (column_values CALL_OI inst historical_data
       ++ column_values PUT_OI inst historical_data)%list in
    let combined_change_values :=
      (column_values CALL_OI_CHANGE inst historical_data
       ++ column_values PUT_OI_CHANGE inst historical_data)%list in
    let oi_sorted := sorted (map Qabs combined_oi_values) in
    let change_sorted := sorted (map Qabs combined_change_values) in
    if ((length oi_sorted =? 0) || (length change_sorted =? 0))%nat
    then mret None
    else
      ts ← Percentile.segment_thresholds Percentile.Platform.get_threshold
              combined_oi_values combined_change_values;
      mret (Some ts).

(** The thresholds of the Index Futures segment of one institution for
    [target_date] (the branch of the other calculation type); [None] when
    the institution has fewer than 10 rows in the window, in which case
    the segment is skipped. *)
Definition futures_thresholds (df : list Row) (target_date : Z)
    (lookback_days : nat) (inst : string)
    : Py.result (option Percentile.ThresholdSet) :=
  let historical_data := historical_data df target_date lookback_days in
  let hist_inst_data :=
    filter (fun r => institution r = inst) historical_data in
  if (length hist_inst_data <? 10)%nat then mret None
  else
    ts ← Percentile.segment_thresholds Percentile.Platform.get_threshold
            (column_values FUTURE_INDEX inst historical_data)
            (column_values FUTURE_INDEX_CHANGE inst historical_data);
    mret (Some ts).

(** The thresholds of the Call and Put segments for [target_date]. *)
Definition options_thresholds (df : list Row) (target_date : Z)
    (lookback_days : nat) (inst : string)
    : Py.result (option Percentile.ThresholdSet) :=
  calculate_combined_options_percentiles
    (historical_data df target_date lookback_days) inst.

End Rolling.

(** The respective-percentile script, [calculate_accuracy_summary]: one
    window for the whole run. *)
Module Fixed.

Definition all_dates (df : list Row) : list Z :=
  sorted_reverse (Py.unique (map date df)).

Definition analysis_dates (df : list Row) (lookback_days : nat) : list Z :=
  Py.slice 1 lookback_days (all_dates df).

Definition historical_data (df : list Row) (lookback_days : nat)
    : list Row :=
  isin_dates (Py.slice 0 lookback_days (all_dates df)) df.

(** [calculate_respective_percentiles]: per segment, thresholds exist
    when both samples are non-empty. *)
Definition calculate_respective_percentiles (historical_data : list Row)
    (inst : string) : Py.result (gmap string Percentile.ThresholdSet) :=
  let segment (name : string) (oi_col change_col : Row -> option Q)
      (percentiles : gmap string Percentile.ThresholdSet)
      : Py.result (gmap string Percentile.ThresholdSet) :=
    let oi_values := column_values oi_col inst historical_data in
    let change_values := column_values change_col inst historical_data in
    if ((0 <? length oi_values) && (0 <? length change_values))%nat
    then
      p ← Percentile.segment_thresholds Percentile.Guarded.get_threshold
             oi_values change_values;
      mret (<[name := p]> percentiles)
    else mret percentiles in
  p1 ← segment "Index Futures" FUTURE_INDEX FUTURE_INDEX_CHANGE ∅;
  p2 ← segment "Call Options" CALL_OI CALL_OI_CHANGE p1;
  segment "Put Options" PUT_OI PUT_OI_CHANGE p2.

(** [institution_percentiles_acc]: computed once, before any date is
    scored. *)
Definition institution_percentiles_acc (df : list Row)
    (lookback_days : nat)
    : Py.result (gmap string (gmap string Percentile.ThresholdSet)) :=
  let historical_data := historical_data df lookback_days in
  foldl (fun acc inst =>
           m ← acc;
           let inst_hist :=
             filter (fun r => institution r = inst) historical_data in
           if bool_decide (inst_hist <> [])
           then
             p ← calculate_respective_percentiles inst_hist inst;
             mret (<[inst := p]> m)
           else mret m)
        (mret ∅) ["FII"; "PRO"; "CLIENT"].

(** [institution_percentiles[institution][percentile_key]], as
    [calculate_strength_for_date] reads it for every date it is given. *)
Definition p_data
    (institution_percentiles :
       Py.result (gmap string (gmap string Percentile.ThresholdSet)))
    (inst percentile_key : string) : option Percentile.ThresholdSet :=
  match institution_percentiles with
  | Py.Return m => m !! inst ≫= fun p => p !! percentile_key
  | Py.Raise _ => None
  end.

End Fixed.

End Window.

(** ** BacktestEvaluator *)

Module Backtest.

(** One value of the expectation table: [{"CLIENT": ..., "OTHER": ...}]. *)
Record Expectation : Type := mkExpectation {
  exp_CLIENT : string;
  exp_OTHER : string
}.

Definition expectations_entries : list ((string * string) * Expectation) :=
  [ (("INDECISIVE", "MEDIUM BEARISH"), mkExpectation "FLAT OR UP" "DOWN");
    (("INDECISIVE", "MEDIUM BULLISH"), mkExpectation "FLAT OR DOWN" "FLAT OR UP");
    (("INDECISIVE", "MILD BEARISH"), mkExpectation EmptyString EmptyString);
    (("INDECISIVE", "MILD BULLISH"), mkExpectation EmptyString EmptyString);
    (("INDECISIVE", "STRONG BEARISH"), mkExpectation "FLAT OR UP" "DOWN");
    (("INDECISIVE", "STRONG BULLISH"), mkExpectation "DOWN" "FLAT OR UP");
    (("MEDIUM BEARISH", "INDECISIVE"), mkExpectation "FLAT OR UP" "DOWN");
    (("MEDIUM BEARISH", "MEDIUM BEARISH"), mkExpectation "FLAT OR UP" "DOWN");
    (("MEDIUM BEARISH", "MEDIUM BULLISH"), mkExpectation "VOLATILE" "NEUTRAL");
    (("MEDIUM BEARISH", "MILD BEARISH"), mkExpectation "FLAT OR UP" "FLAT OR DOWN");
    (("MEDIUM BEARISH", "MILD BULLISH"), mkExpectation "FLAT OR UP" "FLAT OR DOWN");
    (("MEDIUM BEARISH", "STRONG BEARISH"), mkExpectation "FLAT OR UP" "DOWN");
    (("MEDIUM BEARISH", "STRONG BULLISH"), mkExpectation "DOWN" "FLAT OR UP");
    (("MEDIUM BULLISH", "INDECISIVE"), mkExpectation "FLAT OR DOWN" "UP");
    (("MEDIUM BULLISH", "MEDIUM BEARISH"), mkExpectation "FLAT" "NEUTRAL");
    (("MEDIUM BULLISH", "MEDIUM BULLISH"), mkExpectation "FLAT OR DOWN" "UP");
    (("MEDIUM BULLISH", "MILD BEARISH"), mkExpectation "FLAT OR DOWN" "UP");
    (("MEDIUM BULLISH", "MILD BULLISH"), mkExpectation "FLAT OR DOWN" "UP");
    (("MEDIUM BULLISH", "STRONG BEARISH"), mkExpectation "FLAT OR UP" "DOWN");
    (("MEDIUM BULLISH", "STRONG BULLISH"), mkExpectation "DOWN" "FLAT OR UP");
    (("MILD BEARISH", "INDECISIVE"), mkExpectation EmptyString EmptyString);
    (("MILD BEARISH", "MEDIUM BEARISH"), mkExpectation "FLAT OR UP" "FLAT OR DOWN");
    (("MILD BEARISH", "MEDIUM BULLISH"), mkExpectation "FLAT OR DOWN" "FLAT OR UP");
    (("MILD BEARISH", "MILD BEARISH"), mkExpectation EmptyString EmptyString);
    (("MILD BEARISH", "MILD BULLISH"), mkExpectation EmptyString EmptyString);
    (("MILD BEARISH", "STRONG BEARISH"), mkExpectation "FLAT OR UP" "DOWN");
    (("MILD BEARISH", "STRONG BULLISH"), mkExpectation "DOWN" "FLAT OR UP");
    (("MILD BULLISH", "INDECISIVE"), mkExpectation EmptyString EmptyString);
    (("MILD BULLISH", "MEDIUM BEARISH"), mkExpectation "FLAT OR UP" "DOWN");
    (("MILD BULLISH", "MEDIUM BULLISH"), mkExpectation "FLAT OR DOWN" "FLAT OR UP");
    (("MILD BULLISH", "MILD BEARISH"), mkExpectation EmptyString EmptyString);
    (("MILD BULLISH", "MILD BULLISH"), mkExpectation "FLAT OR DOWN" "UP");
    (("MILD BULLISH", "STRONG BEARISH"), mkExpectation "FLAT OR UP" "DOWN");
    (("MILD BULLISH", "STRONG BULLISH"), mkExpectation "DOWN" "FLAT OR UP");
    (("STRONG BEARISH", "INDECISIVE"), mkExpectation "FLAT OR UP" "FLAT OR DOWN");
    (("STRONG BEARISH", "MEDIUM BEARISH"), mkExpectation "UP" "FLAT OR DOWN");
    (("STRONG BEARISH", "MEDIUM BULLISH"), mkExpectation "FLAT OR UP" "FLAT OR DOWN");
    (("STRONG BEARISH", "MILD BEARISH"), mkExpectation "UP" "FLAT OR DOWN");
    (("STRONG BEARISH", "MILD BULLISH"), mkExpectation "UP" "FLAT OR DOWN");
    (("STRONG BEARISH", "STRONG BEARISH"), mkExpectation "UP" "DOWN");
    (("STRONG BEARISH", "STRONG BULLISH"), mkExpectation "VOLATILE" "NEUTRAL");
    (("STRONG BULLISH", "INDECISIVE"), mkExpectation "FLAT OR DOWN" "UP");
    (("STRONG BULLISH", "MEDIUM BEARISH"), mkExpectation "FLAT OR DOWN" "UP");
    (("STRONG BULLISH", "MEDIUM BULLISH"), mkExpectation "FLAT OR DOWN" "UP");
    (("STRONG BULLISH", "MILD BEARISH"), mkExpectation "FLAT OR DOWN" "UP");
    (("STRONG BULLISH", "MILD BULLISH"), mkExpectation "FLAT OR DOWN" "UP");
    (("STRONG BULLISH", "STRONG BEARISH"), mkExpectation "FLAT" "VOLATILE");
    (("STRONG BULLISH", "STRONG BULLISH"), mkExpectation "DOWN" "UP");
    (("INDECISIVE", "INDECISIVE"), mkExpectation EmptyString EmptyString) ].

Definition expectations : gmap (string * string) Expectation :=
  Py.dict_literal expectations_entries.

(** [{'correct': c, 'wrong': w, 'indecisive': i}] *)
Record Counts : Type := mkCounts {
  correct : nat;
  wrong : nat;
  indecisive : nat
}.

Definition incr_correct (c : Counts) : Counts :=
  mkCounts (S (correct c)) (wrong c) (indecisive c).
Definition incr_wrong (c : Counts) : Counts :=
  mkCounts (correct c) (S (wrong c)) (indecisive c).
Definition incr_indecisive (c : Counts) : Counts :=
  mkCounts (correct c) (wrong c) (S (indecisive c)).

(** The fields of a result of [calculate_strength_for_date] that the
    evaluator reads. *)
Record StrengthResult : Type := mkResult {
  r_institution : string;
  r_segment : string;
  r_final_strength : string
}.

Definition institutions : list string := ["CLIENT"; "PRO"; "FII"].

Definition thresholds : list Q := [(2 # 10)%Q; (3 # 10)%Q; (4 # 10)%Q].

(** The expectation string for a pair of final strengths and an
    institution. *)
Definition exp_str_for (inst call_strength put_strength : string) : string :=
  let key := (call_strength, put_strength) in
  let exp :=
    Py.dict_get expectations key (mkExpectation EmptyString EmptyString) in
  let client_exp := exp_CLIENT exp in
  let other_exp := exp_OTHER exp in
  let is_client := bool_decide (inst = "CLIENT") in
  if is_client then client_exp else other_exp.

(** The chain [if exp_str == "UP": ... elif ...]: [Some correct], or [None]
    when no branch applies. *)
Definition judge (exp_str : string) (next_change_pct actual_threshold : Q)
    : option bool :=
  let is_up := Py.Qgt_bool next_change_pct 0 in
  let is_down := Py.Qlt_bool next_change_pct 0 in
  let is_flat := Qle_bool (Qabs next_change_pct) actual_threshold in
  let is_volatile := Py.Qgt_bool (Qabs next_change_pct) actual_threshold in
  if bool_decide (exp_str = "UP") then Some is_up
  else if bool_decide (exp_str = "DOWN") then Some is_down
  else if bool_decide (exp_str ∈ ["FLAT"; "NEUTRAL"]) then Some is_flat
  else if bool_decide (exp_str = "FLAT OR UP")
  then Some (Py.Qge_bool next_change_pct (- actual_threshold))
  else if bool_decide (exp_str = "FLAT OR DOWN")
  then Some (Qle_bool next_change_pct actual_threshold)
  else if bool_decide (exp_str = "VOLATILE") then Some is_volatile
  else None.

(** What one (date, institution) adds to that institution's counts, given
    the two final strengths. *)
Definition score (actual_threshold next_change_pct : Q)
    (inst call_strength put_strength : string) (c : Counts) : Counts :=
  let exp_str := exp_str_for inst call_strength put_strength in
  if bool_decide (exp_str = EmptyString)
  then incr_indecisive c
  else
    match judge exp_str next_change_pct actual_threshold with
    | None => incr_indecisive c
    | Some true => incr_correct c
    | Some false => incr_wrong c
    end.

(** The body of [for institution in institutions]: the institution's
    results indexed by segment (a later result of the same segment
    replaces an earlier one); nothing is counted when the Call or the Put
    result is absent. *)
Definition score_institution (actual_threshold next_change_pct : Q)
    (results : list StrengthResult)
    (counts : gmap string Counts) (inst : string) : gmap string Counts :=
  let inst_results : gmap string StrengthResult :=
    Py.dict_literal
      (map (fun r => (r_segment r, r))
           (filter (fun r => r_institution r = inst) results)) in
  match inst_results !! "Call Options", inst_results !! "Put Options" with
  | Some call_result, Some put_result =>
      alter (score actual_threshold next_change_pct inst
               (r_final_strength call_result) (r_final_strength put_result))
            inst counts
  | _, _ => counts
  end.

(** [next_change_pct] of a date, [None] when the date is skipped (no next
    trading day, or a close is missing). *)
Definition next_change_pct_of (sorted_trading_dates : list Z)
    (date_to_nifty : gmap Z Q) (date : Z) : Py.result (option Q) :=
  let date_to_idx : gmap Z nat :=
    Py.dict_literal (imap (fun idx d => (d, idx)) sorted_trading_dates) in
  match date_to_idx !! date with
  | None => mret None
  | Some date_idx =>
      if (length sorted_trading_dates <=? date_idx + 1)%nat then mret None
      else
        next_date ← Py.getitem sorted_trading_dates (Z.of_nat date_idx + 1);
        match date_to_nifty !! next_date, date_to_nifty !! date with
        | Some next_nifty, Some current_nifty =>
            if Qeq_bool current_nifty 0 then Py.Raise Py.ZeroDivisionError
            else mret (Some (((next_nifty - current_nifty) / current_nifty)
                             * 100)%Q)
        | _, _ => mret None
        end
  end.

(** The counts of one threshold: the loop over
    [reversed(analysis_dates)].  [strength_for_date] stands for
    [self.calculate_strength_for_date(date, institution_percentiles_acc)]
    with the percentiles of the run. *)
Definition accuracy_counts (strength_for_date : Z -> list StrengthResult)
    (sorted_trading_dates : list Z) (date_to_nifty : gmap Z Q)
    (analysis_dates : list Z) (actual_threshold : Q)
    : Py.result (gmap string Counts) :=
  let counts0 : gmap string Counts :=
    Py.dict_literal (map (fun inst => (inst, mkCounts 0 0 0)) institutions) in
  foldl (fun acc date =>
           counts ← acc;
           pct ← next_change_pct_of sorted_trading_dates date_to_nifty date;
           match pct with
           | None => mret counts
           | Some next_change_pct =>
               let results := strength_for_date date in
               mret (foldl (score_institution actual_threshold
                              next_change_pct results)
                           counts institutions)
           end)
        (mret counts0) (reverse analysis_dates).

(** The expectation words, and what each of them predicts about the next
    day's return for a movement threshold [t], as the specification lists
    them. *)
Inductive Move : Type :=
| UP | DOWN | FLAT | NEUTRAL | FLAT_OR_UP | FLAT_OR_DOWN | VOLATILE.

Definition move_str (m : Move) : string :=
  match m with
  | UP => "UP"
  | DOWN => "DOWN"
  | FLAT => "FLAT"
  | NEUTRAL => "NEUTRAL"
  | FLAT_OR_UP => "FLAT OR UP"
  | FLAT_OR_DOWN => "FLAT OR DOWN"
  | VOLATILE => "VOLATILE"
  end.

Definition predicted (m : Move) (nextReturnPct t : Q) : Prop :=
  match m with
  | UP => (0 < nextReturnPct)%Q
  | DOWN => (nextReturnPct < 0)%Q
  | FLAT | NEUTRAL => (Qabs nextReturnPct <= t)%Q
  | FLAT_OR_UP => (- t <= nextReturnPct)%Q
  | FLAT_OR_DOWN => (nextReturnPct <= t)%Q
  | VOLATILE => (t < Qabs nextReturnPct)%Q
  end.

(** [(c / total_dec * 100) if total_dec > 0 else 0] *)
Definition percent_correct (c : Counts) : Q :=
  let total_dec := (correct c + wrong c)%nat in
  if (0 <? total_dec)%nat
  then ((inject_Z (Z.of_nat (correct c)) / inject_Z (Z.of_nat total_dec))
        * 100)%Q
  else 0%Q.

(** One printed line of the summary: institution, correct, wrong,
    indecisive, percentage. *)
Definition report_rows (counts : gmap string Counts)
    : list (string * Counts * Q) :=
  omap (fun inst =>
          c ← counts !! inst;
          Some (inst, c, percent_correct c))
       ["CLIENT"; "PRO"; "FII"].

(** [calculate_accuracy_summary] on a data frame: the percentiles are those
    of the fixed window; every analysed date is scored with them, once per
    threshold.  [calculate_strength_for_date] is the script's method of
    that name. *)
Definition calculate_accuracy_summary
    (calculate_strength_for_date :
       Z -> gmap string (gmap string Percentile.ThresholdSet)
       -> list StrengthResult)
    (df : list Window.Row) (date_to_nifty : gmap Z Q) (lookback_days : nat)
    : Py.result (list (Q * list (string * Counts * Q))) :=
  let all_dates := Window.Fixed.all_dates df in
  let analysis_dates := Window.Fixed.analysis_dates df lookback_days in
  institution_percentiles_acc ←
    Window.Fixed.institution_percentiles_acc df lookback_days;
  let sorted_trading_dates := merge_sort Z.le all_dates in
  foldl (fun acc actual_threshold =>
           report ← acc;
           counts ← accuracy_counts
                      (fun date => calculate_strength_for_date date
                                     institution_percentiles_acc)
                      sorted_trading_dates date_to_nifty analysis_dates
                      actual_threshold;
           mret (report
                 ++ [(actual_threshold, report_rows counts)])%list)
        (mret []) thresholds.

End Backtest.

(** ** The strength pipeline of the two fixed-percentile scripts *)

Module Pipeline.

(** The rank of a tier in the order MILD < MEDIUM < STRONG. *)
Definition tier_rank (t : StrengthTier) : nat :=
  match t with
  | MILD => 0
  | MEDIUM => 1
  | STRONG => 2
  end.

(** One dict of [results]. *)
Record Result : Type := mkResult {
  date : Z;
  institution : string;
  segment : string;
  net_oi : option Q;
  change : option Q;
  final_strength : string
}.

(** [get_strength_level] and [get_direction] on a value that may be NaN
    ([None]): every comparison with NaN is false, so [abs(nan) >= t] fails
    both tests of the first and [nan > 0] fails the test of the second. *)
Definition strength_level (value : option Q)
    (percentile_80 percentile_40_20 : Q) (is_change : bool) : string :=
  match value with
  | Some v =>
      Classifier.Respective.get_strength_level
        v percentile_80 percentile_40_20 is_change
  | None => "MILD"
  end.

Definition direction (value : option Q) (segment_name : string) : string :=
  match value with
  | Some v => Classifier.Respective.get_direction v segment_name
  | None =>
      if Py.contains "Put Options" segment_name then "BULLISH" else "BEARISH"
  end.

(** [a - b] on values that may be NaN. *)
Definition sub (a b : option Q) : option Q :=
  match a, b with
  | Some x, Some y => Some (x - y)%Q
  | _, _ => None
  end.

(** The body of [for segment_name, oi_col, change_col, percentile_key in
    segments]: the result appended for one segment. *)
Definition segment_result (target_date : Z) (inst : string)
    (seg : string * option Q * option Q * Percentile.ThresholdSet)
    : Result :=
  let '(segment_name, current_oi, current_change, p_data) := seg in
  let oi_strength :=
    strength_level current_oi (Percentile.oi_p80 p_data)
      (Percentile.oi_p40 p_data) false in
  let change_strength :=
    strength_level current_change (Percentile.change_p80 p_data)
      (Percentile.change_p20 p_data) true in
  let oi_direction := direction current_oi segment_name in
  let change_direction := direction current_change segment_name in
  let final_strength :=
    SignalComposer.apply_truth_table
      oi_strength oi_direction change_strength change_direction in
  mkResult target_date inst segment_name current_oi current_change
    final_strength.

(** The list [segments] with, for each entry, the values of the first row
    of the institution ([iloc[0]]) and the thresholds of its percentile
    key; an entry exists when its percentile key is present (the frame has
    all six columns). *)
Definition segments_of (row : Window.Row)
    (futures_p call_p put_p : option Percentile.ThresholdSet)
    : list (string * option Q * option Q * Percentile.ThresholdSet) :=
  (match futures_p with
   | Some p => [("Index Futures", Window.FUTURE_INDEX row,
                 Window.FUTURE_INDEX_CHANGE row, p)]
   | None => []
   end
   ++ match call_p with
      | Some p => [("Call Options", Window.CALL_OI row,
                    Window.CALL_OI_CHANGE row, p)]
      | None => []
      end
   ++ match put_p with
      | Some p => [("Put Options", Window.PUT_OI row,
                    Window.PUT_OI_CHANGE row, p)]
      | None => []
      end)%list.

(** [next((r for r in results if r['segment'] == name and
    r['institution'] == institution), None)] *)
Definition find_result (name inst : string) (results : list Result)
    : option Result :=
  head (filter (fun r => segment r = name /\ institution r = inst) results).

(** The Net Options result of an institution, appended when its Call and
    Put results are both there. *)
Definition with_net_options
    (net_oi_mapping : gmap ((string * string) * (string * string))
                           (string * string))
    (target_date : Z) (inst : string) (results : list Result)
    : list Result :=
  match find_result "Call Options" inst results,
        find_result "Put Options" inst results with
  | Some call_result, Some put_result =>
      let net_final :=
        NetOptions.net_final net_oi_mapping
          (final_strength call_result) (final_strength put_result) in
      let net_oi := sub (net_oi call_result) (net_oi put_result) in
      let net_change := sub (change call_result) (change put_result) in
      (results
       ++ [mkResult target_date inst "Net Options" net_oi net_change
             net_final])%list
  | _, _ => results
  end.

(** The body of [for institution in ['FII', 'PRO', 'CLIENT']] once the
    percentiles of the institution are known. *)
Definition institution_step
    (net_oi_mapping : gmap ((string * string) * (string * string))
                           (string * string))
    (target_data : list Window.Row) (target_date : Z)
    (futures_p call_p put_p : option Percentile.ThresholdSet)
    (results : list Result) (inst : string) : list Result :=
  match filter (fun r => Window.institution r = inst) target_data with
  | [] => results
  | row :: _ =>
      let results :=
        (results
         ++ map (segment_result target_date inst)
              (segments_of row futures_p call_p put_p))%list in
      with_net_options net_oi_mapping target_date inst results
  end.

(** The respective-percentile script. *)
Module Respective.

Definition calculate_strength_for_date (df : list Window.Row)
    (target_date : Z)
    (institution_percentiles :
       gmap string (gmap string Percentile.ThresholdSet))
    : list Result :=
  let target_data := filter (fun r => Window.date r = target_date) df in
  foldl (fun results inst =>
           match institution_percentiles !! inst with
           | None => results
           | Some inst_percentiles =>
               institution_step NetOptions.Respective.net_oi_mapping
                 target_data target_date
                 (inst_percentiles !! "Index Futures")
                 (inst_percentiles !! "Call Options")
                 (inst_percentiles !! "Put Options")
                 results inst
           end)
        [] ["FII"; "PRO"; "CLIENT"].

End Respective.

(** fii_strength_calculator_3.py: one dict of percentiles for all the
    institutions, the options pooled under one key. *)
Module Combined.

Definition calculate_strength_for_date (df : list Window.Row)
    (target_date : Z)
    (combined_percentiles : gmap string Percentile.ThresholdSet)
    : list Result :=
  let target_data := filter (fun r => Window.date r = target_date) df in
  foldl (institution_step NetOptions.Combined.net_oi_mapping
           target_data target_date
           (combined_percentiles !! "Index Futures")
           (combined_percentiles !! "Combined Options")
           (combined_percentiles !! "Combined Options"))
        [] ["FII"; "PRO"; "CLIENT"].

End Combined.

(** What a list of results of one date looks like, for a Net Options
    table [m], a data frame [df], a target date [d] and the institutions
    [insts]: every result carries the date, one of the institutions (which
    has a row on that date) and either a segment label or the Net Options
    name; no institution has two results of one segment; a Net Options
    result comes with the Call and Put results it was computed from, and
    an institution with a Call and a Put result has a Net Options result. *)
Definition coherent
    (m : gmap ((string * string) * (string * string)) (string * string))
    (df : list Window.Row) (d : Z) (insts : list string)
    (results : list Result) : Prop :=
  (forall r, r ∈ results ->
     date r = d /\ institution r ∈ insts
     /\ (exists row, row ∈ df /\ Window.date row = d
                     /\ Window.institution row = institution r)
     /\ (segment r = "Net Options"
         \/ (segment r ∈ ["Index Futures"; "Call Options"; "Put Options"]
             /\ exists l : Label, final_strength r = label_str l)))
  /\ NoDup (map (fun r => (institution r, segment r)) results)
  /\ (forall net, net ∈ results -> segment net = "Net Options" ->
        exists call put,
          call ∈ results /\ put ∈ results
          /\ institution call = institution net
          /\ institution put = institution net
          /\ segment call = "Call Options" /\ segment put = "Put Options"
          /\ net_oi net = sub (net_oi call) (net_oi put)
          /\ change net = sub (change call) (change put)
          /\ final_strength net
             = NetOptions.net_final m (final_strength call)
                 (final_strength put))
  /\ (forall call put, call ∈ results -> put ∈ results ->
        institution call = institution put ->
        segment call = "Call Options" -> segment put = "Put Options" ->
        exists net, net ∈ results /\ institution net = institution call
                    /\ segment net = "Net Options").

(** What the accuracy summary reads of a result. *)
Definition to_backtest (r : Result) : Backtest.StrengthResult :=
  Backtest.mkResult (institution r) (segment r) (final_strength r).

End Pipeline.

(** ** The preparation of the data frame *)

(** [load_data] of fii_strength_calculator_3.py and of the
    respective-percentile script, after the query and the pivot. *)
Module Loader.

(** One row of the pivoted frame, before the changes are computed. *)
Record Raw : Type := mkRaw {
  date : Z;
  institution : string;
  FUTURE_INDEX : option Q;
  CALL_OI : option Q;
  PUT_OI : option Q
}.

(** One cell of [df.groupby('institution')[col].diff()] followed by
    [.fillna(0)]: [prev] is the cell of the previous row of the same
    institution, if there is one.  A difference with a missing operand is
    missing, and every missing difference becomes 0. *)
Definition diff_fillna (cur : option Q) (prev : option (option Q)) : Q :=
  match cur, prev with
  | Some x, Some (Some y) => (x - y)%Q
  | _, _ => 0%Q
  end.

(** A row with its three change columns, [prev] being the previous row of
    its institution. *)
Definition change_row (r : Raw) (prev : option Raw) : Window.Row :=
  Window.mkRow (date r) (institution r)
    (FUTURE_INDEX r)
    (Some (diff_fillna (FUTURE_INDEX r) (FUTURE_INDEX <$> prev)))
    (CALL_OI r)
    (Some (diff_fillna (CALL_OI r) (CALL_OI <$> prev)))
    (PUT_OI r)
    (Some (diff_fillna (PUT_OI r) (PUT_OI <$> prev))).

(** The loop over [change_cols] on the rows in frame order; [last] holds,
    per institution, the last row seen. *)
Fixpoint with_changes (last : gmap string Raw) (rows : list Raw)
    : list Window.Row :=
  match rows with
  | [] => []
  | r :: rows' =>
      change_row r (last !! institution r)
      :: with_changes (<[institution r := r]> last) rows'
  end.

(** [rows] is the frame as [sort_values(['date', 'institution'])] leaves
    it. *)
Definition load_data (rows : list Raw) : list Window.Row :=
  filter (fun r => Window.institution r ∈ ["FII"; "PRO"; "CLIENT"])
         (with_changes ∅ rows).

End Loader.

(** ** fii_strength_calculator.py: the first version of the direction
    rule *)

Module V1.

Definition get_direction (value : Q) (segment_type : string) : string :=
  if bool_decide
       (segment_type ∈ ["FUTURE_INDEX"; "FUTURE-INDEX"; "INDEX_FUTURES"])
  then (if Py.Qgt_bool value 0 then "BULLISH" else "BEARISH")
  else if bool_decide (segment_type ∈ ["CALL"; "CALL_OPTIONS"])
  then (if Py.Qgt_bool value 0 then "BULLISH" else "BEARISH")
  else if bool_decide (segment_type ∈ ["PUT"; "PUT_OPTIONS"])
  then (if Py.Qgt_bool value 0 then "BEARISH" else "BULLISH")
  else (if Py.Qgt_bool value 0 then "BULLISH" else "BEARISH").

(** The second component of the entries of [segments_to_analyze], which
    [calculate_strength_for_date] passes to [get_direction]. *)
Definition oi_cols : list string := ["FUTURE_INDEX"; "CALL_OI"; "PUT_OI"].

End V1.

(** ** fii_strength_calculator_3.py: percentiles pooled over the
    institutions *)

Module Pooled.




End Pooled.

(** ** fii_dii_helper_v2.py: the classification of the platform *)

Module Helper.

Definition INDECISIVE : string := EmptyString.
Definition BULLISH : string := "BULLISH".
Definition BEARISH : string := "BEARISH".
Definition VOLATILE : string := "VOLATILE".
Definition NEUTRAL : string := "NEUTRAL".
Definition STRONG : string := "Strong".
Definition MEDIUM : string := "Medium".
Definition MILD : string := "Mild".

(** A value that may be [None]. *)
Definition get_view_for_net_value (net_value : option Q) : string :=
  match net_value with
  | None => INDECISIVE
  | Some net_value =>
      if Qeq_bool net_value 0 then INDECISIVE
      else if Py.Qgt_bool net_value 0 then BULLISH
      else BEARISH
  end.

Definition get_view_for_put_option (net_oi : option Q) : string :=
  match net_oi with
  | None => INDECISIVE
  | Some net_oi =>
      if Qeq_bool net_oi 0 then INDECISIVE
      else if Py.Qgt_bool net_oi 0 then BEARISH
      else BULLISH
  end.

Definition opt_abs (v : option Q) : option Q :=
  match v with
  | None => None
  | Some v => Some (Qabs v)
  end.

(** [opt_push(l, v)]: the list after the call. *)
Definition opt_push (l : list Q) (v : option Q) : list Q :=
  match v with
  | None => l
  | Some v => (l ++ [v])%list
  end.

(** [get_threshold] is, word for word, the estimator of
    custom_percentile_method_2.py. *)
Definition get_threshold : Q -> list Q -> Py.result Q :=
  Percentile.Platform.get_threshold.

Definition get_view_strength (value : option Q) (sorted_list : list Q)
    (medium_threshold strong_threshold : Q) : Py.result string :=
  let sorted_list_len := length sorted_list in
  if (sorted_list_len =? 0)%nat then mret INDECISIVE
  else
    one_third_threshold ← get_threshold medium_threshold sorted_list;
    two_third_threshold ← get_threshold strong_threshold sorted_list;
    match opt_abs value with
    | None => mret INDECISIVE
    | Some value =>
        if Py.Qge_bool value two_third_threshold then mret STRONG
        else if Py.Qge_bool value one_third_threshold then mret MEDIUM
        else mret MILD
    end.

Definition get_view_strength_for_oi (value : option Q)
    (sorted_list : list Q) : Py.result string :=
  get_view_strength value sorted_list 40 80.

Definition get_view_strength_for_oi_change (value : option Q)
    (sorted_list : list Q) : Py.result string :=
  get_view_strength value sorted_list 20 80.

Definition get_view_strength_old (value : option Q)
    (sorted_list : list Q) : Py.result string :=
  get_view_strength value sorted_list 33 66.

Definition net_mapping_entries
    : list (((string * string) * (string * string)) * (string * string)) :=
  [
    (((MEDIUM, BULLISH), (INDECISIVE, INDECISIVE)), (MEDIUM, BULLISH));
    (((MEDIUM, BULLISH), (MEDIUM, BEARISH)), (INDECISIVE, VOLATILE));
    (((MEDIUM, BULLISH), (MEDIUM, BULLISH)), (MEDIUM, BULLISH));
    (((MEDIUM, BULLISH), (STRONG, BEARISH)), (MEDIUM, BEARISH));
    (((MEDIUM, BULLISH), (STRONG, BULLISH)), (STRONG, BULLISH));
    (((MEDIUM, BULLISH), (MILD, BEARISH)), (MEDIUM, BULLISH));
    (((MEDIUM, BULLISH), (MILD, BULLISH)), (MEDIUM, BULLISH));
    (((MEDIUM, BEARISH), (INDECISIVE, INDECISIVE)), (MEDIUM, BEARISH));
    (((MEDIUM, BEARISH), (INDECISIVE, INDECISIVE)), (MEDIUM, BEARISH));
    (((MEDIUM, BEARISH), (MEDIUM, BEARISH)), (MEDIUM, BEARISH));
    (((MEDIUM, BEARISH), (MEDIUM, BULLISH)), (INDECISIVE, NEUTRAL));
    (((MEDIUM, BEARISH), (STRONG, BEARISH)), (STRONG, BEARISH));
    (((MEDIUM, BEARISH), (STRONG, BULLISH)), (STRONG, BULLISH));
    (((MEDIUM, BEARISH), (MILD, BEARISH)), (MEDIUM, BEARISH));
    (((MEDIUM, BEARISH), (MILD, BULLISH)), (MEDIUM, BEARISH));
    (((MEDIUM, BULLISH), (INDECISIVE, INDECISIVE)), (MEDIUM, BULLISH));
    (((STRONG, BULLISH), (INDECISIVE, INDECISIVE)), (STRONG, BULLISH));
    (((STRONG, BULLISH), (MEDIUM, BEARISH)), (MEDIUM, BULLISH));
    (((STRONG, BULLISH), (MEDIUM, BULLISH)), (STRONG, BULLISH));
    (((STRONG, BULLISH), (STRONG, BEARISH)), (INDECISIVE, VOLATILE));
    (((STRONG, BULLISH), (STRONG, BULLISH)), (STRONG, BULLISH));
    (((STRONG, BULLISH), (MILD, BEARISH)), (STRONG, BULLISH));
    (((STRONG, BULLISH), (MILD, BULLISH)), (STRONG, BULLISH));
    (((STRONG, BEARISH), (INDECISIVE, INDECISIVE)), (STRONG, BEARISH));
    (((STRONG, BEARISH), (INDECISIVE, INDECISIVE)), (STRONG, BEARISH));
    (((STRONG, BEARISH), (MEDIUM, BEARISH)), (STRONG, BEARISH));
    (((STRONG, BEARISH), (MEDIUM, BULLISH)), (MEDIUM, BEARISH));
    (((STRONG, BEARISH), (STRONG, BEARISH)), (STRONG, BEARISH));
    (((STRONG, BEARISH), (STRONG, BULLISH)), (INDECISIVE, NEUTRAL));
    (((STRONG, BEARISH), (MILD, BEARISH)), (STRONG, BEARISH));
    (((STRONG, BEARISH), (MILD, BULLISH)), (STRONG, BEARISH));
    (((STRONG, BULLISH), (INDECISIVE, INDECISIVE)), (STRONG, BULLISH));
    (((MILD, BULLISH), (INDECISIVE, INDECISIVE)), (INDECISIVE, INDECISIVE));
    (((MILD, BULLISH), (MEDIUM, BEARISH)), (MILD, BEARISH));
    (((MILD, BULLISH), (MEDIUM, BULLISH)), (MEDIUM, BULLISH));
    (((MILD, BULLISH), (STRONG, BEARISH)), (STRONG, BEARISH));
    (((MILD, BULLISH), (STRONG, BULLISH)), (STRONG, BULLISH));
    (((MILD, BULLISH), (MILD, BEARISH)), (INDECISIVE, INDECISIVE));
    (((MILD, BULLISH), (MILD, BULLISH)), (MILD, BULLISH));
    (((MILD, BEARISH), (INDECISIVE, INDECISIVE)), (INDECISIVE, INDECISIVE));
    (((MILD, BEARISH), (INDECISIVE, INDECISIVE)), (INDECISIVE, INDECISIVE));
    (((MILD, BEARISH), (MEDIUM, BEARISH)), (MEDIUM, BEARISH));
    (((MILD, BEARISH), (MEDIUM, BULLISH)), (MEDIUM, BULLISH));
    (((MILD, BEARISH), (STRONG, BEARISH)), (STRONG, BEARISH));
    (((MILD, BEARISH), (STRONG, BULLISH)), (STRONG, BULLISH));
    (((MILD, BEARISH), (MILD, BEARISH)), (INDECISIVE, INDECISIVE));
    (((MILD, BEARISH), (MILD, BULLISH)), (INDECISIVE, INDECISIVE));
    (((MILD, BULLISH), (INDECISIVE, INDECISIVE)), (INDECISIVE, INDECISIVE))
  ].

Definition get_net_strength_view_from_call_put_values
    (call_strength call_view put_strength put_view : string)
    : string * string :=
  let mapping := Py.dict_literal net_mapping_entries in
  Py.dict_get mapping
    ((call_strength, call_view), (put_strength, put_view))
    (INDECISIVE, INDECISIVE).

Definition mapping_entries
    : list (((string * string) * (string * string)) * (string * string)) :=
  [
    (((STRONG, BULLISH), (STRONG, BULLISH)), (STRONG, BULLISH));
    (((STRONG, BULLISH), (MEDIUM, BULLISH)), (STRONG, BULLISH));
    (((STRONG, BULLISH), (MILD, BULLISH)), (STRONG, BULLISH));
    (((STRONG, BULLISH), (STRONG, BEARISH)), (INDECISIVE, INDECISIVE));
    (((STRONG, BULLISH), (MEDIUM, BEARISH)), (INDECISIVE, INDECISIVE));
    (((STRONG, BULLISH), (MILD, BEARISH)), (STRONG, BULLISH));
    (((MEDIUM, BULLISH), (STRONG, BULLISH)), (STRONG, BULLISH));
    (((MEDIUM, BULLISH), (MEDIUM, BULLISH)), (MEDIUM, BULLISH));
    (((MEDIUM, BULLISH), (MILD, BULLISH)), (MEDIUM, BULLISH));
    (((MEDIUM, BULLISH), (STRONG, BEARISH)), (INDECISIVE, INDECISIVE));
    (((MEDIUM, BULLISH), (MEDIUM, BEARISH)), (INDECISIVE, INDECISIVE));
    (((MEDIUM, BULLISH), (MILD, BEARISH)), (MEDIUM, BULLISH));
    (((MILD, BULLISH), (STRONG, BULLISH)), (MEDIUM, BULLISH));
    (((MILD, BULLISH), (MEDIUM, BULLISH)), (MILD, BULLISH));
    (((MILD, BULLISH), (MILD, BULLISH)), (MILD, BULLISH));
    (((MILD, BULLISH), (STRONG, BEARISH)), (MEDIUM, BEARISH));
    (((MILD, BULLISH), (MEDIUM, BEARISH)), (INDECISIVE, INDECISIVE));
    (((MILD, BULLISH), (MILD, BEARISH)), (INDECISIVE, INDECISIVE));
    (((STRONG, BEARISH), (STRONG, BULLISH)), (INDECISIVE, INDECISIVE));
    (((STRONG, BEARISH), (MEDIUM, BULLISH)), (INDECISIVE, INDECISIVE));
    (((STRONG, BEARISH), (MILD, BULLISH)), (STRONG, BEARISH));
    (((STRONG, BEARISH), (STRONG, BEARISH)), (STRONG, BEARISH));
    (((STRONG, BEARISH), (MEDIUM, BEARISH)), (STRONG, BEARISH));
    (((STRONG, BEARISH), (MILD, BEARISH)), (STRONG, BEARISH));
    (((MEDIUM, BEARISH), (STRONG, BULLISH)), (INDECISIVE, INDECISIVE));
    (((MEDIUM, BEARISH), (MEDIUM, BULLISH)), (INDECISIVE, INDECISIVE));
    (((MEDIUM, BEARISH), (MILD, BULLISH)), (MEDIUM, BEARISH));
    (((MEDIUM, BEARISH), (STRONG, BEARISH)), (STRONG, BEARISH));
    (((MEDIUM, BEARISH), (MEDIUM, BEARISH)), (MEDIUM, BEARISH));
    (((MEDIUM, BEARISH), (MILD, BEARISH)), (MEDIUM, BEARISH));
    (((MILD, BEARISH), (STRONG, BULLISH)), (MEDIUM, BULLISH));
    (((MILD, BEARISH), (MEDIUM, BULLISH)), (INDECISIVE, INDECISIVE));
    (((MILD, BEARISH), (MILD, BULLISH)), (INDECISIVE, INDECISIVE));
    (((MILD, BEARISH), (STRONG, BEARISH)), (MEDIUM, BEARISH));
    (((MILD, BEARISH), (MEDIUM, BEARISH)), (MILD, BEARISH));
    (((MILD, BEARISH), (MILD, BEARISH)), (MILD, BEARISH))
  ].

Definition get_strength_view_from_oi_and_oi_change_strength
    (oi_view oi_strength oi_change_view oi_change_strength : string)
    : string * string :=
  let mapping := Py.dict_literal mapping_entries in
  Py.dict_get mapping
    ((oi_strength, oi_view), (oi_change_strength, oi_change_view))
    (INDECISIVE, INDECISIVE).

(** [augment_indicators], the summary of one options segment of one
    participant: [view] is [get_view_for_net_value] for calls and
    [get_view_for_put_option] for puts; the two lists are the sorted
    absolute values of the last sixty days. *)
Definition segment_summary (view : option Q -> string)
    (oi oi_change : option Q) (oi_vals oi_change_vals : list Q)
    : Py.result (string * string) :=
  let oi_view := view oi in
  oi_strength ← get_view_strength_for_oi oi oi_vals;
  let oi_change_view := view oi_change in
  oi_change_strength ←
    get_view_strength_for_oi_change oi_change oi_change_vals;
  mret (get_strength_view_from_oi_and_oi_change_strength
          oi_view oi_strength oi_change_view oi_change_strength).

End Helper.

(** The platform's strength and view for a label of the scripts. *)
Definition helper_tier (t : StrengthTier) : string :=
  match t with
  | MILD => Helper.MILD
  | MEDIUM => Helper.MEDIUM
  | STRONG => Helper.STRONG
  end.

Definition helper_pair (l : Label) : string * string :=
  match l with
  | Decisive t d => (helper_tier t, direction_str d)
  | INDECISIVE => (Helper.INDECISIVE, Helper.INDECISIVE)
  end.

(** The platform's spelling of a word of the scripts' Net Options
    table. *)
Definition helper_word (w : string) : string :=
  if bool_decide (w = "STRONG") then Helper.STRONG
  else if bool_decide (w = "MEDIUM") then Helper.MEDIUM
  else if bool_decide (w = "MILD") then Helper.MILD
  else if bool_decide (w = "INDECISIVE") then Helper.INDECISIVE
  else w.

(** ** The back-test in the words of the specification *)

(** What one scored (date, institution) counts as. *)
Inductive Verdict : Type := Correct | Wrong | Undecided.

#[global] Instance Verdict_eq_dec : EqDecision Verdict.
Proof. solve_decision. Defined.

(** The expectation word a string spells, if any. *)
Definition word_of (exp_str : string) : option Backtest.Move :=
  if bool_decide (exp_str = "UP") then Some Backtest.UP
  else if bool_decide (exp_str = "DOWN") then Some Backtest.DOWN
  else if bool_decide (exp_str = "FLAT") then Some Backtest.FLAT
  else if bool_decide (exp_str = "NEUTRAL") then Some Backtest.NEUTRAL
  else if bool_decide (exp_str = "FLAT OR UP") then Some Backtest.FLAT_OR_UP
  else if bool_decide (exp_str = "FLAT OR DOWN")
  then Some Backtest.FLAT_OR_DOWN
  else if bool_decide (exp_str = "VOLATILE") then Some Backtest.VOLATILE
  else None.

#[global] Instance predicted_dec (m : Backtest.Move) (nextReturnPct t : Q) :
  Decision (Backtest.predicted m nextReturnPct t).
Proof.
  destruct m; simpl.
  - destruct (Qlt_le_dec 0 nextReturnPct) as [Hlt | Hle];
      [left; exact Hlt | right; exact (Qle_not_lt _ _ Hle)].
  - destruct (Qlt_le_dec nextReturnPct 0) as [Hlt | Hle];
      [left; exact Hlt | right; exact (Qle_not_lt _ _ Hle)].
  - apply Qle_rel_dec.
  - apply Qle_rel_dec.
  - apply Qle_rel_dec.
  - apply Qle_rel_dec.
  - destruct (Qlt_le_dec t (Qabs nextReturnPct)) as [Hlt | Hle];
      [left; exact Hlt | right; exact (Qle_not_lt _ _ Hle)].
Defined.

(** Steps 3 and 4 of the specification for one expectation string: an
    empty expectation is undecided; a word is correct exactly when what it
    predicts holds for the next-day return and the threshold. *)
Definition spec_verdict (exp_str : string) (nextReturnPct t : Q) : Verdict :=
  match word_of exp_str with
  | Some m =>
      if decide (Backtest.predicted m nextReturnPct t) then Correct
      else Wrong
  | None => Undecided
  end.

(** The Call label and the Put label of an institution in the results of
    a date: the final strengths of its Call Options and Put Options
    results (the last one, were there several). *)
Definition spec_labels (results : list Backtest.StrengthResult)
    (inst : string) : option (string * string) :=
  call ←
    last (filter (fun r => Backtest.r_segment r = "Call Options"
                           /\ Backtest.r_institution r = inst) results);
  put ←
    last (filter (fun r => Backtest.r_segment r = "Put Options"
                           /\ Backtest.r_institution r = inst) results);
  Some (Backtest.r_final_strength call, Backtest.r_final_strength put).

(** The verdict of a date for an institution and a threshold; [None] when
    the date is not scored for it (no next trading day or close, or no
    Call or Put label). *)
Definition spec_date_verdict
    (strength_for_date : Z -> list Backtest.StrengthResult)
    (sorted_trading_dates : list Z) (date_to_nifty : gmap Z Q) (t : Q)
    (inst : string) (date : Z) : option Verdict :=
  match Backtest.next_change_pct_of sorted_trading_dates date_to_nifty
          date with
  | Py.Return (Some nextReturnPct) =>
      labels ← spec_labels (strength_for_date date) inst;
      Some (spec_verdict (Backtest.exp_str_for inst labels.1 labels.2)
              nextReturnPct t)
  | _ => None
  end.

(** The number of analysis dates with a given verdict. *)
Definition spec_tally
    (strength_for_date : Z -> list Backtest.StrengthResult)
    (sorted_trading_dates : list Z) (date_to_nifty : gmap Z Q)
    (analysis_dates : list Z) (t : Q) (inst : string) (v : Verdict) : nat :=
  length (filter (fun date =>
                    spec_date_verdict strength_for_date sorted_trading_dates
                      date_to_nifty t inst date = Some v)
                 analysis_dates).

(** [{r['segment']: r for r in results if r['institution'] ==
    institution}], the index that [score_institution] builds of an
    institution's results. *)
Definition inst_results (results : list Backtest.StrengthResult)
    (inst : string) : gmap string Backtest.StrengthResult :=
  Py.dict_literal
    (map (fun r => (Backtest.r_segment r, r))
         (filter (fun r => Backtest.r_institution r = inst) results)).

(** ** Quantities the further properties speak of *)

(** The names listed when a percentile key is present. *)
Definition when_present {A : Type} (key : option A) (names : list string)
    : list string :=
  match key with
  | Some _ => names
  | None => []
  end.

(** The number of (date, institution) pairs a record of counts stands
    for. *)
Definition scored (c : Backtest.Counts) : nat :=
  (Backtest.correct c + Backtest.wrong c + Backtest.indecisive c)%nat.

(** [self.df['date'].max()], the target date of
    [calculate_latest_day_strength]; [None] on a frame without rows. *)
Definition latest_date (df : list Window.Row) : option Z :=
  match map Window.date df with
  | [] => None
  | d :: ds => Some (foldl Z.max d ds)
  end.

(** The sorted list of trading dates of the accuracy summary,
    [sorted(all_dates)]. *)
Definition sorted_trading_dates (df : list Window.Row) : list Z :=
  merge_sort Z.le (Window.Fixed.all_dates df).

(** ** Sample data for the examples *)

(** Ten trading days of FII data: on day [k] the futures OI is [3k - 20]
    and its change is 3 (0 on the first day). *)
Definition ten_days : list Window.Row :=
  map (fun k : Z =>
         Window.mkRow k "FII"
           (Some (inject_Z (3 * k - 20)))
           (Some (if (k =? 1)%Z then 0%Q else 3%Q))
           (Some (inject_Z (100 * k))) (Some 100%Q)
           (Some (inject_Z (- 50 * k))) (Some (-50)%Q))
      (seqZ 1 10).

(** Ten trading days of FII data without any futures OI (the column is
    all NaN); the options columns are as in [ten_days]. *)
Definition ten_days_no_futures : list Window.Row :=
  map (fun k : Z =>
         Window.mkRow k "FII" None (Some 0%Q)
           (Some (inject_Z (100 * k))) (Some 100%Q)
           (Some (inject_Z (- 50 * k))) (Some (-50)%Q))
      (seqZ 1 10).

(** Two trading days of FII data; [later_oi] is the Call OI of the second
    day. *)
Definition two_days (later_oi : Q) : list Window.Row :=
  [ Window.mkRow 1 "FII" (Some 5%Q) (Some 0%Q)
      (Some 10%Q) (Some 0%Q) (Some 20%Q) (Some 0%Q);
    Window.mkRow 2 "FII" (Some 6%Q) (Some 1%Q)
      (Some later_oi) (Some 40%Q) (Some 25%Q) (Some 5%Q) ].

(** The results of one date and the closes of three trading days, for a
    run of the back-test. *)
Definition three_days_results : list Backtest.StrengthResult :=
  [Backtest.mkResult "CLIENT" "Call Options" "MEDIUM BEARISH";
   Backtest.mkResult "CLIENT" "Put Options" "INDECISIVE";
   Backtest.mkResult "FII" "Call Options" "MILD BULLISH";
   Backtest.mkResult "FII" "Put Options" "MILD BEARISH";
   Backtest.mkResult "PRO" "Call Options" "STRONG BULLISH"].

Definition three_days_nifty : gmap Z Q :=
  Py.dict_literal [(1%Z, 100%Q); (2%Z, 101%Q); (3%Z, 100%Q)].

Definition three_days_counts : gmap string Backtest.Counts :=
  Py.dict_literal
    [("CLIENT", Backtest.mkCounts 1 1 0); ("PRO", Backtest.mkCounts 0 0 0);
     ("FII", Backtest.mkCounts 0 0 2)].

(** Three days of raw data of FII and DII, FII being absent on the
    second. *)
Definition raw_days : list Loader.Raw :=
  [ Loader.mkRaw 1 "DII" (Some 7%Q) None None;
    Loader.mkRaw 1 "FII" (Some 10%Q) (Some 5%Q) None;
    Loader.mkRaw 2 "DII" (Some 9%Q) None None;
    Loader.mkRaw 3 "DII" (Some 8%Q) None None;
    Loader.mkRaw 3 "FII" (Some 4%Q) (Some 6%Q) (Some 2%Q) ].

(** * Properties *)

(** ** Python primitives *)

Lemma dict_literal_lookup_from {K V : Type} `{Countable K}
    (entries : list (K * V)) (m : gmap K V) (k : K) (v : V) :
  fold_left (fun m kv => <[kv.1 := kv.2]> m) entries m !! k = Some v ->
  m !! k = Some v \/ In (k, v) entries.
Proof.
  revert m. induction entries as [| [k' v'] entries IH]; intros m Hlook.
  - left. exact Hlook.
  - simpl in Hlook. apply IH in Hlook. destruct Hlook as [Hm | Hin].
    + destruct (decide (k' = k)) as [-> | Hne].
      * rewrite lookup_insert_eq in Hm. inversion Hm; subst.
        right. left. reflexivity.
      * rewrite lookup_insert_ne in Hm by exact Hne. left. exact Hm.
    + right. right. exact Hin.
Qed.

(** A key found in a dict literal is one of the literal's entries. *)
Lemma dict_literal_lookup_In {K V : Type} `{Countable K}
    (entries : list (K * V)) (k : K) (v : V) :
  Py.dict_literal entries !! k = Some v -> In (k, v) entries.
Proof.
  intros Hlook. apply dict_literal_lookup_from in Hlook.
  destruct Hlook as [Hempty | Hin]; [| exact Hin].
  rewrite lookup_empty in Hempty. discriminate.
Qed.

Lemma blanks_app (a b : string) : blanks (a +:+ b) = blanks a + blanks b.
Proof.
  induction a as [| c a IH]; simpl; [reflexivity |].
  rewrite IH. lia.
Qed.

Lemma cut_at_blank_fmt2 (a b : string) :
  blanks a = 0 -> cut_at_blank (Py.fmt2 a b) = Some (a, b).
Proof.
  unfold Py.fmt2. induction a as [| c a IH]; simpl; intros Hb.
  - reflexivity.
  - destruct (Ascii.eqb c " ") eqn:Hc; [simpl in Hb; lia |].
    rewrite IH by (simpl in Hb; lia). reflexivity.
Qed.

(** A formatted pair that has a single blank determines both parts. *)
Lemma fmt2_inv (a b s : string) :
  Py.fmt2 a b = s -> blanks s = 1 -> cut_at_blank s = Some (a, b).
Proof.
  intros <- Hone. apply cut_at_blank_fmt2.
  unfold Py.fmt2 in Hone. rewrite !blanks_app in Hone. simpl in Hone. lia.
Qed.

(** ** SignalComposer *)

Section SignalComposerFacts.

Import SignalComposer.

Lemma truth_table_key_inv (a b c d v : string) :
  truth_table !! (Py.fmt2 a b, Py.fmt2 c d) = Some v ->
  (is_tier_str a /\ is_direction_str b) /\
  (is_tier_str c /\ is_direction_str d).
Proof.
  intros Hlook. apply dict_literal_lookup_In in Hlook.
  unfold truth_table_entries in Hlook. simpl in Hlook.
  repeat match goal with
  | H : _ \/ _ |- _ => destruct H as [H | H]
  end; try contradiction;
  injection Hlook as Hoi Hch _;
  symmetry in Hoi, Hch;
  (apply fmt2_inv in Hoi; [| reflexivity]);
  (apply fmt2_inv in Hch; [| reflexivity]);
  vm_compute in Hoi, Hch;
  injection Hoi as <- <-; injection Hch as <- <-;
  (split; split);
  solve [ (exists MILD + exists MEDIUM + exists STRONG); reflexivity
        | (exists BULLISH + exists BEARISH); reflexivity ].
Qed.

End SignalComposerFacts.

(** C1: on the 36 pairs of decisive labels [apply_truth_table] returns the
    entry of the compatibility matrix of the specification (rows: OI label,
    columns: change label), in particular STRONG BULLISH for (STRONG BULLISH,
    STRONG BULLISH) and INDECISIVE for (STRONG BULLISH, STRONG BEARISH); on
    any other four strings it returns INDECISIVE (it is a total function:
    no input raises). *)
Theorem C1_apply_truth_table_matrix :
  (forall (ot : StrengthTier) (od : Direction)
          (ct : StrengthTier) (cd : Direction),
      SignalComposer.apply_truth_table
        (tier_str ot) (direction_str od) (tier_str ct) (direction_str cd)
      = label_str (SignalComposer.spec_matrix (Decisive ot od)
                                              (Decisive ct cd)))
  /\ SignalComposer.apply_truth_table "STRONG" "BULLISH" "STRONG" "BULLISH"
     = "STRONG BULLISH"
  /\ SignalComposer.apply_truth_table "STRONG" "BULLISH" "STRONG" "BEARISH"
     = "INDECISIVE"
  /\ (forall a b c d : string,
        ~ (is_tier_str a /\ is_direction_str b /\
           is_tier_str c /\ is_direction_str d) ->
        SignalComposer.apply_truth_table a b c d = "INDECISIVE").
Proof.
  split; [| split; [| split]].
  - intros [] [] [] []; vm_compute; reflexivity.
  - vm_compute; reflexivity.
  - vm_compute; reflexivity.
  - intros a b c d Hout.
    unfold SignalComposer.apply_truth_table, Py.dict_get.
    destruct (SignalComposer.truth_table !! (Py.fmt2 a b, Py.fmt2 c d))
      as [v |] eqn:Hlook; [| reflexivity].
    exfalso. apply Hout. apply truth_table_key_inv in Hlook. tauto.
Qed.

(** An input outside the 36 combinations: the sentinel tier NONE. *)
Lemma C1_apply_truth_table_matrix_witness :
  SignalComposer.apply_truth_table "NONE" "BULLISH" "STRONG" "BULLISH"
  = "INDECISIVE".
Proof.
  apply (proj2 (proj2 (proj2 C1_apply_truth_table_matrix))).
  intros [[t Ht] _]. destruct t; discriminate Ht.
Defined.

(** C10: flipping both directions of the inputs of [apply_truth_table]
    flips the direction of its result (INDECISIVE stays INDECISIVE). *)
Theorem C10_truth_table_flip_symmetric :
  forall (t1 : StrengthTier) (d1 : Direction)
         (t2 : StrengthTier) (d2 : Direction),
    exists l : Label,
      SignalComposer.apply_truth_table
        (tier_str t1) (direction_str d1) (tier_str t2) (direction_str d2)
      = label_str l
      /\ SignalComposer.apply_truth_table
           (tier_str t1) (direction_str (flip_direction d1))
           (tier_str t2) (direction_str (flip_direction d2))
         = label_str (flip_label l).
Proof.
  intros t1 d1 t2 d2.
  exists (SignalComposer.spec_matrix (Decisive t1 d1) (Decisive t2 d2)).
  destruct t1, d1, t2, d2; split; vm_compute; reflexivity.
Qed.

(** The end-to-end figures of the specification: OI thresholds 1000 and
    400, change thresholds 150 and 50, OI 1200 and change 80 on a Call
    segment. *)
Example end_to_end_strong_bullish :
  let oi_strength :=
    Classifier.Respective.get_strength_level 1200 1000 400 false in
  let change_strength :=
    Classifier.Respective.get_strength_level 80 150 50 true in
  let oi_direction := Classifier.Respective.get_direction 1200 "Call Options" in
  let change_direction :=
    Classifier.Respective.get_direction 80 "Call Options" in
  (oi_strength, oi_direction) = ("STRONG", "BULLISH")
  /\ (change_strength, change_direction) = ("MEDIUM", "BULLISH")
  /\ SignalComposer.apply_truth_table
       oi_strength oi_direction change_strength change_direction
     = "STRONG BULLISH".
Proof. repeat split; vm_compute; reflexivity. Qed.

(** ** OptionsNetComposer *)

Example parse_strength_decisive :
  NetOptions.parse_strength "MEDIUM BULLISH" = ("MEDIUM", "BULLISH").
Proof. vm_compute. reflexivity. Qed.

Example parse_strength_indecisive :
  NetOptions.parse_strength "INDECISIVE" = ("INDECISIVE", "INDECISIVE").
Proof. vm_compute. reflexivity. Qed.

Example parse_strength_three_words :
  NetOptions.parse_strength "FLAT OR UP" = ("INDECISIVE", "INDECISIVE").
Proof. vm_compute. reflexivity. Qed.

(** On labels, [parse_strength] recovers the tier and the direction. *)
Lemma parse_strength_label (t : StrengthTier) (d : Direction) :
  NetOptions.parse_strength (label_str (Decisive t d))
  = (tier_str t, direction_str d).
Proof. destruct t, d; vm_compute; reflexivity. Qed.

(** A pair that is not a key of the table gets the default. *)
Lemma net_tuple_default
    (m : gmap ((string * string) * (string * string)) (string * string))
    (call put : string) :
  m !! (NetOptions.parse_strength call, NetOptions.parse_strength put) = None ->
  NetOptions.net_tuple m call put = ("INDECISIVE", "INDECISIVE")
  /\ NetOptions.net_final m call put = "INDECISIVE".
Proof.
  intros Hnone. unfold NetOptions.net_final, NetOptions.net_tuple, Py.dict_get.
  rewrite Hnone. split; reflexivity.
Qed.

(** C2 as stated fails on the respective-percentile script:
    there the pair (MEDIUM BULLISH, MEDIUM BEARISH) gets the tier VOLATILE,
    not the tier INDECISIVE. *)
Lemma C2_respective_volatile_tier_counterexample :
  ~ (NetOptions.net_tuple NetOptions.Respective.net_oi_mapping
       "MEDIUM BULLISH" "MEDIUM BEARISH" = ("INDECISIVE", "VOLATILE")).
Proof. vm_compute. intros Heq. discriminate Heq. Qed.

(** C2 (amended): the anchor pairs of the Net Options table.  In
    fii_strength_calculator_3.py the conflicting pairs carry the tier
    INDECISIVE with the tag VOLATILE or NEUTRAL; in the respective-percentile
    script the same pairs carry (VOLATILE, VOLATILE) and (NEUTRAL, NEUTRAL).
    The other anchors agree in both scripts, and in both every pair that is
    not a key of the table yields INDECISIVE. *)
Theorem C2_net_oi_mapping_anchors :
  let combined := NetOptions.Combined.net_oi_mapping in
  let respective := NetOptions.Respective.net_oi_mapping in
  (NetOptions.net_tuple combined "MEDIUM BULLISH" "INDECISIVE"
     = ("MEDIUM", "BULLISH")
   /\ NetOptions.net_tuple combined "MEDIUM BULLISH" "MEDIUM BEARISH"
     = ("INDECISIVE", "VOLATILE")
   /\ NetOptions.net_tuple combined "STRONG BULLISH" "STRONG BEARISH"
     = ("INDECISIVE", "VOLATILE")
   /\ NetOptions.net_tuple combined "MEDIUM BEARISH" "MEDIUM BULLISH"
     = ("INDECISIVE", "NEUTRAL")
   /\ NetOptions.net_final combined "MILD BULLISH" "MILD BEARISH"
     = "INDECISIVE"
   /\ NetOptions.net_final combined "INDECISIVE" "INDECISIVE"
     = "INDECISIVE")
  /\ (NetOptions.net_tuple respective "MEDIUM BULLISH" "INDECISIVE"
        = ("MEDIUM", "BULLISH")
      /\ NetOptions.net_tuple respective "MEDIUM BULLISH" "MEDIUM BEARISH"
        = ("VOLATILE", "VOLATILE")
      /\ NetOptions.net_tuple respective "STRONG BULLISH" "STRONG BEARISH"
        = ("VOLATILE", "VOLATILE")
      /\ NetOptions.net_tuple respective "MEDIUM BEARISH" "MEDIUM BULLISH"
        = ("NEUTRAL", "NEUTRAL")
      /\ NetOptions.net_final respective "MILD BULLISH" "MILD BEARISH"
        = "INDECISIVE"
      /\ NetOptions.net_final respective "INDECISIVE" "INDECISIVE"
        = "INDECISIVE")
  /\ (forall (m : gmap ((string * string) * (string * string))
                       (string * string))
             (call put : string),
        (m = combined \/ m = respective) ->
        m !! (NetOptions.parse_strength call, NetOptions.parse_strength put)
          = None ->
        NetOptions.net_tuple m call put = ("INDECISIVE", "INDECISIVE")
        /\ NetOptions.net_final m call put = "INDECISIVE").
Proof.
  intros combined respective. split; [| split].
  - repeat split; vm_compute; reflexivity.
  - repeat split; vm_compute; reflexivity.
  - intros m call put _ Hnone. apply net_tuple_default. exact Hnone.
Qed.

(** A pair that fii_strength_calculator_3.py does not list: the Call side
    is INDECISIVE. *)
Lemma C2_net_oi_mapping_anchors_witness :
  NetOptions.net_tuple NetOptions.Combined.net_oi_mapping
    "INDECISIVE" "STRONG BULLISH" = ("INDECISIVE", "INDECISIVE")
  /\ NetOptions.net_final NetOptions.Combined.net_oi_mapping
       "INDECISIVE" "STRONG BULLISH" = "INDECISIVE".
Proof.
  apply (proj2 (proj2 C2_net_oi_mapping_anchors)).
  - left. reflexivity.
  - vm_compute. reflexivity.
Defined.

(** ** SegmentClassifier *)

Lemma Qge_bool_true (x y : Q) : Py.Qge_bool x y = true <-> (y <= x)%Q.
Proof. unfold Py.Qge_bool. apply Qle_bool_iff. Qed.

Lemma Qge_bool_false (x y : Q) : Py.Qge_bool x y = false <-> (x < y)%Q.
Proof.
  unfold Py.Qge_bool. split.
  - intros Hb. apply Qnot_le_lt. intros Hle.
    apply Qle_bool_iff in Hle. congruence.
  - intros Hlt. destruct (Qle_bool y x) eqn:Hb; [| reflexivity].
    apply Qle_bool_iff in Hb. exfalso. exact (Qlt_not_le _ _ Hlt Hb).
Qed.

Lemma Qgt_bool_true (x y : Q) : Py.Qgt_bool x y = true <-> (y < x)%Q.
Proof.
  unfold Py.Qgt_bool. rewrite negb_true_iff. apply (Qge_bool_false y x).
Qed.

Lemma Qgt_bool_false (x y : Q) : Py.Qgt_bool x y = false <-> (x <= y)%Q.
Proof.
  unfold Py.Qgt_bool. rewrite negb_false_iff. apply Qle_bool_iff.
Qed.

Lemma Qlt_bool_true (x y : Q) : Py.Qlt_bool x y = true <-> (x < y)%Q.
Proof. apply (Qgt_bool_true y x). Qed.

(** The two scripts' tier classifiers are the same function. *)
Lemma get_strength_level_variants (value p80 p_lower : Q) (is_change : bool) :
  Classifier.Platform.get_strength_level value p80 p_lower is_change
  = Classifier.Respective.get_strength_level value p80 p_lower is_change.
Proof.
  unfold Classifier.Platform.get_strength_level,
    Classifier.Respective.get_strength_level.
  destruct is_change; reflexivity.
Qed.

Lemma get_strength_level_cases (value p80 p_lower : Q) (is_change : bool) :
  ((p80 <= Qabs value)%Q ->
     Classifier.Respective.get_strength_level value p80 p_lower is_change
     = "STRONG")
  /\ ((p_lower <= Qabs value)%Q /\ (Qabs value < p80)%Q ->
     Classifier.Respective.get_strength_level value p80 p_lower is_change
     = "MEDIUM")
  /\ (~ (p80 <= Qabs value)%Q ->
      ~ ((p_lower <= Qabs value)%Q /\ (Qabs value < p80)%Q) ->
     Classifier.Respective.get_strength_level value p80 p_lower is_change
     = "MILD").
Proof.
  unfold Classifier.Respective.get_strength_level.
  replace (if negb is_change then p_lower else p_lower) with p_lower
    by (destruct is_change; reflexivity).
  destruct (Py.Qge_bool (Qabs value) p80) eqn:H80;
    destruct (Py.Qge_bool (Qabs value) p_lower) eqn:Hlow;
    repeat match goal with
    | H : Py.Qge_bool _ _ = true |- _ => apply Qge_bool_true in H
    | H : Py.Qge_bool _ _ = false |- _ => apply Qge_bool_false in H
    end;
    (split; [| split]); try reflexivity; intros; exfalso; lra.
Qed.

(** C8: [get_strength_level] answers STRONG when [|value| >= p80], MEDIUM
    when [pLower <= |value| < p80] and MILD otherwise, in both scripts, and
    the answer does not depend on [is_change]. *)
Theorem C8_get_strength_level_tiers
    (value p80 p_lower : Q) (is_change : bool) :
  let platform := Classifier.Platform.get_strength_level in
  let respective := Classifier.Respective.get_strength_level in
  ((p80 <= Qabs value)%Q ->
     platform value p80 p_lower is_change = tier_str STRONG
     /\ respective value p80 p_lower is_change = tier_str STRONG)
  /\ ((p_lower <= Qabs value)%Q /\ (Qabs value < p80)%Q ->
     platform value p80 p_lower is_change = tier_str MEDIUM
     /\ respective value p80 p_lower is_change = tier_str MEDIUM)
  /\ (~ (p80 <= Qabs value)%Q ->
      ~ ((p_lower <= Qabs value)%Q /\ (Qabs value < p80)%Q) ->
     platform value p80 p_lower is_change = tier_str MILD
     /\ respective value p80 p_lower is_change = tier_str MILD)
  /\ platform value p80 p_lower true = platform value p80 p_lower false
  /\ respective value p80 p_lower true = respective value p80 p_lower false.
Proof.
  intros platform respective. subst platform respective.
  destruct (get_strength_level_cases value p80 p_lower is_change)
    as (Hstrong & Hmedium & Hmild).
  repeat split; intros;
    rewrite ?get_strength_level_variants; auto.
Qed.

(** The end-to-end figures of the specification: thresholds 1000 and 400,
    and the values 1200, -500 and 100. *)
Lemma C8_get_strength_level_tiers_witness :
  (Classifier.Platform.get_strength_level 1200 1000 400 false = "STRONG"
   /\ Classifier.Respective.get_strength_level 1200 1000 400 false = "STRONG")
  /\ (Classifier.Platform.get_strength_level (-500) 1000 400 true = "MEDIUM"
   /\ Classifier.Respective.get_strength_level (-500) 1000 400 true = "MEDIUM")
  /\ (Classifier.Platform.get_strength_level 100 1000 400 false = "MILD"
   /\ Classifier.Respective.get_strength_level 100 1000 400 false = "MILD").
Proof.
  split; [| split].
  - apply (proj1 (C8_get_strength_level_tiers 1200 1000 400 false)).
    vm_compute. discriminate.
  - apply (proj1 (proj2 (C8_get_strength_level_tiers (-500) 1000 400 true))).
    split; vm_compute; [discriminate | reflexivity].
  - apply (proj1 (proj2 (proj2
             (C8_get_strength_level_tiers 100 1000 400 false)))).
    + vm_compute. intros H. apply H. reflexivity.
    + vm_compute. intros [H _]. apply H. reflexivity.
Defined.

(** On the three segment names the scripts pass, the two direction
    classifiers agree. *)
Lemma get_direction_variants (value : Q) (segment : string) :
  segment ∈ ["Index Futures"; "Call Options"; "Put Options"] ->
  Classifier.Platform.get_direction value segment
  = Classifier.Respective.get_direction value segment.
Proof.
  intros Hseg. repeat (apply elem_of_cons in Hseg as [-> | Hseg]);
    [reflexivity | reflexivity | reflexivity |].
  apply elem_of_nil in Hseg. contradiction.
Qed.

Lemma respective_get_direction_cases (value : Q) :
  ((0 < value)%Q ->
     Classifier.Respective.get_direction value "Put Options" = "BEARISH"
     /\ Classifier.Respective.get_direction value "Call Options" = "BULLISH"
     /\ Classifier.Respective.get_direction value "Index Futures" = "BULLISH")
  /\ (~ (0 < value)%Q ->
     Classifier.Respective.get_direction value "Put Options" = "BULLISH"
     /\ Classifier.Respective.get_direction value "Call Options" = "BEARISH"
     /\ Classifier.Respective.get_direction value "Index Futures" = "BEARISH").
Proof.
  unfold Classifier.Respective.get_direction.
  change (Py.contains "Put Options" "Put Options") with true.
  change (Py.contains "Put Options" "Call Options") with false.
  change (Py.contains "Put Options" "Index Futures") with false.
  cbv iota.
  destruct (Py.Qgt_bool value 0) eqn:Hpos.
  - apply Qgt_bool_true in Hpos. split; [auto | intros Hn; contradiction].
  - apply Qgt_bool_false in Hpos. split; [| auto].
    intros Hlt. exfalso. exact (Qlt_not_le _ _ Hlt Hpos).
Qed.

(** C9: [get_direction] inverts the sign rule on the Put Options segment:
    a value above zero is BEARISH for puts and BULLISH for calls and index
    futures, any other value (zero included) is BULLISH for puts and BEARISH
    for calls and index futures; hence the put answer is always the flipped
    call answer.  Both scripts. *)
Theorem C9_get_direction_put_inverts (value : Q) :
  let platform := Classifier.Platform.get_direction value in
  let respective := Classifier.Respective.get_direction value in
  ((0 < value)%Q ->
     (platform "Put Options" = direction_str BEARISH
      /\ platform "Call Options" = direction_str BULLISH
      /\ platform "Index Futures" = direction_str BULLISH)
     /\ (respective "Put Options" = direction_str BEARISH
      /\ respective "Call Options" = direction_str BULLISH
      /\ respective "Index Futures" = direction_str BULLISH))
  /\ (~ (0 < value)%Q ->
     (platform "Put Options" = direction_str BULLISH
      /\ platform "Call Options" = direction_str BEARISH
      /\ platform "Index Futures" = direction_str BEARISH)
     /\ (respective "Put Options" = direction_str BULLISH
      /\ respective "Call Options" = direction_str BEARISH
      /\ respective "Index Futures" = direction_str BEARISH))
  /\ (exists d : Direction,
        platform "Call Options" = direction_str d
        /\ platform "Put Options" = direction_str (flip_direction d)
        /\ respective "Call Options" = direction_str d
        /\ respective "Put Options" = direction_str (flip_direction d)).
Proof.
  intros platform respective. subst platform respective.
  rewrite !get_direction_variants
    by (repeat first [apply list_elem_of_here | apply list_elem_of_further]).
  destruct (respective_get_direction_cases value) as [Hpos Hneg].
  split; [| split].
  - intros Hlt. split; apply Hpos; exact Hlt.
  - intros Hn. split; apply Hneg; exact Hn.
  - destruct (Qlt_le_dec 0 value) as [Hlt | Hle].
    + exists BULLISH. destruct (Hpos Hlt) as (Hp & Hc & _).
      rewrite Hp, Hc. repeat split; reflexivity.
    + exists BEARISH.
      destruct (Hneg (Qle_not_lt _ _ Hle)) as (Hp & Hc & _).
      rewrite Hp, Hc. repeat split; reflexivity.
Qed.

(** A positive value, and zero, which takes the branch of the values that
    are not above zero. *)
Lemma C9_get_direction_put_inverts_witness :
  (Classifier.Platform.get_direction 80 "Put Options" = "BEARISH"
   /\ Classifier.Respective.get_direction 80 "Put Options" = "BEARISH")
  /\ (Classifier.Platform.get_direction 0 "Put Options" = "BULLISH"
   /\ Classifier.Platform.get_direction 0 "Call Options" = "BEARISH"
   /\ Classifier.Respective.get_direction 0 "Put Options" = "BULLISH"
   /\ Classifier.Respective.get_direction 0 "Call Options" = "BEARISH").
Proof.
  split.
  - destruct (proj1 (C9_get_direction_put_inverts 80)) as [Hp Hr].
    + reflexivity.
    + split; [apply Hp | apply Hr].
  - destruct (proj1 (proj2 (C9_get_direction_put_inverts 0))) as [Hp Hr].
    + vm_compute. discriminate.
    + repeat split; first [apply Hp | apply Hr].
Defined.

(** ** PercentileThresholdEstimator *)

Lemma bind_Return {A B : Type} (a : A) (k : A -> Py.result B) :
  (Py.Return a ≫= k) = k a.
Proof. reflexivity. Qed.

Section ListItems.

Context {A : Type}.

Lemma getitem_nil (i : Z) : Py.getitem (@nil A) i = Py.Raise Py.IndexError.
Proof.
  unfold Py.getitem. simpl.
  destruct (i <? 0)%Z;
    match goal with
    | |- (if ?c then _ else _) = _ => destruct c
    end; reflexivity.
Qed.

Lemma getitem_in_range (l : list A) (i : Z) :
  (0 <= i < Z.of_nat (length l))%Z ->
  exists x, l !! Z.to_nat i = Some x /\ Py.getitem l i = Py.Return x.
Proof.
  intros [Hlo Hhi]. unfold Py.getitem.
  replace (i <? 0)%Z with false by (symmetry; apply Z.ltb_ge; exact Hlo).
  replace (0 <=? i)%Z with true by (symmetry; apply Z.leb_le; exact Hlo).
  replace (i <? Z.of_nat (length l))%Z with true
    by (symmetry; apply Z.ltb_lt; exact Hhi).
  simpl. destruct (lookup_lt_is_Some_2 l (Z.to_nat i)) as [x Hx]; [lia |].
  exists x. rewrite Hx. split; reflexivity.
Qed.

Lemma getitem_last (l : list A) :
  l <> [] ->
  exists x, l !! Z.to_nat (Z.of_nat (length l) - 1) = Some x
            /\ Py.getitem l (-1) = Py.Return x.
Proof.
  intros Hne. assert (0 < length l)%nat as Hlen.
  { destruct l; [contradiction | simpl; lia]. }
  unfold Py.getitem. change (-1 <? 0)%Z with true. cbv iota.
  replace (Z.of_nat (length l) + -1)%Z with (Z.of_nat (length l) - 1)%Z
    by lia.
  replace (0 <=? Z.of_nat (length l) - 1)%Z with true
    by (symmetry; apply Z.leb_le; lia).
  replace (Z.of_nat (length l) - 1 <? Z.of_nat (length l))%Z with true
    by (symmetry; apply Z.ltb_lt; lia).
  simpl.
  destruct (lookup_lt_is_Some_2 l (Z.to_nat (Z.of_nat (length l) - 1)))
    as [x Hx]; [lia |].
  exists x. rewrite Hx. split; reflexivity.
Qed.

End ListItems.

Lemma item_lookup (s : list Q) (i : Z) (x : Q) :
  s !! Z.to_nat i = Some x -> Percentile.item s i = x.
Proof.
  intros Hx. unfold Percentile.item. apply nth_lookup_Some with (d := 0%Q).
  exact Hx.
Qed.

Section PositionFacts.

Variables (p : Q) (s : list Q).
Hypothesis p_range : (0 <= p <= 100)%Q.
Hypothesis s_nonempty : s <> [].

Let n1 : Z := (Z.of_nat (length s) - 1)%Z.

Lemma n1_nonneg : (0 <= n1)%Z.
Proof.
  subst n1. destruct s; [contradiction | simpl; lia].
Qed.

Lemma position_bounds :
  (0 <= Percentile.position p s <= inject_Z n1)%Q.
Proof.
  unfold Percentile.position. fold n1.
  assert (0 <= inject_Z n1)%Q as Hn.
  { change 0%Q with (inject_Z 0). rewrite <- Zle_Qle. apply n1_nonneg. }
  assert (0 <= p / 100 <= 1)%Q as [Hq0 Hq1].
  { unfold Qdiv. change (/ 100)%Q with (1 # 100)%Q. split; lra. }
  split.
  - apply Qmult_le_0_compat; assumption.
  - rewrite <- (Qmult_1_l (inject_Z n1)) at 2.
    apply Qmult_le_compat_r; assumption.
Qed.

Lemma position_floor_bounds :
  (0 <= Qfloor (Percentile.position p s) <= n1)%Z.
Proof.
  destruct position_bounds as [Hlo Hhi]. split.
  - rewrite <- (Qfloor_Z 0). apply Qfloor_resp_le. exact Hlo.
  - rewrite <- (Qfloor_Z n1). apply Qfloor_resp_le. exact Hhi.
Qed.

End PositionFacts.

Lemma frac_bounds (x : Q) : (0 <= x - inject_Z (Qfloor x) < 1)%Q.
Proof.
  pose proof (Qfloor_le x) as Hlo. pose proof (Qlt_floor x) as Hhi.
  rewrite inject_Z_plus in Hhi. change (inject_Z 1) with 1%Q in Hhi.
  split; lra.
Qed.

Section ThresholdFacts.

Variables (p : Q) (s : list Q).
Hypothesis p_range : (0 <= p <= 100)%Q.
Hypothesis s_nonempty : s <> [].

Let pos : Q := Percentile.position p s.
Let i : Z := Qfloor pos.
Let f : Q := (pos - inject_Z i)%Q.
Let n1 : Z := (Z.of_nat (length s) - 1)%Z.

Lemma index_bounds : (0 <= i <= n1)%Z.
Proof. apply position_floor_bounds; assumption. Qed.

(** A position with a fractional part lies strictly below the last
    index: the element after the integer part exists. *)
Lemma next_index_bound : ~ (f == 0)%Q -> (i + 1 <= n1)%Z.
Proof.
  intros Hf. destruct index_bounds as [_ Hhi].
  destruct (Z.eq_dec i n1) as [Heq | Hne]; [| lia].
  exfalso. apply Hf. subst f.
  destruct (position_bounds p s p_range s_nonempty) as [_ Hpos].
  fold pos in Hpos. fold n1 in Hpos. rewrite <- Heq in Hpos.
  pose proof (Qfloor_le pos) as Hfl. fold i in Hfl. lra.
Qed.

Lemma platform_get_threshold_cases :
  ((f == 0)%Q ->
     exists a, s !! Z.to_nat i = Some a
       /\ Percentile.Platform.get_threshold p s = Py.Return a)
  /\ (~ (f == 0)%Q ->
     exists a b, s !! Z.to_nat i = Some a
       /\ s !! Z.to_nat (i + 1) = Some b
       /\ Percentile.Platform.get_threshold p s
          = Py.Return (a + f * (b - a))%Q).
Proof.
  pose proof index_bounds as [Hlo Hhi].
  destruct (getitem_in_range s i) as (a & Ha & Hga); [subst n1; lia |].
  unfold Percentile.Platform.get_threshold, Percentile.divmod1.
  fold pos. fold i. fold f. split.
  - intros Hf. apply Qeq_bool_iff in Hf. rewrite Hf.
    exists a. split; assumption.
  - intros Hf. pose proof (next_index_bound Hf) as Hnext.
    destruct (getitem_in_range s (i + 1)) as (b & Hb & Hgb);
      [subst n1; lia |].
    destruct (Qeq_bool f 0) eqn:Hfb.
    + apply Qeq_bool_iff in Hfb. contradiction.
    + exists a, b. rewrite Hga, Hgb. repeat split; assumption.
Qed.

Lemma guarded_get_threshold_cases :
  ((f == 0)%Q ->
     exists a, s !! Z.to_nat i = Some a
       /\ Percentile.Guarded.get_threshold p s = Py.Return a)
  /\ (~ (f == 0)%Q ->
     exists a b, s !! Z.to_nat i = Some a
       /\ s !! Z.to_nat (i + 1) = Some b
       /\ Percentile.Guarded.get_threshold p s
          = Py.Return (a + f * (b - a))%Q).
Proof.
  pose proof index_bounds as [Hlo Hhi].
  destruct (getitem_in_range s i) as (a & Ha & Hga); [subst n1; lia |].
  unfold Percentile.Guarded.get_threshold, Percentile.divmod1.
  fold pos. fold i. fold f.
  rewrite (bool_decide_eq_false_2 (s = [])) by exact s_nonempty.
  destruct (length s <=? 1)%nat eqn:Hshort.
  - (* one element: the position is 0 *)
    apply Nat.leb_le in Hshort.
    assert (n1 = 0%Z) as Hn1.
    { subst n1. destruct s as [| x [| y t]]; simpl in *;
        [contradiction | reflexivity | lia]. }
    assert (i = 0%Z) as Hi by lia.
    rewrite (bool_decide_eq_true_2 (s <> [])) by exact s_nonempty.
    simpl. rewrite Hi in Ha, Hga. split.
    + intros _. exists a. rewrite Hi. split; assumption.
    + intros Hf. pose proof (next_index_bound Hf). lia.
  - simpl. apply Nat.leb_gt in Hshort. split.
    + intros Hf. apply Qeq_bool_iff in Hf. rewrite Hf.
      exists a. split; [exact Ha |].
      destruct (Z.of_nat (length s) - 1 <=? i)%Z eqn:Htop; [| exact Hga].
      apply Z.leb_le in Htop.
      destruct (getitem_last s s_nonempty) as (x & Hx & Hgx).
      rewrite Hgx. f_equal.
      assert (i = Z.of_nat (length s) - 1)%Z as Hi by (subst n1; lia).
      rewrite <- Hi in Hx. congruence.
    + intros Hf. pose proof (next_index_bound Hf) as Hnext.
      destruct (getitem_in_range s (i + 1)) as (b & Hb & Hgb);
        [subst n1; lia |].
      replace (Z.of_nat (length s) - 1 <=? i)%Z with false
        by (symmetry; apply Z.leb_gt; subst n1; lia).
      destruct (Qeq_bool f 0) eqn:Hfb.
      * apply Qeq_bool_iff in Hfb. contradiction.
      * exists a, b. rewrite Hga, Hgb. repeat split; assumption.
Qed.

End ThresholdFacts.

Example platform_threshold_p80_of_six :
  Percentile.Platform.get_threshold 80 [1; 2; 3; 4; 5; 6]%Q = Py.Return 5%Q.
Proof. vm_compute. reflexivity. Qed.

Example guarded_threshold_p40_of_four :
  match Percentile.Guarded.get_threshold 40 [10; 20; 30; 40]%Q with
  | Py.Return v => (v == 22)%Q
  | Py.Raise _ => False
  end.
Proof. vm_compute. reflexivity. Qed.

(** C5: on a sample of one element [get_threshold] returns that element for
    every percentile in [0, 100]; on a sample of [n >= 2] elements, with
    [i] the integer part and [f] the fractional part of the position
    [(p / 100) * (n - 1)], it returns [sample[i]] when [f] is zero and
    [sample[i] + f * (sample[i+1] - sample[i])] otherwise, and then
    [i + 1 <= n - 1].  Both scripts' estimators. *)
Theorem C5_get_threshold_rank_interpolation (p : Q) (sample : list Q) :
  (0 <= p <= 100)%Q ->
  let pos := Percentile.position p sample in
  let i := Qfloor pos in
  let f := (pos - inject_Z i)%Q in
  let n := Z.of_nat (length sample) in
  (forall x : Q,
      sample = [x] ->
      Percentile.Platform.get_threshold p sample = Py.Return x
      /\ Percentile.Guarded.get_threshold p sample = Py.Return x)
  /\ ((2 <= n)%Z ->
      (0 <= i <= n - 1)%Z
      /\ ((f == 0)%Q ->
            exists a : Q,
              sample !! Z.to_nat i = Some a
              /\ Percentile.Platform.get_threshold p sample = Py.Return a
              /\ Percentile.Guarded.get_threshold p sample = Py.Return a)
      /\ (~ (f == 0)%Q ->
            (i + 1 <= n - 1)%Z
            /\ exists a b : Q,
                 sample !! Z.to_nat i = Some a
                 /\ sample !! Z.to_nat (i + 1) = Some b
                 /\ Percentile.Platform.get_threshold p sample
                    = Py.Return (a + f * (b - a))%Q
                 /\ Percentile.Guarded.get_threshold p sample
                    = Py.Return (a + f * (b - a))%Q)).
Proof.
  intros Hp pos i f n. split.
  - intros x Hx.
    assert (sample <> []) as Hne by (rewrite Hx; discriminate).
    pose proof (index_bounds p sample Hp Hne) as Hi.
    assert (f == 0)%Q as Hf.
    { destruct (Qeq_dec f 0) as [Hz | Hnz]; [exact Hz |].
      pose proof (next_index_bound p sample Hp Hne Hnz) as Hnext.
      assert (Z.of_nat (length sample) - 1 = 0)%Z as Hlen
        by (rewrite Hx; reflexivity).
      rewrite Hlen in Hi, Hnext. lia. }
    destruct (proj1 (platform_get_threshold_cases p sample Hp Hne) Hf)
      as (a & Ha & Hpa).
    destruct (proj1 (guarded_get_threshold_cases p sample Hp Hne) Hf)
      as (a' & Ha' & Hga).
    assert (Qfloor (Percentile.position p sample) = 0%Z) as Hi0.
    { assert (Z.of_nat (length sample) - 1 = 0)%Z as Hlen
        by (rewrite Hx; reflexivity).
      rewrite Hlen in Hi. lia. }
    rewrite Hi0 in Ha, Ha'. rewrite Hx in Ha, Ha'. simpl in Ha, Ha'.
    rewrite Hpa, Hga. split; congruence.
  - intros Hn.
    assert (sample <> []) as Hne.
    { intros ->. subst n. simpl in Hn. lia. }
    destruct (platform_get_threshold_cases p sample Hp Hne) as [Hp0 Hp1].
    destruct (guarded_get_threshold_cases p sample Hp Hne) as [Hg0 Hg1].
    split; [| split].
    + apply index_bounds; assumption.
    + intros Hf. destruct (Hp0 Hf) as (a & Ha & Hpa).
      destruct (Hg0 Hf) as (a' & Ha' & Hga).
      exists a. repeat split; try assumption.
      rewrite Hga. f_equal. subst i pos. congruence.
    + intros Hf. split; [apply next_index_bound; assumption |].
      destruct (Hp1 Hf) as (a & b & Ha & Hb & Hpa).
      destruct (Hg1 Hf) as (a' & b' & Ha' & Hb' & Hga).
      exists a, b. repeat split; try assumption.
      rewrite Hga. subst i pos.
      assert (a' = a) as -> by congruence.
      assert (b' = b) as -> by congruence.
      reflexivity.
Qed.

(** The 40th percentile of four elements (position 1.2), and a sample of
    one element. *)
Lemma C5_get_threshold_rank_interpolation_witness :
  let sample := [10; 20; 30; 40]%Q in
  let pos := Percentile.position 40 sample in
  let f := (pos - inject_Z (Qfloor pos))%Q in
  (Percentile.Platform.get_threshold 40 [7%Q] = Py.Return 7%Q
   /\ Percentile.Guarded.get_threshold 40 [7%Q] = Py.Return 7%Q)
  /\ (Qfloor pos + 1 <= 4 - 1)%Z
  /\ exists a b : Q,
       sample !! 1%nat = Some a
       /\ sample !! 2%nat = Some b
       /\ Percentile.Platform.get_threshold 40 sample
          = Py.Return (a + f * (b - a))%Q
       /\ Percentile.Guarded.get_threshold 40 sample
          = Py.Return (a + f * (b - a))%Q.
Proof.
  intros sample pos f.
  assert (0 <= 40 <= 100)%Q as Hp by (split; vm_compute; discriminate).
  split.
  - apply (proj1 (C5_get_threshold_rank_interpolation 40 [7%Q] Hp) 7%Q).
    reflexivity.
  - apply (proj2 (C5_get_threshold_rank_interpolation 40 sample Hp)).
    + vm_compute. discriminate.
    + vm_compute. discriminate.
Defined.

(** The unguarded estimator on an empty sample: every index is out of
    range. *)
Lemma platform_get_threshold_nil (p : Q) :
  Percentile.Platform.get_threshold p [] = Py.Raise Py.IndexError.
Proof.
  unfold Percentile.Platform.get_threshold.
  destruct (Percentile.divmod1 (Percentile.position p [])) as [i f].
  destruct (Qeq_bool f 0); rewrite !getitem_nil; reflexivity.
Qed.

(** C6 as stated fails on the guarded estimator of
    fii_strength_calculator_3.py: an empty sample yields the number 0. *)
Lemma C6_guarded_empty_returns_zero_counterexample :
  Percentile.Guarded.get_threshold 80 [] = Py.Return 0%Q.
Proof. reflexivity. Qed.

(** C6 (amended): on an empty sample the unguarded [get_threshold] of
    custom_percentile_method_2.py raises (the list index is out of range)
    for every percentile and never returns a number, while the guarded
    [get_threshold] of fii_strength_calculator_3.py and of the
    respective-percentile script returns 0 for every percentile. *)
Theorem C6_get_threshold_empty_sample (p : Q) :
  Percentile.Platform.get_threshold p [] = Py.Raise Py.IndexError
  /\ (forall v : Q, Percentile.Platform.get_threshold p [] <> Py.Return v)
  /\ Percentile.Guarded.get_threshold p [] = Py.Return 0%Q.
Proof.
  pose proof (platform_get_threshold_nil p) as Hraise.
  split; [exact Hraise | split].
  - intros v Hv. rewrite Hraise in Hv. discriminate Hv.
  - reflexivity.
Qed.

(** *** Monotonicity of the estimator *)

Lemma StronglySorted_nth_le (s : list Q) :
  StronglySorted Qle s ->
  forall a b : nat, (a <= b < length s)%nat ->
    (nth a s 0 <= nth b s 0)%Q.
Proof.
  induction 1 as [| x l Hl IH Hx]; intros a b [Hab Hb]; simpl in Hb.
  - lia.
  - destruct b as [| b'].
    + assert (a = 0)%nat as -> by lia. apply Qle_refl.
    + destruct a as [| a']; simpl.
      * rewrite Forall_forall in Hx. apply Hx.
        apply list_elem_of_In. apply nth_In. lia.
      * apply IH. lia.
Qed.

Section InterpolateMonotone.

Variable s : list Q.
Hypothesis s_sorted : Sorted Qle s.

Let n1 : Z := (Z.of_nat (length s) - 1)%Z.

Lemma item_le (i j : Z) :
  (0 <= i <= j)%Z -> (j <= n1)%Z ->
  (Percentile.item s i <= Percentile.item s j)%Q.
Proof.
  intros Hij Hj. unfold Percentile.item.
  apply StronglySorted_nth_le.
  - apply Sorted_StronglySorted; [apply Qle_transitive | exact s_sorted].
  - subst n1. lia.
Qed.

Lemma floor_next_le_top (x : Q) :
  (x <= inject_Z n1)%Q -> ~ (x - inject_Z (Qfloor x) == 0)%Q ->
  (Qfloor x + 1 <= n1)%Z.
Proof.
  intros Hx Hf.
  assert (Qfloor x <= n1)%Z as Hle.
  { rewrite <- (Qfloor_Z n1). apply Qfloor_resp_le. exact Hx. }
  destruct (Z.eq_dec (Qfloor x) n1) as [Heq | Hne]; [| lia].
  exfalso. apply Hf. rewrite <- Heq in Hx.
  pose proof (Qfloor_le x). lra.
Qed.

Lemma floor_nonneg (x : Q) : (0 <= x)%Q -> (0 <= Qfloor x)%Z.
Proof.
  intros Hx. rewrite <- (Qfloor_Z 0). apply Qfloor_resp_le. exact Hx.
Qed.

Lemma interpolate_lower (x : Q) :
  (0 <= x <= inject_Z n1)%Q ->
  (Percentile.item s (Qfloor x) <= Percentile.interpolate s x)%Q.
Proof.
  intros [Hx0 Hx1]. unfold Percentile.interpolate, Percentile.divmod1.
  destruct (Qeq_bool (x - inject_Z (Qfloor x)) 0) eqn:Hf.
  - apply Qle_refl.
  - apply Qeq_bool_neq in Hf.
    pose proof (floor_next_le_top x Hx1 Hf) as Hnext.
    pose proof (floor_nonneg x Hx0) as Hi.
    pose proof (item_le (Qfloor x) (Qfloor x + 1) ltac:(lia) Hnext) as Hab.
    destruct (frac_bounds x) as [Hf0 _].
    pose proof (Qmult_le_0_compat _ _ Hf0
                  (proj1 (Qle_minus_iff _ _) Hab)) as Hprod.
    lra.
Qed.

Lemma interpolate_upper (x : Q) :
  (0 <= x <= inject_Z n1)%Q -> (Qfloor x + 1 <= n1)%Z ->
  (Percentile.interpolate s x <= Percentile.item s (Qfloor x + 1))%Q.
Proof.
  intros [Hx0 Hx1] Hnext. unfold Percentile.interpolate, Percentile.divmod1.
  pose proof (floor_nonneg x Hx0) as Hi.
  pose proof (item_le (Qfloor x) (Qfloor x + 1) ltac:(lia) Hnext) as Hab.
  destruct (Qeq_bool (x - inject_Z (Qfloor x)) 0) eqn:Hf.
  - exact Hab.
  - destruct (frac_bounds x) as [_ Hf1].
    assert (0 <= 1 - (x - inject_Z (Qfloor x)))%Q as Hf1' by lra.
    pose proof (Qmult_le_0_compat _ _ Hf1'
                  (proj1 (Qle_minus_iff _ _) Hab)) as Hprod.
    lra.
Qed.

Lemma interpolate_monotone (x y : Q) :
  (0 <= x)%Q -> (x <= y)%Q -> (y <= inject_Z n1)%Q ->
  (Percentile.interpolate s x <= Percentile.interpolate s y)%Q.
Proof.
  intros Hx Hxy Hy.
  assert (0 <= x <= inject_Z n1)%Q as Hxr by (split; lra).
  assert (0 <= y <= inject_Z n1)%Q as Hyr by (split; lra).
  pose proof (Qfloor_resp_le x y Hxy) as Hfl.
  pose proof (floor_nonneg x Hx) as Hix.
  assert (Qfloor y <= n1)%Z as Hiy.
  { rewrite <- (Qfloor_Z n1). apply Qfloor_resp_le. exact Hy. }
  destruct (Z.eq_dec (Qfloor x) (Qfloor y)) as [Heq | Hne].
  - (* same interval *)
    pose proof (interpolate_lower y Hyr) as Hlow. revert Hlow.
    unfold Percentile.interpolate, Percentile.divmod1. rewrite <- Heq.
    destruct (Qeq_bool (x - inject_Z (Qfloor x)) 0) eqn:Hfx;
      destruct (Qeq_bool (y - inject_Z (Qfloor x)) 0) eqn:Hfy; intros Hlow.
    + apply Qle_refl.
    + exact Hlow.
    + apply Qeq_bool_iff in Hfy. apply Qeq_bool_neq in Hfx.
      exfalso. apply Hfx. destruct (frac_bounds x). lra.
    + apply Qeq_bool_neq in Hfx.
      pose proof (floor_next_le_top x (proj2 Hxr) Hfx) as Hnext.
      pose proof (item_le (Qfloor x) (Qfloor x + 1) ltac:(lia) Hnext) as Hab.
      assert (0 <= (y - inject_Z (Qfloor x)) - (x - inject_Z (Qfloor x)))%Q
        as Hd by lra.
      pose proof (Qmult_le_0_compat _ _ Hd
                    (proj1 (Qle_minus_iff _ _) Hab)) as Hprod.
      lra.
  - (* the position moved to a later interval *)
    apply Qle_trans with (Percentile.item s (Qfloor x + 1)).
    + apply interpolate_upper; [exact Hxr | lia].
    + apply Qle_trans with (Percentile.item s (Qfloor y)).
      * apply item_le; lia.
      * apply interpolate_lower. exact Hyr.
Qed.

End InterpolateMonotone.

(** On a non-empty sample and a percentile in [0, 100] both estimators
    return the interpolated value at the position. *)
Lemma get_threshold_interpolate (p : Q) (s : list Q) :
  (0 <= p <= 100)%Q -> s <> [] ->
  Percentile.Platform.get_threshold p s
    = Py.Return (Percentile.interpolate s (Percentile.position p s))
  /\ Percentile.Guarded.get_threshold p s
    = Py.Return (Percentile.interpolate s (Percentile.position p s)).
Proof.
  intros Hp Hne.
  destruct (platform_get_threshold_cases p s Hp Hne) as [Hp0 Hp1].
  destruct (guarded_get_threshold_cases p s Hp Hne) as [Hg0 Hg1].
  unfold Percentile.interpolate, Percentile.divmod1.
  destruct (Qeq_bool (Percentile.position p s
                      - inject_Z (Qfloor (Percentile.position p s))) 0)
    eqn:Hf.
  - apply Qeq_bool_iff in Hf.
    destruct (Hp0 Hf) as (a & Ha & ->). destruct (Hg0 Hf) as (a' & Ha' & ->).
    rewrite (item_lookup _ _ _ Ha). split; congruence.
  - apply Qeq_bool_neq in Hf.
    destruct (Hp1 Hf) as (a & b & Ha & Hb & ->).
    destruct (Hg1 Hf) as (a' & b' & Ha' & Hb' & ->).
    rewrite (item_lookup _ _ _ Ha), (item_lookup _ _ _ Hb).
    assert (a' = a) as -> by congruence.
    assert (b' = b) as -> by congruence.
    split; reflexivity.
Qed.

Lemma position_monotone (p1 p2 : Q) (s : list Q) :
  s <> [] -> (p1 <= p2)%Q ->
  (Percentile.position p1 s <= Percentile.position p2 s)%Q.
Proof.
  intros Hne Hle. unfold Percentile.position.
  apply Qmult_le_compat_r.
  - unfold Qdiv. apply Qmult_le_compat_r; [exact Hle | discriminate].
  - change 0%Q with (inject_Z 0). rewrite <- Zle_Qle.
    destruct s; [contradiction | simpl; lia].
Qed.

Lemma sorted_Sorted (l : list Q) : Sorted Qle (sorted l).
Proof. apply Sorted_merge_sort. apply Qle_total. Qed.

Lemma sorted_nonempty (l : list Q) : l <> [] -> sorted l <> [].
Proof.
  intros Hne Hnil. apply Hne.
  pose proof (merge_sort_Permutation Qle l) as Hperm.
  unfold sorted in Hnil. rewrite Hnil in Hperm.
  symmetry. apply Permutation_nil_l. exact Hperm.
Qed.

Lemma get_threshold_monotone (p1 p2 : Q) (s : list Q) :
  Sorted Qle s -> s <> [] ->
  (0 <= p1)%Q -> (p1 <= p2)%Q -> (p2 <= 100)%Q ->
  exists v1 v2 : Q,
    (Percentile.Platform.get_threshold p1 s = Py.Return v1
     /\ Percentile.Guarded.get_threshold p1 s = Py.Return v1)
    /\ (Percentile.Platform.get_threshold p2 s = Py.Return v2
        /\ Percentile.Guarded.get_threshold p2 s = Py.Return v2)
    /\ (v1 <= v2)%Q.
Proof.
  intros Hsorted Hne H1 H12 H2.
  assert (0 <= p1 <= 100)%Q as Hp1 by (split; lra).
  assert (0 <= p2 <= 100)%Q as Hp2 by (split; lra).
  exists (Percentile.interpolate s (Percentile.position p1 s)),
         (Percentile.interpolate s (Percentile.position p2 s)).
  split; [apply get_threshold_interpolate; assumption |].
  split; [apply get_threshold_interpolate; assumption |].
  apply interpolate_monotone.
  - exact Hsorted.
  - apply (position_bounds p1 s Hp1 Hne).
  - apply position_monotone; assumption.
  - apply (position_bounds p2 s Hp2 Hne).
Qed.

(** The thresholds of a segment with a non-empty OI sample and a non-empty
    change sample exist and are ordered, whichever estimator is used. *)
Lemma segment_thresholds_ordered (oi_values change_values : list Q) :
  oi_values <> [] -> change_values <> [] ->
  exists ts : Percentile.ThresholdSet,
    Percentile.segment_thresholds Percentile.Platform.get_threshold
      oi_values change_values = Py.Return ts
    /\ Percentile.segment_thresholds Percentile.Guarded.get_threshold
         oi_values change_values = Py.Return ts
    /\ Percentile.ordered ts.
Proof.
  intros Hoi Hch.
  assert (forall l : list Q, l <> [] -> map Qabs l <> []) as Hmap.
  { intros [| x l] Hl; [contradiction | discriminate]. }
  destruct (get_threshold_monotone 40 80 (sorted (map Qabs oi_values)))
    as (o40 & o80 & [Ho40 Ho40'] & [Ho80 Ho80'] & Hole);
    [apply sorted_Sorted | apply sorted_nonempty, Hmap, Hoi
     | discriminate | discriminate | discriminate |].
  destruct (get_threshold_monotone 20 80 (sorted (map Qabs change_values)))
    as (c20 & c80 & [Hc20 Hc20'] & [Hc80 Hc80'] & Hcle);
    [apply sorted_Sorted | apply sorted_nonempty, Hmap, Hch
     | discriminate | discriminate | discriminate |].
  exists (Percentile.mkThresholdSet o80 o40 c80 c20).
  unfold Percentile.segment_thresholds.
  rewrite Ho80, Ho40, Hc80, Hc20, Ho80', Ho40', Hc80', Hc20'.
  repeat split; assumption.
Qed.

(** With the unguarded estimator an empty sample makes the block raise, so
    whatever it returns is ordered. *)
Lemma platform_segment_thresholds_return
    (oi_values change_values : list Q) (ts : Percentile.ThresholdSet) :
  Percentile.segment_thresholds Percentile.Platform.get_threshold
    oi_values change_values = Py.Return ts ->
  Percentile.ordered ts.
Proof.
  intros Hret.
  destruct oi_values as [| o oi_values].
  { unfold Percentile.segment_thresholds in Hret. simpl map in Hret.
    change (sorted []) with (@nil Q) in Hret.
    rewrite platform_get_threshold_nil in Hret.
    discriminate Hret. }
  destruct change_values as [| c change_values].
  { destruct (get_threshold_monotone 40 80
                (sorted (map Qabs (o :: oi_values))))
      as (o40 & o80 & [Ho40 _] & [Ho80 _] & _);
      [apply sorted_Sorted | apply sorted_nonempty; discriminate
       | discriminate | discriminate | discriminate |].
    unfold Percentile.segment_thresholds in Hret.
    rewrite Ho80, Ho40 in Hret. simpl map in Hret.
    change (sorted []) with (@nil Q) in Hret.
    rewrite !bind_Return in Hret.
    rewrite platform_get_threshold_nil in Hret.
    discriminate Hret. }
  destruct (segment_thresholds_ordered (o :: oi_values) (c :: change_values))
    as (ts' & Hts' & _ & Hord); [discriminate | discriminate |].
  rewrite Hts' in Hret. injection Hret as <-. exact Hord.
Qed.

Lemma respective_segment_step (name : string)
    (oi_values change_values : list Q)
    (m : gmap string Percentile.ThresholdSet) :
  Percentile.all_ordered m ->
  exists m' : gmap string Percentile.ThresholdSet,
    (if ((0 <? length oi_values) && (0 <? length change_values))%nat
     then
       p ← Percentile.segment_thresholds Percentile.Guarded.get_threshold
              oi_values change_values;
       mret (<[name := p]> m)
     else mret m) = Py.Return m'
    /\ Percentile.all_ordered m'.
Proof.
  intros Hm.
  destruct oi_values as [| o oi_values]; [exists m; split; [reflexivity | exact Hm] |].
  destruct change_values as [| c change_values];
    [exists m; split; [reflexivity | exact Hm] |].
  destruct (segment_thresholds_ordered (o :: oi_values) (c :: change_values))
    as (ts & _ & Hts & Hord); [discriminate | discriminate |].
  exists (<[name := ts]> m). split.
  - change ((0 <? length (o :: oi_values))
            && (0 <? length (c :: change_values)))%nat with true.
    cbv iota. rewrite Hts. reflexivity.
  - intros segment ts' Hlook.
    destruct (decide (name = segment)) as [-> | Hne].
    + rewrite lookup_insert_eq in Hlook. injection Hlook as <-. exact Hord.
    + rewrite lookup_insert_ne in Hlook by exact Hne. exact (Hm _ _ Hlook).
Qed.

(** [calculate_respective_percentiles] never raises, and every threshold
    set it stores is ordered. *)
Lemma respective_percentiles_ordered
    (historical_data : list Window.Row) (inst : string) :
  exists m : gmap string Percentile.ThresholdSet,
    Window.Fixed.calculate_respective_percentiles historical_data inst
      = Py.Return m
    /\ Percentile.all_ordered m.
Proof.
  unfold Window.Fixed.calculate_respective_percentiles. cbv zeta beta.
  destruct (respective_segment_step "Index Futures"
              (Window.column_values Window.FUTURE_INDEX inst historical_data)
              (Window.column_values Window.FUTURE_INDEX_CHANGE inst
                 historical_data) ∅) as (m1 & -> & Hm1).
  { intros segment ts Hlook. rewrite lookup_empty in Hlook. discriminate. }
  destruct (respective_segment_step "Call Options"
              (Window.column_values Window.CALL_OI inst historical_data)
              (Window.column_values Window.CALL_OI_CHANGE inst
                 historical_data) m1 Hm1) as (m2 & Hstep2 & Hm2).
  destruct (respective_segment_step "Put Options"
              (Window.column_values Window.PUT_OI inst historical_data)
              (Window.column_values Window.PUT_OI_CHANGE inst
                 historical_data) m2 Hm2) as (m3 & Hstep3 & Hm3).
  exists m3. split; [| exact Hm3].
  rewrite bind_Return, Hstep2, bind_Return. exact Hstep3.
Qed.

(** What the rolling script computes for a target date is ordered. *)
Lemma combined_options_percentiles_ordered
    (historical_data : list Window.Row) (inst : string)
    (ts : Percentile.ThresholdSet) :
  Window.Rolling.calculate_combined_options_percentiles historical_data inst
    = Py.Return (Some ts) ->
  Percentile.ordered ts.
Proof.
  unfold Window.Rolling.calculate_combined_options_percentiles.
  destruct (length _ <? 10)%nat; [discriminate |].
  destruct (_ || _)%bool; [discriminate |].
  destruct (Percentile.segment_thresholds _ _ _) as [ts' | e] eqn:Hseg;
    [| discriminate].
  intros Hret. injection Hret as <-.
  exact (platform_segment_thresholds_return _ _ _ Hseg).
Qed.

Lemma futures_thresholds_ordered (df : list Window.Row) (d : Z)
    (lookback_days : nat) (inst : string) (ts : Percentile.ThresholdSet) :
  Window.Rolling.futures_thresholds df d lookback_days inst
    = Py.Return (Some ts) ->
  Percentile.ordered ts.
Proof.
  unfold Window.Rolling.futures_thresholds.
  destruct (length _ <? 10)%nat; [discriminate |].
  destruct (Percentile.segment_thresholds _ _ _) as [ts' | e] eqn:Hseg;
    [| discriminate].
  intros Hret. injection Hret as <-.
  exact (platform_segment_thresholds_return _ _ _ Hseg).
Qed.

(** C7: on an ascending non-empty sample [get_threshold] is monotone in the
    percentile over [0, 100]; consequently every threshold set the scripts
    compute from sorted samples satisfies [oi_p80 >= oi_p40] and
    [change_p80 >= change_p20]: the per-segment block on non-empty samples,
    the sets stored by [calculate_respective_percentiles], and the sets the
    rolling script computes for a target date.  Both scripts' estimators. *)
Theorem C7_get_threshold_monotone :
  (forall (sample : list Q) (p1 p2 : Q),
      Sorted Qle sample -> sample <> [] ->
      (0 <= p1)%Q -> (p1 <= p2)%Q -> (p2 <= 100)%Q ->
      exists v1 v2 : Q,
        (Percentile.Platform.get_threshold p1 sample = Py.Return v1
         /\ Percentile.Guarded.get_threshold p1 sample = Py.Return v1)
        /\ (Percentile.Platform.get_threshold p2 sample = Py.Return v2
            /\ Percentile.Guarded.get_threshold p2 sample = Py.Return v2)
        /\ (v1 <= v2)%Q)
  /\ (forall oi_values change_values : list Q,
        oi_values <> [] -> change_values <> [] ->
        exists ts : Percentile.ThresholdSet,
          Percentile.segment_thresholds Percentile.Platform.get_threshold
            oi_values change_values = Py.Return ts
          /\ Percentile.segment_thresholds Percentile.Guarded.get_threshold
               oi_values change_values = Py.Return ts
          /\ (Percentile.oi_p40 ts <= Percentile.oi_p80 ts)%Q
          /\ (Percentile.change_p20 ts <= Percentile.change_p80 ts)%Q)
  /\ (forall (historical_data : list Window.Row) (inst : string),
        exists m : gmap string Percentile.ThresholdSet,
          Window.Fixed.calculate_respective_percentiles historical_data inst
            = Py.Return m
          /\ forall (segment : string) (ts : Percentile.ThresholdSet),
               m !! segment = Some ts ->
               (Percentile.oi_p40 ts <= Percentile.oi_p80 ts)%Q
               /\ (Percentile.change_p20 ts <= Percentile.change_p80 ts)%Q)
  /\ (forall (df : list Window.Row) (d : Z) (lookback_days : nat)
             (inst : string) (ts : Percentile.ThresholdSet),
        Window.Rolling.futures_thresholds df d lookback_days inst
          = Py.Return (Some ts)
        \/ Window.Rolling.options_thresholds df d lookback_days inst
           = Py.Return (Some ts) ->
        (Percentile.oi_p40 ts <= Percentile.oi_p80 ts)%Q
        /\ (Percentile.change_p20 ts <= Percentile.change_p80 ts)%Q).
Proof.
  split; [intros; apply get_threshold_monotone; assumption |].
  split.
  { intros oi_values change_values Hoi Hch.
    destruct (segment_thresholds_ordered oi_values change_values Hoi Hch)
      as (ts & Hp & Hg & Ho & Hc).
    exists ts. repeat split; assumption. }
  split.
  { intros historical_data inst.
    destruct (respective_percentiles_ordered historical_data inst)
      as (m & Hm & Hord).
    exists m. split; [exact Hm | exact Hord]. }
  intros df d lookback_days inst ts [Hf | Ho].
  - exact (futures_thresholds_ordered _ _ _ _ _ Hf).
  - exact (combined_options_percentiles_ordered _ _ _ Ho).
Qed.

(** The futures thresholds of the tenth of ten trading days: the sorted
    absolute OI values are 1, 2, 4, 5, 7, 8, 10, 11, 14, 17. *)
Example futures_thresholds_of_ten_days :
  match Window.Rolling.futures_thresholds ten_days 10 60 "FII" with
  | Py.Return (Some ts) =>
      (Percentile.oi_p80 ts == 116 # 10)%Q
      /\ (Percentile.oi_p40 ts == 62 # 10)%Q
      /\ (Percentile.change_p80 ts == 3)%Q
      /\ (Percentile.change_p20 ts == 3)%Q
  | _ => False
  end.
Proof. vm_compute. repeat split; reflexivity. Qed.

(** With fewer than ten rows in the window the segment is skipped. *)
Example futures_thresholds_insufficient :
  Window.Rolling.futures_thresholds ten_days 9 60 "FII" = Py.Return None.
Proof. vm_compute. reflexivity. Qed.

(** Six sorted values with the percentiles 40 and 80, a segment with three
    OI values and two changes, and the futures thresholds of the tenth of
    ten trading days. *)
Lemma C7_get_threshold_monotone_witness :
  (exists v1 v2 : Q,
     (Percentile.Platform.get_threshold 40 [1; 2; 3; 4; 5; 6]%Q = Py.Return v1
      /\ Percentile.Guarded.get_threshold 40 [1; 2; 3; 4; 5; 6]%Q
         = Py.Return v1)
     /\ (Percentile.Platform.get_threshold 80 [1; 2; 3; 4; 5; 6]%Q
         = Py.Return v2
         /\ Percentile.Guarded.get_threshold 80 [1; 2; 3; 4; 5; 6]%Q
            = Py.Return v2)
     /\ (v1 <= v2)%Q)
  /\ (exists ts : Percentile.ThresholdSet,
        Percentile.segment_thresholds Percentile.Platform.get_threshold
          [-3; 1; 2]%Q [5; -1]%Q = Py.Return ts
        /\ Percentile.segment_thresholds Percentile.Guarded.get_threshold
             [-3; 1; 2]%Q [5; -1]%Q = Py.Return ts
        /\ (Percentile.oi_p40 ts <= Percentile.oi_p80 ts)%Q
        /\ (Percentile.change_p20 ts <= Percentile.change_p80 ts)%Q)
  /\ (exists ts : Percentile.ThresholdSet,
        Window.Rolling.futures_thresholds ten_days 10 60 "FII"
          = Py.Return (Some ts)
        /\ (Percentile.oi_p40 ts <= Percentile.oi_p80 ts)%Q
        /\ (Percentile.change_p20 ts <= Percentile.change_p80 ts)%Q).
Proof.
  split; [| split].
  - apply (proj1 C7_get_threshold_monotone).
    + repeat constructor; discriminate.
    + discriminate.
    + discriminate.
    + discriminate.
    + discriminate.
  - apply (proj1 (proj2 C7_get_threshold_monotone)); discriminate.
  - eexists. split; [vm_compute; reflexivity |].
    apply (proj2 (proj2 (proj2 C7_get_threshold_monotone))
             ten_days 10%Z 60%nat "FII").
    left. vm_compute. reflexivity.
Defined.

(** ** WindowStrategy *)

Section UniqueFacts.

Context {A : Type} `{EqDecision A}.

Lemma unique_elem_of (l : list A) (x : A) : x ∈ Py.unique l <-> x ∈ l.
Proof.
  induction l as [| y l IH]; simpl; [reflexivity |].
  rewrite !elem_of_cons, list_elem_of_filter, IH.
  destruct (decide (x = y)) as [-> | Hne]; tauto.
Qed.

Lemma unique_NoDup (l : list A) : NoDup (Py.unique l).
Proof.
  induction l as [| y l IH]; simpl; [constructor |].
  apply NoDup_cons. split.
  - rewrite list_elem_of_filter. intros [Hne _]. apply Hne. reflexivity.
  - apply NoDup_filter. exact IH.
Qed.

End UniqueFacts.

Lemma sorted_reverse_elem_of (l : list Z) (x : Z) :
  x ∈ sorted_reverse l <-> x ∈ l.
Proof. unfold sorted_reverse. rewrite merge_sort_Permutation. reflexivity. Qed.

Lemma sorted_reverse_NoDup (l : list Z) : NoDup l -> NoDup (sorted_reverse l).
Proof. unfold sorted_reverse. rewrite merge_sort_Permutation. auto. Qed.

Lemma sorted_reverse_descending (l : list Z) :
  StronglySorted (flip Z.le) (sorted_reverse l).
Proof. apply StronglySorted_merge_sort; apply _. Qed.

(** In a duplicate-free descending list, whatever is cut off after the
    first [n] elements is older than each of them. *)
Lemma take_newer_than_drop (l : list Z) (n : nat) (x y : Z) :
  StronglySorted (flip Z.le) l -> NoDup l ->
  x ∈ take n l -> y ∈ drop n l -> (y < x)%Z.
Proof.
  intros Hsorted Hnodup Hx Hy.
  rewrite <- (take_drop n l) in Hsorted, Hnodup.
  pose proof (StronglySorted_app_1_elem_of _ _ _ _ _ Hsorted Hx Hy) as Hle.
  apply NoDup_app in Hnodup as (_ & Hdisj & _).
  unfold flip in Hle.
  assert (x <> y) as Hne by (intros ->; exact (Hdisj _ Hx Hy)).
  lia.
Qed.

Lemma In_map_date (df : list Window.Row) (x : Z) :
  x ∈ map Window.date df <-> exists r, r ∈ df /\ Window.date r = x.
Proof.
  rewrite list_elem_of_In, in_map_iff. split.
  - intros (r & Hr & Hin). exists r. rewrite list_elem_of_In. auto.
  - intros (r & Hin & Hr). exists r. rewrite <- list_elem_of_In. auto.
Qed.

Section RollingWindow.

Variables (df : list Window.Row) (target_date : Z) (lookback_days : nat).

Let dates_before : list Z :=
  sorted_reverse
    (Py.unique (map Window.date
                  (filter (fun r => (Window.date r <= target_date)%Z) df))).

Let window : list Z :=
  Window.Rolling.lookback_dates df target_date lookback_days.

Lemma rolling_window_take : window = take lookback_days dates_before.
Proof.
  subst window. unfold Window.Rolling.lookback_dates. fold dates_before.
  destruct (lookback_days <=? length dates_before)%nat eqn:Hlen.
  - reflexivity.
  - apply Nat.leb_gt in Hlen. symmetry. apply take_ge. lia.
Qed.

Lemma dates_before_elem_of (x : Z) :
  x ∈ dates_before <->
  (x <= target_date)%Z /\ exists r, r ∈ df /\ Window.date r = x.
Proof.
  subst dates_before.
  rewrite sorted_reverse_elem_of, unique_elem_of, In_map_date. split.
  - intros (r & Hr & Hx). apply list_elem_of_filter in Hr as [Hle Hr].
    split; [lia | exists r; auto].
  - intros (Hle & r & Hr & Hx). exists r. split; [| exact Hx].
    apply list_elem_of_filter. split; [lia | exact Hr].
Qed.

Lemma dates_before_NoDup : NoDup dates_before.
Proof. apply sorted_reverse_NoDup, unique_NoDup. Qed.

Lemma rolling_window_elem_of (x : Z) :
  x ∈ window ->
  (x <= target_date)%Z /\ exists r, r ∈ df /\ Window.date r = x.
Proof.
  rewrite rolling_window_take. intros Hx.
  apply dates_before_elem_of.
  eapply elem_of_sublist; [exact Hx | apply sublist_take].
Qed.

Lemma rolling_window_most_recent (r : Window.Row) :
  r ∈ df -> (Window.date r <= target_date)%Z -> Window.date r ∉ window ->
  length window = lookback_days
  /\ forall x, x ∈ window -> (Window.date r < x)%Z.
Proof.
  intros Hr Hle Hout. rewrite rolling_window_take in *.
  assert (Window.date r ∈ dates_before) as Hin
    by (apply dates_before_elem_of; eauto).
  rewrite <- (take_drop lookback_days dates_before) in Hin.
  apply elem_of_app in Hin as [Hin | Hin]; [contradiction |].
  split.
  - apply length_take_le.
    destruct (Nat.le_gt_cases lookback_days (length dates_before))
      as [Hok | Hshort]; [exact Hok |].
    rewrite drop_ge in Hin by lia. apply elem_of_nil in Hin. contradiction.
  - intros x Hx.
    apply (take_newer_than_drop dates_before lookback_days);
      [apply sorted_reverse_descending | apply dates_before_NoDup
       | exact Hx | exact Hin].
Qed.

End RollingWindow.

Section FixedWindow.

Variables (df : list Window.Row) (lookback_days : nat).

(** Every date the accuracy summary analyses is older than the latest
    trading date, whose rows are part of the sample of the run. *)
Lemma fixed_window_looks_ahead (d : Z) :
  d ∈ Window.Fixed.analysis_dates df lookback_days ->
  exists r, r ∈ Window.Fixed.historical_data df lookback_days
            /\ (d < Window.date r)%Z.
Proof.
  unfold Window.Fixed.analysis_dates, Window.Fixed.historical_data,
    Window.isin_dates, Py.slice.
  pose proof (sorted_reverse_descending
                (Py.unique (map Window.date df))) as Hsorted.
  pose proof (sorted_reverse_NoDup _
                (unique_NoDup (map Window.date df))) as Hnodup.
  pose proof (fun x => sorted_reverse_elem_of
                (Py.unique (map Window.date df)) x) as Helem.
  fold (Window.Fixed.all_dates df) in Hsorted, Hnodup, Helem.
  destruct (Window.Fixed.all_dates df) as [| latest older] eqn:Hall;
    [rewrite take_nil; simpl; intros Hd; apply elem_of_nil in Hd;
     contradiction |].
  destruct lookback_days as [| n]; simpl;
    [intros Hd; apply elem_of_nil in Hd; contradiction |].
  rewrite drop_0. intros Hd.
  assert (d ∈ older) as Hold
    by (eapply elem_of_sublist; [exact Hd | apply sublist_take]).
  assert (d < latest)%Z as Hlt.
  { apply StronglySorted_cons in Hsorted as [Hall_le _].
    rewrite Forall_forall in Hall_le. specialize (Hall_le d Hold).
    apply NoDup_cons in Hnodup as [Hnot _].
    unfold flip in Hall_le.
    assert (d <> latest) by (intros ->; contradiction). lia. }
  assert (latest ∈ map Window.date df) as Hlatest.
  { apply unique_elem_of, Helem. apply elem_of_cons. left. reflexivity. }
  apply In_map_date in Hlatest as (r & Hr & Hdate).
  exists r. split; [| lia].
  apply list_elem_of_filter. split; [| exact Hr].
  rewrite Hdate. apply elem_of_cons. left. reflexivity.
Qed.

End FixedWindow.

Example rolling_window_of_first_day :
  Window.Rolling.lookback_dates (two_days 50) 1 60 = [1%Z]
  /\ Window.Rolling.lookback_dates (two_days 50) 2 60 = [2%Z; 1%Z]
  /\ Window.Rolling.lookback_dates (two_days 50) 2 1 = [2%Z].
Proof. repeat split; vm_compute; reflexivity. Qed.

(** The thresholds the accuracy summary applies to the first day change
    with the second day's Call OI: 80th percentile 42 against 402. *)
Example fixed_thresholds_depend_on_later_day :
  Window.Fixed.analysis_dates (two_days 50) 60 = [1%Z]
  /\ Window.Fixed.analysis_dates (two_days 500) 60 = [1%Z]
  /\ exists ts ts' : Percentile.ThresholdSet,
       Window.Fixed.p_data
         (Window.Fixed.institution_percentiles_acc (two_days 50) 60)
         "FII" "Call Options" = Some ts
       /\ Window.Fixed.p_data
            (Window.Fixed.institution_percentiles_acc (two_days 500) 60)
            "FII" "Call Options" = Some ts'
       /\ (Percentile.oi_p80 ts == 42)%Q
       /\ (Percentile.oi_p80 ts' == 402)%Q.
Proof.
  split; [vm_compute; reflexivity |].
  split; [vm_compute; reflexivity |].
  eexists. eexists.
  split; [vm_compute; reflexivity |].
  split; [vm_compute; reflexivity |].
  split; vm_compute; reflexivity.
Qed.

Lemma foldl_pointwise {A B : Type} (F G : A -> B -> A) (l : list B) :
  (forall a x, F a x = G a x) -> forall a, foldl F a l = foldl G a l.
Proof.
  intros Hext. induction l as [| x l IH]; intros a; simpl; [reflexivity |].
  rewrite Hext. apply IH.
Qed.

(** The counts depend on the strength function only through its values. *)
Lemma accuracy_counts_pointwise
    (f g : Z -> list Backtest.StrengthResult)
    (sorted_trading_dates : list Z) (date_to_nifty : gmap Z Q)
    (analysis_dates : list Z) (t : Q) :
  (forall d, f d = g d) ->
  Backtest.accuracy_counts f sorted_trading_dates date_to_nifty
    analysis_dates t
  = Backtest.accuracy_counts g sorted_trading_dates date_to_nifty
      analysis_dates t.
Proof.
  intros Hfg. unfold Backtest.accuracy_counts.
  apply foldl_pointwise. intros acc d. rewrite Hfg. reflexivity.
Qed.

(** The accuracy summary hands the percentiles of the run, and no others,
    to [calculate_strength_for_date], whatever the date. *)
Lemma accuracy_summary_uses_run_percentiles
    (f g : Z -> gmap string (gmap string Percentile.ThresholdSet)
           -> list Backtest.StrengthResult)
    (df : list Window.Row) (date_to_nifty : gmap Z Q) (lookback_days : nat)
    (run : gmap string (gmap string Percentile.ThresholdSet)) :
  Window.Fixed.institution_percentiles_acc df lookback_days = Py.Return run ->
  (forall d, f d run = g d run) ->
  Backtest.calculate_accuracy_summary f df date_to_nifty lookback_days
  = Backtest.calculate_accuracy_summary g df date_to_nifty lookback_days.
Proof.
  intros Hrun Hfg. unfold Backtest.calculate_accuracy_summary.
  rewrite Hrun, !bind_Return.
  apply foldl_pointwise. intros acc t.
  rewrite (accuracy_counts_pointwise (fun d => f d run) (fun d => g d run));
    [reflexivity | exact Hfg].
Qed.

(** C4 as stated fails on the back-test: with two trading
    days, the first day is analysed and the sample of the run holds the row
    of the second day. *)
Lemma C4_backtest_sample_has_later_day_counterexample :
  1%Z ∈ Window.Fixed.analysis_dates (two_days 50) 60
  /\ ~ (forall r : Window.Row,
          r ∈ Window.Fixed.historical_data (two_days 50) 60 ->
          (Window.date r <= 1)%Z).
Proof.
  split.
  - vm_compute. constructor.
  - intros Hall.
    specialize (Hall (Window.mkRow 2 "FII" (Some 6%Q) (Some 1%Q)
                        (Some 50%Q) (Some 40%Q) (Some 25%Q) (Some 5%Q))).
    assert (2 <= 1)%Z as Hbad; [| lia].
    apply Hall. vm_compute. apply list_elem_of_further, list_elem_of_here.
Qed.

(** C4 (amended): the per-date rolling selection of
    custom_percentile_method_2.py takes its sample only from rows of the
    [lookback_days] most recent distinct trading dates at or before the
    target date, never from a later date; the back-test of the
    respective-percentile script does not use it: it takes one sample, from
    the [lookback_days] most recent trading dates of the whole data, for all
    the dates it scores, so for each of them the sample holds rows of a
    later date; the percentiles of that one sample are the only ones its
    [calculate_strength_for_date] is given. *)
Theorem C4_window_strategies (df : list Window.Row) (lookback_days : nat) :
  (forall (d : Z) (r : Window.Row),
      r ∈ Window.Rolling.historical_data df d lookback_days ->
      r ∈ df /\ (Window.date r <= d)%Z
      /\ Window.date r ∈ Window.Rolling.lookback_dates df d lookback_days)
  /\ (forall d : Z,
        NoDup (Window.Rolling.lookback_dates df d lookback_days)
        /\ (length (Window.Rolling.lookback_dates df d lookback_days)
             <= lookback_days)%nat
        /\ forall x : Z,
             x ∈ Window.Rolling.lookback_dates df d lookback_days ->
             (x <= d)%Z /\ exists r, r ∈ df /\ Window.date r = x)
  /\ (forall (d : Z) (r : Window.Row),
        r ∈ df -> (Window.date r <= d)%Z ->
        Window.date r ∉ Window.Rolling.lookback_dates df d lookback_days ->
        length (Window.Rolling.lookback_dates df d lookback_days)
          = lookback_days
        /\ forall x : Z,
             x ∈ Window.Rolling.lookback_dates df d lookback_days ->
             (Window.date r < x)%Z)
  /\ (forall d : Z,
        d ∈ Window.Fixed.analysis_dates df lookback_days ->
        exists r : Window.Row,
          r ∈ Window.Fixed.historical_data df lookback_days
          /\ (d < Window.date r)%Z)
  /\ (forall (f g : Z -> gmap string (gmap string Percentile.ThresholdSet)
                    -> list Backtest.StrengthResult)
             (date_to_nifty : gmap Z Q)
             (run : gmap string (gmap string Percentile.ThresholdSet)),
        Window.Fixed.institution_percentiles_acc df lookback_days
          = Py.Return run ->
        (forall d : Z, f d run = g d run) ->
        Backtest.calculate_accuracy_summary f df date_to_nifty lookback_days
        = Backtest.calculate_accuracy_summary g df date_to_nifty
            lookback_days).
Proof.
  split; [| split; [| split; [| split]]].
  - intros d r Hr. unfold Window.Rolling.historical_data, Window.isin_dates in Hr.
    apply list_elem_of_filter in Hr as [Hdate Hr].
    split; [exact Hr |]. split; [| exact Hdate].
    apply (rolling_window_elem_of df d lookback_days _ Hdate).
  - intros d. split; [| split].
    + rewrite rolling_window_take.
      eapply sublist_NoDup; [| apply sublist_take].
      apply sorted_reverse_NoDup, unique_NoDup.
    + rewrite rolling_window_take, length_take. lia.
    + apply rolling_window_elem_of.
  - intros d r. apply rolling_window_most_recent.
  - apply fixed_window_looks_ahead.
  - intros f g date_to_nifty run.
    apply accuracy_summary_uses_run_percentiles.
Qed.

(** The two sample days: the rolling sample of day 1 holds the row of day
    1, and the back-test sample holds a row that is later than day 1. *)
Lemma C4_window_strategies_witness :
  (Window.date (Window.mkRow 1 "FII" (Some 5%Q) (Some 0%Q)
                  (Some 10%Q) (Some 0%Q) (Some 20%Q) (Some 0%Q)) <= 1)%Z
  /\ exists r : Window.Row,
       r ∈ Window.Fixed.historical_data (two_days 50) 60
       /\ (1 < Window.date r)%Z.
Proof.
  split.
  - apply (proj1 (C4_window_strategies (two_days 50) 60) 1%Z).
    vm_compute. apply list_elem_of_here.
  - apply (proj1 (proj2 (proj2 (proj2
             (C4_window_strategies (two_days 50) 60))))).
    vm_compute. apply list_elem_of_here.
Defined.

(** ** BacktestEvaluator *)

(** On an expectation word the chain of comparisons decides exactly the
    predicted move. *)
Lemma judge_move (m : Backtest.Move) (pct t : Q) :
  exists b : bool,
    Backtest.judge (Backtest.move_str m) pct t = Some b
    /\ (b = true <-> Backtest.predicted m pct t).
Proof.
  unfold Backtest.judge.
  destruct m; simpl Backtest.move_str; eval_bool_decide; cbv iota;
    eexists; (split; [reflexivity |]); simpl Backtest.predicted.
  - apply Qgt_bool_true.
  - apply Qlt_bool_true.
  - apply Qle_bool_iff.
  - apply Qle_bool_iff.
  - apply Qge_bool_true.
  - apply Qle_bool_iff.
  - apply Qgt_bool_true.
Qed.

(** The expectation table only holds the seven words and the empty
    string. *)
Lemma exp_str_for_words (inst call put : string) :
  Backtest.exp_str_for inst call put = EmptyString
  \/ exists m : Backtest.Move,
       Backtest.exp_str_for inst call put = Backtest.move_str m.
Proof.
  unfold Backtest.exp_str_for, Py.dict_get.
  destruct (Backtest.expectations !! (call, put)) as [e |] eqn:Hlook.
  - apply dict_literal_lookup_In in Hlook.
    unfold Backtest.expectations_entries in Hlook. simpl in Hlook.
    repeat match goal with
    | H : _ \/ _ |- _ => destruct H as [H | H]
    end; try contradiction;
    injection Hlook as _ _ <-; simpl;
    destruct (bool_decide (inst = "CLIENT"));
    first [ left; reflexivity
          | right;
            (exists Backtest.UP + exists Backtest.DOWN + exists Backtest.FLAT
             + exists Backtest.NEUTRAL + exists Backtest.FLAT_OR_UP
             + exists Backtest.FLAT_OR_DOWN + exists Backtest.VOLATILE);
            reflexivity ].
  - left. simpl. destruct (bool_decide (inst = "CLIENT")); reflexivity.
Qed.

Lemma move_str_nonempty (m : Backtest.Move) :
  Backtest.move_str m <> EmptyString.
Proof. destruct m; discriminate. Qed.

(** In the loop over the institutions only the institution's own counts
    change, and only when its Call and Put results are both present. *)
Lemma score_institution_other (t pct : Q)
    (results : list Backtest.StrengthResult)
    (counts : gmap string Backtest.Counts) (inst other : string) :
  other <> inst ->
  Backtest.score_institution t pct results counts inst !! other
  = counts !! other.
Proof.
  intros Hne. unfold Backtest.score_institution.
  repeat match goal with
  | |- context [match ?o with Some _ => _ | None => _ end] => destruct o
  end; try reflexivity.
  apply lookup_alter_ne. congruence.
Qed.

Lemma score_institution_own (t pct : Q)
    (counts : gmap string Backtest.Counts) (inst call put : string) :
  Backtest.score_institution t pct
    [Backtest.mkResult inst "Call Options" call;
     Backtest.mkResult inst "Put Options" put] counts inst !! inst
  = Backtest.score t pct inst call put <$> counts !! inst.
Proof.
  unfold Backtest.score_institution.
  rewrite !filter_cons_True by reflexivity. rewrite filter_nil.
  unfold Py.dict_literal. simpl.
  rewrite lookup_insert_ne by discriminate.
  rewrite !lookup_insert_eq. apply lookup_alter_eq.
Qed.

(** A run over three trading days for one threshold: on day 1 CLIENT
    expects FLAT OR UP and the index rises by 1 percent (correct); on day 2
    it falls by about 0.99 percent (wrong); day 3 has no next day. *)
Example accuracy_counts_three_days :
  let strength_for_date := fun _ : Z =>
    [Backtest.mkResult "CLIENT" "Call Options" "MEDIUM BEARISH";
     Backtest.mkResult "CLIENT" "Put Options" "INDECISIVE";
     Backtest.mkResult "FII" "Call Options" "MILD BULLISH";
     Backtest.mkResult "FII" "Put Options" "MILD BEARISH";
     Backtest.mkResult "PRO" "Call Options" "STRONG BULLISH"] in
  let date_to_nifty : gmap Z Q :=
    Py.dict_literal [(1%Z, 100%Q); (2%Z, 101%Q); (3%Z, 100%Q)] in
  match Backtest.accuracy_counts strength_for_date [1; 2; 3]%Z
          date_to_nifty [2; 1]%Z (3 # 10) with
  | Py.Return counts =>
      counts !! "CLIENT" = Some (Backtest.mkCounts 1 1 0)
      /\ counts !! "FII" = Some (Backtest.mkCounts 0 0 2)
      /\ counts !! "PRO" = Some (Backtest.mkCounts 0 0 0)
  | Py.Raise _ => False
  end.
Proof. vm_compute. repeat split; reflexivity. Qed.

(** * Further properties of the code *)

(** ** The estimators at and beyond the ends of the percentile range *)

Lemma getitem_beyond {A : Type} (l : list A) (i : Z) :
  (Z.of_nat (length l) <= i)%Z -> Py.getitem l i = Py.Raise Py.IndexError.
Proof.
  intros Hi. unfold Py.getitem.
  replace (i <? 0)%Z with false by (symmetry; apply Z.ltb_ge; lia).
  replace (i <? Z.of_nat (length l))%Z with false
    by (symmetry; apply Z.ltb_ge; lia).
  rewrite andb_false_r. reflexivity.
Qed.

(** At a whole position the interpolated value is the element there. *)
Lemma interpolate_whole (s : list Q) (x : Q) (z : Z) :
  (x == inject_Z z)%Q -> Percentile.interpolate s x = Percentile.item s z.
Proof.
  intros Hx. unfold Percentile.interpolate, Percentile.divmod1.
  assert (Qfloor x = z) as Hfl by (rewrite Hx; apply Qfloor_Z).
  rewrite Hfl.
  replace (Qeq_bool (x - inject_Z z) 0) with true; [reflexivity |].
  symmetry. apply Qeq_bool_iff. rewrite Hx. ring.
Qed.

Lemma position_lowest (p : Q) (s : list Q) :
  (p == 0)%Q -> (Percentile.position p s == inject_Z 0)%Q.
Proof.
  intros Hp. unfold Percentile.position. rewrite Hp.
  change (inject_Z 0) with 0%Q. field.
Qed.

Lemma position_highest (p : Q) (s : list Q) :
  (p == 100)%Q ->
  (Percentile.position p s == inject_Z (Z.of_nat (length s) - 1))%Q.
Proof.
  intros Hp. unfold Percentile.position. rewrite Hp. field.
Qed.

(** X1: on an ascending non-empty sample and a percentile in [0, 100] both
    estimators return a value between the first (smallest) and the last
    (largest) element; the percentile 0 gives the first element and the
    percentile 100 the last. *)
Theorem X1_get_threshold_within_sample (p : Q) (s : list Q) :
  Sorted Qle s -> s <> [] -> (0 <= p <= 100)%Q ->
  exists v lo hi : Q,
    s !! 0%nat = Some lo /\ last s = Some hi
    /\ Percentile.Platform.get_threshold p s = Py.Return v
    /\ Percentile.Guarded.get_threshold p s = Py.Return v
    /\ (lo <= v <= hi)%Q
    /\ ((p == 0)%Q -> v = lo)
    /\ ((p == 100)%Q -> v = hi).
Proof.
  intros Hsorted Hne Hp.
  assert (0 < length s)%nat as Hlen
    by (destruct s; [contradiction | simpl; lia]).
  destruct (lookup_lt_is_Some_2 s 0%nat Hlen) as [lo Hlo].
  destruct (lookup_lt_is_Some_2 s (Z.to_nat (Z.of_nat (length s) - 1)))
    as [hi Hhi]; [lia |].
  pose proof (item_lookup s 0 lo Hlo) as Hitem0.
  pose proof (item_lookup s _ hi Hhi) as Hitem1.
  destruct (get_threshold_interpolate p s Hp Hne) as [Hplat Hguard].
  destruct (position_bounds p s Hp Hne) as [Hpos0 Hpos1].
  exists (Percentile.interpolate s (Percentile.position p s)), lo, hi.
  split; [exact Hlo |]. split.
  { rewrite last_lookup.
    replace (pred (length s)) with (Z.to_nat (Z.of_nat (length s) - 1))
      by lia. exact Hhi. }
  split; [exact Hplat |]. split; [exact Hguard |]. split; [split |].
  - rewrite <- Hitem0, <- (interpolate_whole s (inject_Z 0) 0)
      by reflexivity.
    apply interpolate_monotone;
      [exact Hsorted | apply Qle_refl | exact Hpos0 | exact Hpos1].
  - rewrite <- Hitem1,
      <- (interpolate_whole s (inject_Z (Z.of_nat (length s) - 1)) _)
      by reflexivity.
    apply interpolate_monotone;
      [exact Hsorted | exact Hpos0 | exact Hpos1 | apply Qle_refl].
  - split.
    + intros Hp0. rewrite <- Hitem0.
      apply interpolate_whole, position_lowest, Hp0.
    + intros Hp100. rewrite <- Hitem1.
      apply interpolate_whole, position_highest, Hp100.
Qed.

(** Five sorted values: the 25th percentile lies between 2 and 12, the
    percentile 0 is 2 and the percentile 100 is 12. *)
Lemma X1_get_threshold_within_sample_witness :
  (exists v : Q,
     Percentile.Platform.get_threshold 25 [2; 3; 5; 8; 12]%Q = Py.Return v
     /\ (2 <= v <= 12)%Q)
  /\ Percentile.Platform.get_threshold 0 [2; 3; 5; 8; 12]%Q = Py.Return 2%Q
  /\ Percentile.Guarded.get_threshold 100 [2; 3; 5; 8; 12]%Q
     = Py.Return 12%Q.
Proof.
  assert (Sorted Qle [2; 3; 5; 8; 12]%Q) as Hsorted
    by (repeat constructor; discriminate).
  assert ([2; 3; 5; 8; 12]%Q <> []) as Hne by discriminate.
  split; [| split].
  - destruct (X1_get_threshold_within_sample 25 _ Hsorted Hne)
      as (v & lo & hi & Hlo & Hhi & Hv & _ & Hrange & _);
      [split; discriminate |].
    exists v. injection Hlo as <-. injection Hhi as <-.
    split; [exact Hv | exact Hrange].
  - destruct (X1_get_threshold_within_sample 0 _ Hsorted Hne)
      as (v & lo & hi & Hlo & _ & Hv & _ & _ & Hzero & _);
      [split; discriminate |].
    injection Hlo as <-. rewrite Hv. f_equal. apply Hzero. reflexivity.
  - destruct (X1_get_threshold_within_sample 100 _ Hsorted Hne)
      as (v & lo & hi & _ & Hhi & _ & Hv & _ & _ & Htop);
      [split; discriminate |].
    injection Hhi as <-. rewrite Hv. f_equal. apply Htop. reflexivity.
Defined.

Lemma position_nonneg (p : Q) (s : list Q) :
  (0 <= p)%Q -> s <> [] -> (0 <= Percentile.position p s)%Q.
Proof.
  intros Hp Hne. unfold Percentile.position.
  apply Qmult_le_0_compat.
  - unfold Qdiv. apply Qmult_le_0_compat; [exact Hp | discriminate].
  - change 0%Q with (inject_Z 0). rewrite <- Zle_Qle.
    destruct s; [contradiction | simpl; lia].
Qed.

Lemma position_beyond (p : Q) (s : list Q) :
  (100 <= p)%Q -> s <> [] ->
  (inject_Z (Z.of_nat (length s) - 1) <= Percentile.position p s)%Q.
Proof.
  intros Hp Hne. unfold Percentile.position.
  rewrite <- (Qmult_1_l (inject_Z _)) at 1.
  apply Qmult_le_compat_r.
  - unfold Qdiv. change (/ 100)%Q with (1 # 100)%Q. lra.
  - change 0%Q with (inject_Z 0). rewrite <- Zle_Qle.
    destruct s; [contradiction | simpl; lia].
Qed.

(** The guarded estimator returns for every percentile that is not
    negative, and clamps from the percentile 100 on. *)
Lemma guarded_get_threshold_clamp (p : Q) (s : list Q) :
  (0 <= p)%Q ->
  exists v : Q,
    Percentile.Guarded.get_threshold p s = Py.Return v
    /\ ((100 <= p)%Q -> s <> [] -> last s = Some v).
Proof.
  intros Hp. unfold Percentile.Guarded.get_threshold.
  destruct s as [| x [| y t]].
  - exists 0%Q. split; [reflexivity | intros _ Hne; contradiction].
  - exists x. split; reflexivity.
  - set (s := x :: y :: t).
    assert (s <> []) as Hne by discriminate.
    rewrite (bool_decide_eq_false_2 (s = [])) by exact Hne.
    change (length s <=? 1)%nat with false. simpl orb. cbv iota.
    unfold Percentile.divmod1.
    set (pos := Percentile.position p s). set (i := Qfloor pos).
    assert (0 <= i)%Z as Hi.
    { subst i. rewrite <- (Qfloor_Z 0). apply Qfloor_resp_le.
      apply position_nonneg; assumption. }
    destruct (getitem_last s Hne) as (z & Hz & Hgz).
    destruct (Z.of_nat (length s) - 1 <=? i)%Z eqn:Htop.
    + exists z. split; [exact Hgz |]. intros _ _.
      rewrite last_lookup.
      replace (pred (length s)) with (Z.to_nat (Z.of_nat (length s) - 1))
        by lia. exact Hz.
    + apply Z.leb_gt in Htop.
      destruct (getitem_in_range s i) as (a & _ & Ha); [lia |].
      destruct (getitem_in_range s (i + 1)) as (b & _ & Hb); [lia |].
      destruct (Qeq_bool (pos - inject_Z i) 0).
      * exists a. split; [exact Ha |]. intros Hp100 _. exfalso.
        pose proof (position_beyond p s Hp100 Hne) as Hbeyond.
        apply Qfloor_resp_le in Hbeyond. rewrite Qfloor_Z in Hbeyond.
        fold pos in Hbeyond. fold i in Hbeyond. lia.
      * rewrite Ha, Hb. eexists. split; [reflexivity |].
        intros Hp100 _. exfalso.
        pose proof (position_beyond p s Hp100 Hne) as Hbeyond.
        apply Qfloor_resp_le in Hbeyond. rewrite Qfloor_Z in Hbeyond.
        fold pos in Hbeyond. fold i in Hbeyond. lia.
Qed.

(** What the guarded estimator returns for a percentile that is not
    negative. *)
Lemma guarded_get_threshold_outcome (p : Q) (s : list Q) :
  (0 <= p)%Q ->
  exists v : Q,
    Percentile.Guarded.get_threshold p s = Py.Return v
    /\ (s = [] -> v = 0%Q)
    /\ (forall x : Q, s = [x] -> v = x)
    /\ ((p <= 100)%Q -> s <> [] ->
        v = Percentile.interpolate s (Percentile.position p s))
    /\ ((100 <= p)%Q -> s <> [] -> last s = Some v).
Proof.
  intros Hp.
  destruct (guarded_get_threshold_clamp p s Hp) as (v & Hv & Hlast).
  exists v. split; [exact Hv |]. split; [| split; [| split]].
  - intros ->.
    assert (Percentile.Guarded.get_threshold p [] = Py.Return 0%Q) as Hnil
      by reflexivity.
    rewrite Hnil in Hv. injection Hv as <-. reflexivity.
  - intros x ->.
    assert (Percentile.Guarded.get_threshold p [x] = Py.Return x) as Hone
      by reflexivity.
    rewrite Hone in Hv. injection Hv as <-. reflexivity.
  - intros Hp100 Hne.
    destruct (get_threshold_interpolate p s (conj Hp Hp100) Hne)
      as [_ Hguarded].
    rewrite Hguarded in Hv. injection Hv as <-. reflexivity.
  - exact Hlast.
Qed.

(** X2: the guarded estimator never raises for a percentile that is not
    negative, whatever the sample.  It returns 0 on an empty sample and
    the only element of a one-element sample; on a non-empty sample it
    returns the interpolated value up to the percentile 100 and the last
    element from the percentile 100 on. *)
Theorem X2_guarded_get_threshold_total (p : Q) (s : list Q) :
  (0 <= p)%Q ->
  exists v : Q,
    Percentile.Guarded.get_threshold p s = Py.Return v
    /\ (s = [] -> v = 0%Q)
    /\ (forall x : Q, s = [x] -> v = x)
    /\ ((p <= 100)%Q -> s <> [] ->
        v = Percentile.interpolate s (Percentile.position p s))
    /\ ((100 <= p)%Q -> s <> [] -> last s = Some v).
Proof.
  intros Hp.
  destruct (guarded_get_threshold_outcome p s Hp)
    as (v & Hv & Hnil & Hone & Hmid & Hlast).
  exists v. repeat split; assumption.
Qed.

(** The percentile 250 of three values is clamped to the last one. *)
Lemma X2_guarded_get_threshold_total_witness :
  Percentile.Guarded.get_threshold 250 [1; 4; 9]%Q = Py.Return 9%Q.
Proof.
  destruct (X2_guarded_get_threshold_total 250 [1; 4; 9]%Q)
    as (v & Hv & _ & _ & _ & Hlast).
  - discriminate.
  - rewrite Hv. f_equal.
    assert (last [1; 4; 9]%Q = Some v) as Hl
      by (apply Hlast; discriminate).
    injection Hl as <-. reflexivity.
Defined.

(** X3: the unguarded estimator has no clamp: for a percentile above 100
    and a sample of two or more elements it raises IndexError, where the
    guarded estimator returns the last element of the sample. *)
Theorem X3_platform_get_threshold_above_100 (p : Q) (s : list Q) :
  (100 < p)%Q -> (2 <= length s)%nat ->
  Percentile.Platform.get_threshold p s = Py.Raise Py.IndexError
  /\ exists v : Q,
       last s = Some v
       /\ Percentile.Guarded.get_threshold p s = Py.Return v.
Proof.
  intros Hp Hlen. split.
  2: { destruct (guarded_get_threshold_outcome p s)
         as (v & Hv & _ & _ & _ & Hlast); [lra |].
       exists v. split; [| exact Hv].
       apply Hlast; [lra |]. destruct s; [simpl in Hlen; lia | discriminate]. }
  unfold Percentile.Platform.get_threshold, Percentile.divmod1.
  set (pos := Percentile.position p s). set (i := Qfloor pos).
  set (n1 := (Z.of_nat (length s) - 1)%Z).
  assert (inject_Z n1 < pos)%Q as Hpos.
  { subst pos n1. unfold Percentile.position.
    rewrite <- (Qmult_1_l (inject_Z _)) at 1.
    apply Qmult_lt_compat_r.
    - change 0%Q with (inject_Z 0). rewrite <- Zlt_Qlt. lia.
    - unfold Qdiv. change (/ 100)%Q with (1 # 100)%Q. lra. }
  assert (n1 <= i)%Z as Hi.
  { subst i. rewrite <- (Qfloor_Z n1). apply Qfloor_resp_le.
    apply Qlt_le_weak. exact Hpos. }
  destruct (Z.eq_dec i n1) as [Heq | Hneq].
  - (* the position lies strictly between the last index and the next *)
    assert (Qeq_bool (pos - inject_Z i) 0 = false) as Hf.
    { destruct (Qeq_bool (pos - inject_Z i) 0) eqn:Hb; [| reflexivity].
      apply Qeq_bool_iff in Hb. rewrite Heq in Hb. lra. }
    rewrite Hf.
    destruct (getitem_in_range s i) as (a & _ & Ha); [subst n1; lia |].
    rewrite Ha, bind_Return.
    rewrite (getitem_beyond s (i + 1)) by (subst n1; lia). reflexivity.
  - rewrite (getitem_beyond s i) by (subst n1; lia).
    destruct (Qeq_bool (pos - inject_Z i) 0); reflexivity.
Qed.

(** The percentile 101 of two values. *)
Lemma X3_platform_get_threshold_above_100_witness :
  Percentile.Platform.get_threshold 101 [1; 4]%Q = Py.Raise Py.IndexError
  /\ exists v : Q,
       last [1; 4]%Q = Some v
       /\ Percentile.Guarded.get_threshold 101 [1; 4]%Q = Py.Return v.
Proof.
  apply X3_platform_get_threshold_above_100.
  - reflexivity.
  - simpl. lia.
Defined.

(** ** The rolling script's thresholds: when they exist and when they fail *)

Lemma platform_segment_thresholds_empty (oi_values change_values : list Q) :
  oi_values = [] \/ change_values = [] ->
  Percentile.segment_thresholds Percentile.Platform.get_threshold
    oi_values change_values = Py.Raise Py.IndexError.
Proof.
  intros Hempty. unfold Percentile.segment_thresholds.
  destruct oi_values as [| o oi_values].
  { simpl map. change (sorted []) with (@nil Q).
    rewrite platform_get_threshold_nil. reflexivity. }
  destruct Hempty as [Hoi | ->]; [discriminate |].
  destruct (get_threshold_monotone 40 80 (sorted (map Qabs (o :: oi_values))))
    as (o40 & o80 & [Ho40 _] & [Ho80 _] & _);
    [apply sorted_Sorted | apply sorted_nonempty; discriminate
     | discriminate | discriminate | discriminate |].
  rewrite Ho80, Ho40, !bind_Return. simpl map.
  change (sorted []) with (@nil Q).
  rewrite platform_get_threshold_nil. reflexivity.
Qed.

Lemma sorted_length (l : list Q) : length (sorted l) = length l.
Proof. unfold sorted. rewrite merge_sort_Permutation. reflexivity. Qed.

(** X4: the thresholds the rolling script computes for a target date.  The
    Index Futures thresholds are skipped ([None]) when the institution has
    fewer than 10 rows in the window; with 10 rows or more the script raises
    IndexError when the institution has no futures OI value or no futures
    change value in the window (nothing guards the empty sample there), and
    otherwise yields thresholds with [oi_p80 >= oi_p40] and
    [change_p80 >= change_p20].  The pooled options thresholds never
    raise. *)
Theorem X4_rolling_thresholds_outcomes
    (df : list Window.Row) (d : Z) (lookback_days : nat) (inst : string) :
  let hist := Window.Rolling.historical_data df d lookback_days in
  let rows := filter (fun r => Window.institution r = inst) hist in
  let oi_values := Window.column_values Window.FUTURE_INDEX inst hist in
  let change_values :=
    Window.column_values Window.FUTURE_INDEX_CHANGE inst hist in
  ((length rows < 10)%nat ->
     Window.Rolling.futures_thresholds df d lookback_days inst
     = Py.Return None)
  /\ ((10 <= length rows)%nat -> oi_values = [] \/ change_values = [] ->
      Window.Rolling.futures_thresholds df d lookback_days inst
      = Py.Raise Py.IndexError)
  /\ ((10 <= length rows)%nat -> oi_values <> [] -> change_values <> [] ->
      exists ts : Percentile.ThresholdSet,
        Window.Rolling.futures_thresholds df d lookback_days inst
        = Py.Return (Some ts)
        /\ Percentile.ordered ts)
  /\ (exists o : option Percentile.ThresholdSet,
        Window.Rolling.options_thresholds df d lookback_days inst
        = Py.Return o).
Proof.
  intros hist rows oi_values change_values.
  unfold Window.Rolling.futures_thresholds. fold hist. fold rows.
  fold oi_values. fold change_values.
  split; [| split; [| split]].
  - intros Hshort. apply Nat.ltb_lt in Hshort. rewrite Hshort. reflexivity.
  - intros Hlong Hempty.
    replace (length rows <? 10)%nat with false
      by (symmetry; apply Nat.ltb_ge; exact Hlong).
    rewrite platform_segment_thresholds_empty by exact Hempty. reflexivity.
  - intros Hlong Hoi Hch.
    replace (length rows <? 10)%nat with false
      by (symmetry; apply Nat.ltb_ge; exact Hlong).
    destruct (segment_thresholds_ordered oi_values change_values Hoi Hch)
      as (ts & Hts & _ & Hord).
    exists ts. rewrite Hts. split; [reflexivity | exact Hord].
  - unfold Window.Rolling.options_thresholds,
      Window.Rolling.calculate_combined_options_percentiles. fold hist.
    destruct (length _ <? 10)%nat; [exists None; reflexivity |].
    rewrite !sorted_length, !length_map.
    match goal with
    | |- context [Percentile.segment_thresholds _ ?oi ?ch] =>
        destruct oi as [| o oi'] eqn:Hoi;
          [exists None; reflexivity |];
        destruct ch as [| c ch'] eqn:Hch;
          [exists None; reflexivity |]
    end.
    destruct (segment_thresholds_ordered (o :: oi') (c :: ch'))
      as (ts & Hts & _); [discriminate | discriminate |].
    exists (Some ts). simpl. rewrite Hts. reflexivity.
Qed.

(** Ten days with futures data, the same ten days seen from day 9, and ten
    days whose futures OI column is empty. *)
Lemma X4_rolling_thresholds_outcomes_witness :
  Window.Rolling.futures_thresholds ten_days 9 60 "FII" = Py.Return None
  /\ Window.Rolling.futures_thresholds ten_days_no_futures 10 60 "FII"
     = Py.Raise Py.IndexError
  /\ exists ts : Percentile.ThresholdSet,
       Window.Rolling.futures_thresholds ten_days 10 60 "FII"
       = Py.Return (Some ts)
       /\ Percentile.ordered ts.
Proof.
  split; [| split].
  - apply (proj1 (X4_rolling_thresholds_outcomes ten_days 9 60 "FII")).
    vm_compute. lia.
  - apply (proj1 (proj2 (X4_rolling_thresholds_outcomes
                           ten_days_no_futures 10 60 "FII"))).
    + vm_compute. lia.
    + left. vm_compute. reflexivity.
  - apply (proj1 (proj2 (proj2 (X4_rolling_thresholds_outcomes
                                  ten_days 10 60 "FII")))).
    + vm_compute. lia.
    + vm_compute. discriminate.
    + vm_compute. discriminate.
Defined.

(** ** The strength pipeline *)

Lemma strength_level_tier (value : option Q) (p80 p_lower : Q)
    (is_change : bool) :
  exists t : StrengthTier,
    Pipeline.strength_level value p80 p_lower is_change = tier_str t.
Proof.
  destruct value as [v |]; [| exists MILD; reflexivity].
  unfold Pipeline.strength_level, Classifier.Respective.get_strength_level.
  destruct (Py.Qge_bool _ p80); [exists STRONG; reflexivity |].
  destruct (Py.Qge_bool _ _); [exists MEDIUM | exists MILD]; reflexivity.
Qed.

Lemma direction_word (value : option Q) (segment_name : string) :
  exists d : Direction,
    Pipeline.direction value segment_name = direction_str d.
Proof.
  unfold Pipeline.direction, Classifier.Respective.get_direction.
  destruct value as [v |];
    destruct (Py.contains _ _); try destruct (Py.Qgt_bool v 0);
    first [exists BULLISH; reflexivity | exists BEARISH; reflexivity].
Qed.

Lemma apply_truth_table_labels (ot : StrengthTier) (od : Direction)
    (ct : StrengthTier) (cd : Direction) :
  SignalComposer.apply_truth_table
    (tier_str ot) (direction_str od) (tier_str ct) (direction_str cd)
  = label_str (SignalComposer.spec_matrix (Decisive ot od) (Decisive ct cd)).
Proof. destruct ot, od, ct, cd; vm_compute; reflexivity. Qed.

(** The final strength of a segment is one of the seven labels. *)
Lemma segment_result_label (d : Z) (inst : string)
    (seg : string * option Q * option Q * Percentile.ThresholdSet) :
  exists l : Label,
    Pipeline.final_strength (Pipeline.segment_result d inst seg)
    = label_str l.
Proof.
  destruct seg as [[[name oi] ch] p]. unfold Pipeline.segment_result.
  cbn [Pipeline.final_strength].
  destruct (strength_level_tier oi (Percentile.oi_p80 p)
              (Percentile.oi_p40 p) false) as [ot ->].
  destruct (strength_level_tier ch (Percentile.change_p80 p)
              (Percentile.change_p20 p) true) as [ct ->].
  destruct (direction_word oi name) as [od ->].
  destruct (direction_word ch name) as [cd ->].
  rewrite apply_truth_table_labels. eexists. reflexivity.
Qed.

Lemma find_result_segments (name inst : string) (d : Z)
    (segs : list (string * option Q * option Q * Percentile.ThresholdSet)) :
  Pipeline.find_result name inst (map (Pipeline.segment_result d inst) segs)
  = Pipeline.segment_result d inst
      <$> head (filter (fun seg => seg.1.1.1 = name) segs).
Proof.
  unfold Pipeline.find_result.
  induction segs as [| [[[n oi] ch] p] segs IH]; [reflexivity |].
  cbn [map]. rewrite !filter_cons.
  cbn [Pipeline.segment Pipeline.institution Pipeline.segment_result fst].
  destruct (decide (n = name)) as [-> | Hne].
  - rewrite decide_True by (split; reflexivity). reflexivity.
  - rewrite decide_False by (intros [Hn _]; contradiction). exact IH.
Qed.

Lemma find_result_foreign (name inst : string)
    (prev results : list Pipeline.Result) :
  (forall r, r ∈ prev -> Pipeline.institution r <> inst) ->
  Pipeline.find_result name inst (prev ++ results)
  = Pipeline.find_result name inst results.
Proof.
  intros Hprev. unfold Pipeline.find_result. rewrite filter_app.
  replace (filter _ prev) with (@nil Pipeline.Result); [reflexivity |].
  symmetry. induction prev as [| r prev IH]; [reflexivity |].
  rewrite filter_cons_False.
  - apply IH. intros r' Hr'. apply Hprev. apply elem_of_cons. auto.
  - intros [_ Hinst]. apply (Hprev r); [apply list_elem_of_here | exact Hinst].
Qed.

(** What an institution adds does not depend on the results of the
    institutions before it. *)
Lemma institution_step_app
    (m : gmap ((string * string) * (string * string)) (string * string))
    (target_data : list Window.Row) (d : Z)
    (fp cp pp : option Percentile.ThresholdSet)
    (prev : list Pipeline.Result) (inst : string) :
  (forall r, r ∈ prev -> Pipeline.institution r <> inst) ->
  Pipeline.institution_step m target_data d fp cp pp prev inst
  = (prev ++ Pipeline.institution_step m target_data d fp cp pp [] inst)%list.
Proof.
  intros Hprev. unfold Pipeline.institution_step.
  destruct (filter _ target_data) as [| row rest];
    [rewrite app_nil_r; reflexivity |].
  cbv zeta. unfold Pipeline.with_net_options.
  rewrite !(find_result_foreign _ _ prev) by exact Hprev.
  rewrite app_nil_l.
  destruct (Pipeline.find_result "Call Options" inst _);
    [| reflexivity].
  destruct (Pipeline.find_result "Put Options" inst _);
    [| reflexivity].
  rewrite app_assoc. reflexivity.
Qed.

Lemma segment_result_fields (d : Z) (inst name : string)
    (oi ch : option Q) (p : Percentile.ThresholdSet) :
  let r := Pipeline.segment_result d inst (name, oi, ch, p) in
  Pipeline.date r = d /\ Pipeline.institution r = inst
  /\ Pipeline.segment r = name /\ Pipeline.net_oi r = oi
  /\ Pipeline.change r = ch.
Proof. repeat split; reflexivity. Qed.

Lemma segments_of_find (row : Window.Row)
    (fp cp pp : option Percentile.ThresholdSet) :
  head (filter (fun seg => seg.1.1.1 = "Call Options")
          (Pipeline.segments_of row fp cp pp))
  = (fun p => ("Call Options", Window.CALL_OI row,
               Window.CALL_OI_CHANGE row, p)) <$> cp
  /\ head (filter (fun seg => seg.1.1.1 = "Put Options")
            (Pipeline.segments_of row fp cp pp))
     = (fun p => ("Put Options", Window.PUT_OI row,
                  Window.PUT_OI_CHANGE row, p)) <$> pp.
Proof. destruct fp, cp, pp; split; reflexivity. Qed.

(** What one institution contributes: its segment results, followed by
    the Net Options result when the Call and the Put thresholds are both
    there. *)
Lemma institution_block
    (m : gmap ((string * string) * (string * string)) (string * string))
    (target_data : list Window.Row) (d : Z)
    (fp cp pp : option Percentile.ThresholdSet) (inst : string)
    (row : Window.Row) (rest : list Window.Row) :
  filter (fun r => Window.institution r = inst) target_data = row :: rest ->
  Pipeline.institution_step m target_data d fp cp pp [] inst
  = (map (Pipeline.segment_result d inst)
       (Pipeline.segments_of row fp cp pp)
     ++ match cp, pp with
        | Some c, Some q =>
            let call_result :=
              Pipeline.segment_result d inst
                ("Call Options", Window.CALL_OI row,
                 Window.CALL_OI_CHANGE row, c) in
            let put_result :=
              Pipeline.segment_result d inst
                ("Put Options", Window.PUT_OI row,
                 Window.PUT_OI_CHANGE row, q) in
            [Pipeline.mkResult d inst "Net Options"
               (Pipeline.sub (Window.CALL_OI row) (Window.PUT_OI row))
               (Pipeline.sub (Window.CALL_OI_CHANGE row)
                  (Window.PUT_OI_CHANGE row))
               (NetOptions.net_final m
                  (Pipeline.final_strength call_result)
                  (Pipeline.final_strength put_result))]
        | _, _ => []
        end)%list.
Proof.
  intros Hrows. unfold Pipeline.institution_step. rewrite Hrows.
  cbv zeta. unfold Pipeline.with_net_options. rewrite app_nil_l.
  rewrite !find_result_segments.
  destruct (segments_of_find row fp cp pp) as [-> ->].
  destruct cp as [c |], pp as [q |]; cbn [fmap option_fmap option_map];
    rewrite ?app_nil_r; reflexivity.
Qed.

Lemma coherent_nil
    (m : gmap ((string * string) * (string * string)) (string * string))
    (df : list Window.Row) (d : Z) (insts : list string) :
  Pipeline.coherent m df d insts [].
Proof.
  repeat split; try constructor; intros; split_elem_of.
Qed.

Lemma institution_block_coherent
    (m : gmap ((string * string) * (string * string)) (string * string))
    (df : list Window.Row) (d : Z)
    (fp cp pp : option Percentile.ThresholdSet) (inst : string) :
  Pipeline.coherent m df d [inst]
    (Pipeline.institution_step m
       (filter (fun r => Window.date r = d) df) d fp cp pp [] inst).
Proof.
  destruct (filter (fun r => Window.institution r = inst)
              (filter (fun r => Window.date r = d) df))
    as [| row rest] eqn:Hrows.
  { unfold Pipeline.institution_step. rewrite Hrows. apply coherent_nil. }
  rewrite (institution_block _ _ _ _ _ _ _ _ _ Hrows).
  assert (row ∈ df /\ Window.date row = d /\ Window.institution row = inst)
    as Hrow.
  { assert (row ∈ row :: rest) as Hin by apply list_elem_of_here.
    rewrite <- Hrows in Hin.
    apply list_elem_of_filter in Hin as [Hinst Hin].
    apply list_elem_of_filter in Hin as [Hdate Hin]. auto. }
  clear Hrows.
  pose proof (fun seg => segment_result_label d inst seg) as Hlabel.
  destruct fp as [f |], cp as [c |], pp as [q |];
    cbn [Pipeline.segments_of app map];
    (split; [| split; [| split]]).
  all: try (intros r Hr; split_elem_of;
            (split; [reflexivity |]);
            (split; [apply list_elem_of_here |]);
            (split; [exists row; exact Hrow |]);
            first [ left; reflexivity
                  | right; split; [| apply Hlabel];
                    repeat first [ apply list_elem_of_here
                                 | apply list_elem_of_further ] ]).
  all: try (cbn; repeat (apply NoDup_cons; split; [distinct_head |]);
            apply NoDup_nil_2).
  all: try (intros net Hnet Hseg; split_elem_of; try discriminate Hseg;
            match goal with
            | |- context [NetOptions.net_final _ (Pipeline.final_strength ?call)
                            (Pipeline.final_strength ?put)] =>
                exists call, put
            end;
            repeat split; try reflexivity;
            repeat first [apply list_elem_of_here | apply list_elem_of_further]).
  all: intros call put Hcall Hput Hinst Hsc Hsp; split_elem_of;
    try discriminate Hsc; try discriminate Hsp;
    match goal with
    | |- context [Pipeline.mkResult ?a ?b "Net Options" ?x ?y ?z] =>
        exists (Pipeline.mkResult a b "Net Options" x y z)
    end;
    repeat split; try reflexivity;
    repeat first [apply list_elem_of_here | apply list_elem_of_further].
Qed.

Lemma coherent_app
    (m : gmap ((string * string) * (string * string)) (string * string))
    (df : list Window.Row) (d : Z) (insts1 insts2 : list string)
    (r1 r2 : list Pipeline.Result) :
  Pipeline.coherent m df d insts1 r1 ->
  Pipeline.coherent m df d insts2 r2 ->
  (forall x, x ∈ insts1 -> x ∉ insts2) ->
  Pipeline.coherent m df d (insts1 ++ insts2) (r1 ++ r2).
Proof.
  intros (Hall1 & Hnd1 & Hnet1 & Hpair1) (Hall2 & Hnd2 & Hnet2 & Hpair2)
    Hdisj.
  assert (forall r, r ∈ r1 -> Pipeline.institution r ∈ insts1) as Hin1
    by (intros r Hr; apply (Hall1 r Hr)).
  assert (forall r, r ∈ r2 -> Pipeline.institution r ∈ insts2) as Hin2
    by (intros r Hr; apply (Hall2 r Hr)).
  split; [| split; [| split]].
  - intros r Hr. apply elem_of_app in Hr as [Hr | Hr].
    + destruct (Hall1 r Hr) as (Hd & Hi & Hrow & Hseg).
      repeat split; try assumption. apply elem_of_app. left. exact Hi.
    + destruct (Hall2 r Hr) as (Hd & Hi & Hrow & Hseg).
      repeat split; try assumption. apply elem_of_app. right. exact Hi.
  - rewrite map_app. apply NoDup_app. split; [exact Hnd1 |].
    split; [| exact Hnd2].
    intros [inst seg] Hk1 Hk2.
    apply list_elem_of_In, in_map_iff in Hk1 as (a & Ha & Hain).
    apply list_elem_of_In, in_map_iff in Hk2 as (b & Hb & Hbin).
    apply list_elem_of_In in Hain, Hbin.
    apply (Hdisj inst).
    + injection Ha as <- _. apply Hin1. exact Hain.
    + injection Hb as <- _. apply Hin2. exact Hbin.
  - intros net Hnet Hseg. apply elem_of_app in Hnet as [Hnet | Hnet].
    + destruct (Hnet1 net Hnet Hseg) as (call & put & Hc & Hp & Hrest).
      exists call, put.
      split; [apply elem_of_app; left; exact Hc |].
      split; [apply elem_of_app; left; exact Hp | exact Hrest].
    + destruct (Hnet2 net Hnet Hseg) as (call & put & Hc & Hp & Hrest).
      exists call, put.
      split; [apply elem_of_app; right; exact Hc |].
      split; [apply elem_of_app; right; exact Hp | exact Hrest].
  - intros call put Hc Hp Hinst Hsc Hsp.
    apply elem_of_app in Hc as [Hc | Hc];
      apply elem_of_app in Hp as [Hp | Hp].
    + destruct (Hpair1 call put Hc Hp Hinst Hsc Hsp) as (net & Hn & Hrest).
      exists net. split; [apply elem_of_app; left; exact Hn | exact Hrest].
    + exfalso. apply (Hdisj (Pipeline.institution call)); [auto |].
      rewrite Hinst. auto.
    + exfalso. apply (Hdisj (Pipeline.institution put)); [auto |].
      rewrite <- Hinst. auto.
    + destruct (Hpair2 call put Hc Hp Hinst Hsc Hsp) as (net & Hn & Hrest).
      exists net. split; [apply elem_of_app; right; exact Hn | exact Hrest].
Qed.

Lemma coherent_extend
    (m : gmap ((string * string) * (string * string)) (string * string))
    (df : list Window.Row) (d : Z) (insts : list string)
    (prev : list Pipeline.Result) (inst : string)
    (fp cp pp : option Percentile.ThresholdSet) :
  Pipeline.coherent m df d insts prev -> inst ∉ insts ->
  Pipeline.coherent m df d (insts ++ [inst])
    (Pipeline.institution_step m (filter (fun r => Window.date r = d) df)
       d fp cp pp prev inst).
Proof.
  intros Hprev Hfresh. rewrite institution_step_app.
  - apply coherent_app; [exact Hprev | apply institution_block_coherent |].
    intros x Hx Hx'. apply list_elem_of_singleton in Hx'. subst x.
    contradiction.
  - intros r Hr Heq. apply Hfresh. rewrite <- Heq.
    apply (proj1 Hprev r Hr).
Qed.

Lemma coherent_skip
    (m : gmap ((string * string) * (string * string)) (string * string))
    (df : list Window.Row) (d : Z) (insts : list string)
    (prev : list Pipeline.Result) (inst : string) :
  Pipeline.coherent m df d insts prev -> inst ∉ insts ->
  Pipeline.coherent m df d (insts ++ [inst]) prev.
Proof.
  intros Hprev Hfresh. rewrite <- (app_nil_r prev).
  apply coherent_app; [exact Hprev | apply coherent_nil |].
  intros x Hx Hx'. apply list_elem_of_singleton in Hx'. subst x.
  contradiction.
Qed.

Lemma respective_results_coherent (df : list Window.Row) (d : Z)
    (institution_percentiles :
       gmap string (gmap string Percentile.ThresholdSet)) :
  Pipeline.coherent NetOptions.Respective.net_oi_mapping df d
    ["FII"; "PRO"; "CLIENT"]
    (Pipeline.Respective.calculate_strength_for_date df d
       institution_percentiles).
Proof.
  unfold Pipeline.Respective.calculate_strength_for_date.
  cbn [foldl].
  change ["FII"; "PRO"; "CLIENT"]
    with ((([] ++ ["FII"]) ++ ["PRO"]) ++ ["CLIENT"])%list.
  repeat match goal with
  | |- Pipeline.coherent _ _ _ (_ ++ [?inst]) _ =>
      destruct (institution_percentiles !! inst);
        [apply coherent_extend | apply coherent_skip];
        [| distinct_head | | distinct_head]
  end; apply coherent_nil.
Qed.

(** X5: the results [calculate_strength_for_date] returns for a date, in
    the respective-percentile script and in fii_strength_calculator_3.py,
    whatever the data frame and the percentiles.  Every result carries the
    target date and one of FII, PRO, CLIENT, and that institution has a row
    on the date; its segment is Net Options, or one of the three segment
    names with one of the seven labels as final strength (the truth table is
    never missed); no institution has two results of one segment; every Net
    Options result has the Call and the Put result of its institution
    beside it, with [net_oi] and [change] the differences of theirs and the
    final strength read from the script's Net Options table; and an
    institution with a Call and a Put result always has a Net Options
    result. *)
Theorem X5_calculate_strength_for_date_coherent
    (df : list Window.Row) (d : Z) :
  (forall institution_percentiles :
            gmap string (gmap string Percentile.ThresholdSet),
      Pipeline.coherent NetOptions.Respective.net_oi_mapping df d
        ["FII"; "PRO"; "CLIENT"]
        (Pipeline.Respective.calculate_strength_for_date df d
           institution_percentiles))
  /\ (forall combined_percentiles : gmap string Percentile.ThresholdSet,
        Pipeline.coherent NetOptions.Combined.net_oi_mapping df d
          ["FII"; "PRO"; "CLIENT"]
          (Pipeline.Combined.calculate_strength_for_date df d
             combined_percentiles)).
Proof.
  split.
  - apply respective_results_coherent.
  - intros P. unfold Pipeline.Combined.calculate_strength_for_date.
    cbn [foldl].
    change ["FII"; "PRO"; "CLIENT"]
      with ((([] ++ ["FII"]) ++ ["PRO"]) ++ ["CLIENT"])%list.
    repeat (apply coherent_extend; [| distinct_head]).
    apply coherent_nil.
Qed.

(** The second of the two sample days, scored with the percentiles of the
    run: futures 6 (+1), Call 50 (+40), Put 25 (+5). *)
Example calculate_strength_for_second_day :
  match Window.Fixed.institution_percentiles_acc (two_days 50) 60 with
  | Py.Return institution_percentiles =>
      map (fun r => (Pipeline.institution r, Pipeline.segment r,
                     Pipeline.final_strength r))
          (Pipeline.Respective.calculate_strength_for_date (two_days 50) 2
             institution_percentiles)
      = [("FII", "Index Futures", "STRONG BULLISH");
         ("FII", "Call Options", "STRONG BULLISH");
         ("FII", "Put Options", "STRONG BEARISH");
         ("FII", "Net Options", "VOLATILE VOLATILE")]
  | Py.Raise _ => False
  end.
Proof. vm_compute. reflexivity. Qed.

(** ** The back-test on the results of the pipeline *)

(** The expectation table covers the 49 pairs of labels. *)
Lemma expectations_on_labels (lc lp : Label) :
  exists e : Backtest.Expectation,
    Backtest.expectations !! (label_str lc, label_str lp) = Some e
    /\ (Backtest.exp_CLIENT e = EmptyString
        <-> Backtest.exp_OTHER e = EmptyString).
Proof.
  destruct lc as [[] [] |], lp as [[] [] |];
    (eexists; split; [vm_compute; reflexivity |]);
    cbn; split; intros H; first [reflexivity | discriminate H].
Qed.

(** The segment index of the back-test only holds results of the list. *)
Lemma inst_results_lookup (results : list Backtest.StrengthResult)
    (inst name : string) (r : Backtest.StrengthResult) :
  Py.dict_literal
    (map (fun r => (Backtest.r_segment r, r))
         (filter (fun r => Backtest.r_institution r = inst) results))
    !! name = Some r ->
  r ∈ results /\ Backtest.r_institution r = inst
  /\ Backtest.r_segment r = name.
Proof.
  intros Hlook. apply dict_literal_lookup_In in Hlook.
  apply in_map_iff in Hlook as (r' & Heq & Hin).
  injection Heq as <- ->.
  apply list_elem_of_In, list_elem_of_filter in Hin as [Hinst Hin].
  auto.
Qed.

(** X6: the back-test never falls back on the default of its expectation
    table.  The table has an entry for each of the 49 pairs of labels, and
    in each entry CLIENT's expectation is empty exactly when OTHER's is.
    [score_institution] scores an institution when the index of its
    results holds a Call Options and a Put Options result, with their final
    strengths as the key of the table; and on the results of
    [calculate_strength_for_date], for any date and percentiles, those two
    final strengths are labels, the table has an entry for the pair, and
    the expectation string is CLIENT's or OTHER's field of that entry. *)
Theorem X6_backtest_keys_are_labels :
  (forall lc lp : Label,
      exists e : Backtest.Expectation,
        Backtest.expectations !! (label_str lc, label_str lp) = Some e
        /\ (Backtest.exp_CLIENT e = EmptyString
            <-> Backtest.exp_OTHER e = EmptyString))
  /\ (forall (t pct : Q) (results : list Backtest.StrengthResult)
             (counts : gmap string Backtest.Counts) (inst : string),
        Backtest.score_institution t pct results counts inst
        = match inst_results results inst !! "Call Options",
                inst_results results inst !! "Put Options" with
          | Some call_result, Some put_result =>
              alter (Backtest.score t pct inst
                       (Backtest.r_final_strength call_result)
                       (Backtest.r_final_strength put_result)) inst counts
          | _, _ => counts
          end)
  /\ (forall (df : list Window.Row) (d : Z)
             (institution_percentiles :
                gmap string (gmap string Percentile.ThresholdSet))
             (inst : string)
             (call_result put_result : Backtest.StrengthResult),
        let results :=
          map Pipeline.to_backtest
            (Pipeline.Respective.calculate_strength_for_date df d
               institution_percentiles) in
        inst_results results inst !! "Call Options" = Some call_result ->
        inst_results results inst !! "Put Options" = Some put_result ->
        exists (lc lp : Label) (e : Backtest.Expectation),
          Backtest.r_final_strength call_result = label_str lc
          /\ Backtest.r_final_strength put_result = label_str lp
          /\ Backtest.expectations
               !! (Backtest.r_final_strength call_result,
                   Backtest.r_final_strength put_result) = Some e
          /\ Backtest.exp_str_for inst
               (Backtest.r_final_strength call_result)
               (Backtest.r_final_strength put_result)
             = if bool_decide (inst = "CLIENT")
               then Backtest.exp_CLIENT e else Backtest.exp_OTHER e).
Proof.
  split; [exact expectations_on_labels |].
  split; [reflexivity |].
  intros df d P inst call put results Hcall Hput.
  assert (forall name r,
            name = "Call Options" \/ name = "Put Options" ->
            r ∈ results -> Backtest.r_segment r = name ->
            exists l : Label, Backtest.r_final_strength r = label_str l)
    as Hlabel.
  { intros name r Hname Hr Hseg. subst results.
    apply list_elem_of_In, in_map_iff in Hr as (r0 & <- & Hr0).
    apply list_elem_of_In in Hr0.
    destruct (proj1 (respective_results_coherent df d P) r0 Hr0)
      as (_ & _ & _ & [Hnet | [_ Hl]]); [| exact Hl].
    cbn in Hseg. rewrite Hnet in Hseg.
    destruct Hname as [-> | ->]; discriminate Hseg. }
  apply inst_results_lookup in Hcall as (Hc & _ & Hcs).
  apply inst_results_lookup in Hput as (Hp & _ & Hps).
  destruct (Hlabel _ call (or_introl eq_refl) Hc Hcs) as [lc Hlc].
  destruct (Hlabel _ put (or_intror eq_refl) Hp Hps) as [lp Hlp].
  destruct (expectations_on_labels lc lp) as (e & He & _).
  exists lc, lp, e. rewrite Hlc, Hlp.
  split; [reflexivity |]. split; [reflexivity |]. split; [exact He |].
  unfold Backtest.exp_str_for, Py.dict_get. rewrite He. reflexivity.
Qed.

(** FII on the second of the two sample days, scored with thresholds that
    make its Call STRONG BULLISH and its Put STRONG BEARISH. *)
Lemma X6_backtest_keys_are_labels_witness :
  exists (lc lp : Label) (e : Backtest.Expectation),
    "STRONG BULLISH" = label_str lc
    /\ "STRONG BEARISH" = label_str lp
    /\ Backtest.expectations !! ("STRONG BULLISH", "STRONG BEARISH") = Some e
    /\ Backtest.exp_str_for "FII" "STRONG BULLISH" "STRONG BEARISH"
       = if bool_decide ("FII" = "CLIENT")
         then Backtest.exp_CLIENT e else Backtest.exp_OTHER e.
Proof.
  apply (proj2 (proj2 X6_backtest_keys_are_labels) (two_days 50) 2%Z
           {["FII" := {["Call Options" := Percentile.mkThresholdSet 40 20 8 2;
                       "Put Options" := Percentile.mkThresholdSet 20 10 4 1]}]}
           "FII"
           (Backtest.mkResult "FII" "Call Options" "STRONG BULLISH")
           (Backtest.mkResult "FII" "Put Options" "STRONG BEARISH"));
    vm_compute; reflexivity.
Defined.

(** ** The counts of the back-test *)

Lemma score_scored (t pct : Q) (inst call put : string)
    (c : Backtest.Counts) :
  scored (Backtest.score t pct inst call put c) = S (scored c).
Proof.
  unfold Backtest.score, scored.
  destruct (bool_decide _); [simpl; lia |].
  destruct (Backtest.judge _ _ _) as [[] |]; simpl; lia.
Qed.

(** One step of the loop over the institutions changes at most the counts
    of its institution, by one scoring. *)
Lemma score_institution_lookup (t pct : Q)
    (results : list Backtest.StrengthResult)
    (counts : gmap string Backtest.Counts) (inst x : string) :
  Backtest.score_institution t pct results counts inst !! x = counts !! x
  \/ (x = inst
      /\ exists call put,
           Backtest.score_institution t pct results counts inst !! x
           = Backtest.score t pct inst call put <$> counts !! x).
Proof.
  destruct (decide (x = inst)) as [-> | Hne];
    [| left; apply score_institution_other; exact Hne].
  unfold Backtest.score_institution.
  destruct (Py.dict_literal _ !! "Call Options") as [call |];
    [| left; reflexivity].
  destruct (Py.dict_literal _ !! "Put Options") as [put |];
    [| left; reflexivity].
  right. split; [reflexivity |].
  eexists _, _. apply lookup_alter_eq.
Qed.

(** How the counts of a key may differ between two dicts of counts: the
    key is in both or in neither, and the later record stands for at least
    as many and at most [n] more scorings. *)
Lemma counts_step (t pct : Q) (results : list Backtest.StrengthResult)
    (counts : gmap string Backtest.Counts) (x : string) :
  match counts !! x,
        foldl (Backtest.score_institution t pct results) counts
          Backtest.institutions !! x with
  | Some c, Some c' => (scored c <= scored c' <= S (scored c))%nat
  | None, None => True
  | _, _ => False
  end.
Proof.
  unfold Backtest.institutions. cbn [foldl].
  set (m1 := Backtest.score_institution t pct results counts "CLIENT").
  set (m2 := Backtest.score_institution t pct results m1 "PRO").
  destruct (score_institution_lookup t pct results counts "CLIENT" x)
    as [H1 | (Hx1 & c1 & p1 & H1)];
  destruct (score_institution_lookup t pct results m1 "PRO" x)
    as [H2 | (Hx2 & c2 & p2 & H2)];
  destruct (score_institution_lookup t pct results m2 "FII" x)
    as [H3 | (Hx3 & c3 & p3 & H3)];
  fold m1 in H1; fold m2 in H2;
  try (subst x; discriminate);
  rewrite H3, ?H2, ?H1; try rewrite H2; try rewrite H1;
  destruct (counts !! x) as [c |]; simpl; try exact I;
  rewrite ?score_scored; lia.
Qed.

Lemma accuracy_fold (strength_for_date : Z -> list Backtest.StrengthResult)
    (dates : list Z) (date_to_nifty : gmap Z Q) (t : Q) (l : list Z) :
  forall (acc : Py.result (gmap string Backtest.Counts))
         (counts : gmap string Backtest.Counts),
    foldl (fun acc date =>
             counts ← acc;
             pct ← Backtest.next_change_pct_of dates date_to_nifty date;
             match pct with
             | None => mret counts
             | Some next_change_pct =>
                 let results := strength_for_date date in
                 mret (foldl (Backtest.score_institution t
                                next_change_pct results)
                             counts Backtest.institutions)
             end) acc l = Py.Return counts ->
    exists counts0,
      acc = Py.Return counts0
      /\ forall x,
           match counts0 !! x, counts !! x with
           | Some c, Some c' =>
               (scored c <= scored c' <= scored c + length l)%nat
           | None, None => True
           | _, _ => False
           end.
Proof.
  induction l as [| d l IH]; intros acc counts Hfold.
  - simpl in Hfold. exists counts. split; [exact Hfold |].
    intros x. destruct (counts !! x); [simpl; lia | exact I].
  - simpl in Hfold. apply IH in Hfold as (counts1 & Hstep & Hrest).
    destruct acc as [counts0 | e]; [| discriminate Hstep].
    exists counts0. split; [reflexivity |].
    intros x. specialize (Hrest x).
    change (Py.Return counts0 ≫= ?k) with (k counts0) in Hstep.
    cbv beta in Hstep.
    destruct (Backtest.next_change_pct_of dates date_to_nifty d)
      as [[pct |] | e]; try discriminate Hstep.
    + assert (match counts0 !! x, counts1 !! x with
              | Some c, Some c' => (scored c <= scored c' <= S (scored c))%nat
              | None, None => True
              | _, _ => False
              end) as Hone.
      { injection Hstep as <-.
        exact (counts_step t pct (strength_for_date d) counts0 x). }
      destruct (counts0 !! x) as [c |], (counts1 !! x) as [c1 |],
               (counts !! x) as [c' |];
        try contradiction; try exact I.
      simpl. lia.
    + injection Hstep as <-.
      destruct (counts0 !! x) as [c |], (counts !! x) as [c' |];
        try contradiction; try exact I.
      simpl. lia.
Qed.

(** The keys and the sizes of the counts of a run that returns. *)
Lemma accuracy_counts_keys
    (strength_for_date : Z -> list Backtest.StrengthResult)
    (dates : list Z) (date_to_nifty : gmap Z Q)
    (analysis_dates : list Z) (t : Q)
    (counts : gmap string Backtest.Counts) :
  Backtest.accuracy_counts strength_for_date dates date_to_nifty
    analysis_dates t = Py.Return counts ->
  forall inst : string,
    match counts !! inst with
    | Some c =>
        inst ∈ Backtest.institutions
        /\ (scored c <= length analysis_dates)%nat
    | None => inst ∉ Backtest.institutions
    end.
Proof.
  intros Hrun.
  intros inst. unfold Backtest.accuracy_counts in Hrun.
  apply accuracy_fold in Hrun as (counts0 & Hinit & Hrel).
  assert (counts0
          = Py.dict_literal
              (map (fun inst => (inst, Backtest.mkCounts 0 0 0))
                   Backtest.institutions)) as ->
    by (injection Hinit as <-; reflexivity).
  specialize (Hrel inst). rewrite length_reverse in Hrel.
  destruct (decide (inst ∈ Backtest.institutions)) as [Hin | Hout].
  - unfold Backtest.institutions in Hin.
    split_elem_of;
      (match type of Hrel with
       | match ?o with _ => _ end =>
           let v := eval vm_compute in o in change o with v in Hrel
       end);
      (destruct (counts !! _) as [c |]; [| contradiction]);
      (split;
         [unfold Backtest.institutions;
          repeat first [apply list_elem_of_here | apply list_elem_of_further]
         | unfold scored in Hrel at 1 2; simpl in Hrel; lia]).
  - assert (Py.dict_literal
              (map (fun inst => (inst, Backtest.mkCounts 0 0 0))
                   Backtest.institutions) !! inst = None) as Hnone.
    { destruct (Py.dict_literal _ !! inst) as [c |] eqn:Hlook;
        [| reflexivity].
      apply dict_literal_lookup_In in Hlook. simpl in Hlook.
      exfalso. apply Hout. unfold Backtest.institutions.
      destruct Hlook as [H | [H | [H | []]]]; injection H as <- _;
        repeat first [apply list_elem_of_here | apply list_elem_of_further]. }
    rewrite Hnone in Hrel.
    destruct (counts !! inst); [contradiction | exact Hout].
Qed.

(** X7: every scoring adds exactly one to the three counters of an
    institution taken together, and a run of [accuracy_counts] that
    returns holds counts for CLIENT, PRO and FII and nobody else, none of
    which stands for more scorings than there are analysis dates. *)
Theorem X7_accuracy_counts_bounded
    (strength_for_date : Z -> list Backtest.StrengthResult)
    (dates : list Z) (date_to_nifty : gmap Z Q)
    (analysis_dates : list Z) (t : Q)
    (counts : gmap string Backtest.Counts) :
  Backtest.accuracy_counts strength_for_date dates date_to_nifty
    analysis_dates t = Py.Return counts ->
  (forall (pct : Q) (inst call put : string) (c : Backtest.Counts),
      scored (Backtest.score t pct inst call put c) = S (scored c))
  /\ forall inst : string,
       match counts !! inst with
       | Some c =>
           inst ∈ Backtest.institutions
           /\ (scored c <= length analysis_dates)%nat
       | None => inst ∉ Backtest.institutions
       end.
Proof.
  intros Hrun. split; [intros; apply score_scored |].
  exact (accuracy_counts_keys _ _ _ _ _ _ Hrun).
Qed.

(** The run over three trading days: CLIENT is scored on both analysis
    dates. *)
Lemma X7_accuracy_counts_bounded_witness :
  match three_days_counts !! "CLIENT" with
  | Some c =>
      "CLIENT" ∈ Backtest.institutions /\ (scored c <= 2)%nat
  | None => "CLIENT" ∉ Backtest.institutions
  end.
Proof.
  apply (proj2 (X7_accuracy_counts_bounded
                  (fun _ => three_days_results) [1; 2; 3]%Z
                  three_days_nifty [2; 1]%Z (3 # 10) three_days_counts
                  ltac:(vm_compute; reflexivity)) "CLIENT").
Defined.

(** ** The printed percentage *)

Lemma percent_correct_fraction (c w i : nat) :
  (0 < c + w)%nat ->
  (Backtest.percent_correct (Backtest.mkCounts c w i)
   == (Z.of_nat c * 100 # Pos.of_nat (c + w)))%Q.
Proof.
  intros Hpos. unfold Backtest.percent_correct. simpl.
  replace (0 <? c + w)%nat with true by (symmetry; apply Nat.ltb_lt; lia).
  destruct (c + w)%nat as [| n] eqn:Hn; [lia |].
  unfold Qeq, Qdiv, Qmult, Qinv, inject_Z. simpl Qnum. simpl Qden.
  rewrite Pos.of_nat_succ. simpl. lia.
Qed.

(** X8: the percentage of correct predictions lies between 0 and 100, does
    not depend on the indecisive count, is 0 exactly when nothing was
    correct (in particular when nothing was decided) and 100 exactly when
    something was correct and nothing wrong. *)
Theorem X8_percent_correct_range (c : Backtest.Counts) :
  (0 <= Backtest.percent_correct c <= 100)%Q
  /\ (forall i : nat,
        Backtest.percent_correct
          (Backtest.mkCounts (Backtest.correct c) (Backtest.wrong c) i)
        = Backtest.percent_correct c)
  /\ (Backtest.percent_correct c == 0 <-> Backtest.correct c = 0%nat)%Q
  /\ (Backtest.percent_correct c == 100
      <-> (0 < Backtest.correct c)%nat /\ Backtest.wrong c = 0%nat)%Q.
Proof.
  destruct c as [c w i]. simpl.
  split; [| split; [intros; reflexivity |]].
  - destruct (Nat.eq_dec (c + w) 0) as [Hz | Hnz].
    + unfold Backtest.percent_correct. simpl. rewrite Hz. simpl.
      split; [apply Qle_refl | discriminate].
    + rewrite percent_correct_fraction by lia.
      assert (Z.pos (Pos.of_nat (c + w)) = Z.of_nat (c + w)) as Hden.
      { destruct (c + w)%nat as [| n] eqn:Hn; [lia |].
        rewrite <- Pos.of_nat_succ. lia. }
      unfold Qle. simpl. rewrite Hden. split; lia.
  - destruct (Nat.eq_dec (c + w) 0) as [Hz | Hnz].
    + unfold Backtest.percent_correct. simpl. rewrite Hz. simpl.
      split; split; intros H; try lia; try reflexivity;
        try discriminate H.
    + rewrite percent_correct_fraction by lia.
      assert (Z.pos (Pos.of_nat (c + w)) = Z.of_nat (c + w)) as Hden.
      { destruct (c + w)%nat as [| n] eqn:Hn; [lia |].
        rewrite <- Pos.of_nat_succ. lia. }
      unfold Qeq. simpl. rewrite Hden. split; split; lia.
Qed.

(** ** The comparison chain of the back-test *)

Lemma Qabs_le_iff (x t : Q) : (Qabs x <= t <-> - t <= x /\ x <= t)%Q.
Proof. apply Qabs_Qle_condition. Qed.

Lemma Qle_bool_false (x y : Q) : Qle_bool x y = false <-> (y < x)%Q.
Proof.
  split.
  - intros Hf. apply Qnot_le_lt. intros Hle.
    apply Qle_bool_iff in Hle. congruence.
  - intros Hlt. destruct (Qle_bool x y) eqn:Hb; [| reflexivity].
    apply Qle_bool_iff in Hb. exfalso. exact (Qlt_not_le _ _ Hlt Hb).
Qed.

(** A prediction other than VOLATILE that is correct for a threshold stays
    correct for a larger one; a VOLATILE prediction that is correct stays
    correct for a smaller one. *)
Lemma judge_threshold_monotone (m : Backtest.Move) (pct t1 t2 : Q) :
  (t1 <= t2)%Q ->
  (m <> Backtest.VOLATILE ->
   Backtest.judge (Backtest.move_str m) pct t1 = Some true ->
   Backtest.judge (Backtest.move_str m) pct t2 = Some true)
  /\ (Backtest.judge "VOLATILE" pct t2 = Some true ->
      Backtest.judge "VOLATILE" pct t1 = Some true).
Proof.
  intros Ht. split.
  - intros Hm.
    destruct (judge_move m pct t1) as (b1 & -> & H1).
    destruct (judge_move m pct t2) as (b2 & -> & H2).
    intros Hb. injection Hb as ->. f_equal. apply H2.
    pose proof (proj1 H1 eq_refl) as Hp. clear H1 H2.
    destruct m; simpl in *; try exact Hp; try contradiction;
      try (eapply Qle_trans; [exact Hp | exact Ht]).
    eapply Qle_trans; [| exact Hp]. apply Qopp_le_compat. exact Ht.
  - destruct (judge_move Backtest.VOLATILE pct t1) as (b1 & Hj1 & H1).
    destruct (judge_move Backtest.VOLATILE pct t2) as (b2 & Hj2 & H2).
    simpl in Hj1, Hj2, H1, H2. rewrite Hj1, Hj2.
    intros Hb. injection Hb as ->. f_equal. apply H1.
    eapply Qle_lt_trans; [exact Ht | apply H2; reflexivity].
Qed.

(** X9: the comparison chain of the back-test decides exactly the seven
    expectation words, spelled as the table spells them, and nothing else;
    NEUTRAL is judged as FLAT and VOLATILE as the opposite of FLAT; FLAT is
    correct exactly when FLAT OR UP and FLAT OR DOWN both are; UP and DOWN
    are never both correct; and a larger movement threshold keeps every
    correct prediction other than VOLATILE correct, a smaller one every
    correct VOLATILE prediction. *)
Theorem X9_judge_words (pct t1 t2 : Q) :
  (t1 <= t2)%Q ->
  (forall exp_str : string,
      is_Some (Backtest.judge exp_str pct t1)
      <-> exists m : Backtest.Move, exp_str = Backtest.move_str m)
  /\ Backtest.judge "NEUTRAL" pct t1 = Backtest.judge "FLAT" pct t1
  /\ Backtest.judge "VOLATILE" pct t1
     = negb <$> Backtest.judge "FLAT" pct t1
  /\ (Backtest.judge "FLAT" pct t1 = Some true
      <-> Backtest.judge "FLAT OR UP" pct t1 = Some true
          /\ Backtest.judge "FLAT OR DOWN" pct t1 = Some true)
  /\ ~ (Backtest.judge "UP" pct t1 = Some true
        /\ Backtest.judge "DOWN" pct t1 = Some true)
  /\ (forall m : Backtest.Move,
        m <> Backtest.VOLATILE ->
        Backtest.judge (Backtest.move_str m) pct t1 = Some true ->
        Backtest.judge (Backtest.move_str m) pct t2 = Some true)
  /\ (Backtest.judge "VOLATILE" pct t2 = Some true ->
      Backtest.judge "VOLATILE" pct t1 = Some true).
Proof.
  intros Ht.
  split; [| split; [| split; [| split; [| split; [| split]]]]].
  - intros exp_str. split.
    + unfold Backtest.judge. intros [b Hb].
      destruct (decide (exp_str = "UP")) as [Hw | Hw];
        [exists Backtest.UP; exact Hw |].
      rewrite (bool_decide_eq_false_2 _ Hw) in Hb. clear Hw.
      destruct (decide (exp_str = "DOWN")) as [Hw | Hw];
        [exists Backtest.DOWN; exact Hw |].
      rewrite (bool_decide_eq_false_2 _ Hw) in Hb. clear Hw.
      destruct (decide (exp_str ∈ ["FLAT"; "NEUTRAL"])) as [Hw | Hw].
      { apply elem_of_cons in Hw as [-> | Hw];
          [exists Backtest.FLAT; reflexivity |].
        apply list_elem_of_singleton in Hw as ->.
        exists Backtest.NEUTRAL. reflexivity. }
      rewrite (bool_decide_eq_false_2 _ Hw) in Hb. clear Hw.
      destruct (decide (exp_str = "FLAT OR UP")) as [Hw | Hw];
        [exists Backtest.FLAT_OR_UP; exact Hw |].
      rewrite (bool_decide_eq_false_2 _ Hw) in Hb. clear Hw.
      destruct (decide (exp_str = "FLAT OR DOWN")) as [Hw | Hw];
        [exists Backtest.FLAT_OR_DOWN; exact Hw |].
      rewrite (bool_decide_eq_false_2 _ Hw) in Hb. clear Hw.
      destruct (decide (exp_str = "VOLATILE")) as [Hw | Hw];
        [exists Backtest.VOLATILE; exact Hw |].
      rewrite (bool_decide_eq_false_2 _ Hw) in Hb. discriminate Hb.
    + intros [m ->]. destruct (judge_move m pct t1) as (b & -> & _).
      eexists. reflexivity.
  - reflexivity.
  - unfold Backtest.judge. eval_bool_decide. cbv iota. reflexivity.
  - unfold Backtest.judge. eval_bool_decide. cbv iota.
    unfold Py.Qge_bool. split.
    + intros Hb. injection Hb as Hb. apply Qle_bool_iff, Qabs_le_iff in Hb.
      destruct Hb as [Hlo Hhi].
      split; f_equal; apply Qle_bool_iff; assumption.
    + intros [Hlo Hhi]. injection Hlo as Hlo. injection Hhi as Hhi.
      f_equal. apply Qle_bool_iff, Qabs_le_iff.
      split; apply Qle_bool_iff; assumption.
  - unfold Backtest.judge. eval_bool_decide. cbv iota.
    intros [Hup Hdown]. injection Hup as Hup. injection Hdown as Hdown.
    apply Qgt_bool_true in Hup. apply Qlt_bool_true in Hdown.
    exact (Qlt_irrefl _ (Qlt_trans _ _ _ Hup Hdown)).
  - intros m. exact (proj1 (judge_threshold_monotone m pct t1 t2 Ht)).
  - exact (proj2 (judge_threshold_monotone Backtest.UP pct t1 t2 Ht)).
Qed.

(** A fall of a tenth of a percent: FLAT OR UP is correct for the
    threshold 0.2, hence for 0.3. *)
Lemma X9_judge_words_witness :
  Backtest.judge "FLAT OR UP" (- (1 # 10)) (3 # 10) = Some true.
Proof.
  apply (proj1 (proj2 (proj2 (proj2 (proj2 (proj2
           (X9_judge_words (- (1 # 10)) (2 # 10) (3 # 10)
              ltac:(vm_compute; discriminate)))))))
           Backtest.FLAT_OR_UP).
  - discriminate.
  - vm_compute. reflexivity.
Defined.

(** ** The next trading day of the back-test *)

Lemma dict_literal_lookup_outside {K V : Type} `{Countable K}
    (entries : list (K * V)) (m : gmap K V) (k : K) :
  k ∉ entries.*1 ->
  fold_left (fun m kv => <[kv.1 := kv.2]> m) entries m !! k = m !! k.
Proof.
  revert m. induction entries as [| [k' v'] entries IH]; intros m Hout;
    [reflexivity |].
  simpl. rewrite fmap_cons in Hout. apply not_elem_of_cons in Hout as [Hne Hout].
  rewrite IH by exact Hout. apply lookup_insert_ne.
  intros Heq. apply Hne. symmetry. exact Heq.
Qed.

(** In a dict literal without repeated keys every entry is found. *)
Lemma dict_literal_lookup_NoDup {K V : Type} `{Countable K}
    (entries : list (K * V)) (k : K) (v : V) :
  NoDup entries.*1 -> (k, v) ∈ entries ->
  Py.dict_literal entries !! k = Some v.
Proof.
  unfold Py.dict_literal. generalize (∅ : gmap K V).
  induction entries as [| [k' v'] entries IH]; intros m Hnodup Hin.
  - apply elem_of_nil in Hin. contradiction.
  - rewrite fmap_cons in Hnodup. apply NoDup_cons in Hnodup as [Hfresh Hnodup].
    simpl. apply elem_of_cons in Hin as [Heq | Hin].
    + injection Heq as <- <-.
      rewrite dict_literal_lookup_outside by exact Hfresh.
      apply lookup_insert_eq.
    + apply IH; assumption.
Qed.

Lemma date_to_idx_keys_from (f : nat -> nat) (l : list Z) :
  (imap (fun idx d => (d, f idx)) l).*1 = l.
Proof.
  revert f. induction l as [| x l IH]; intros f; [reflexivity |].
  change ((imap (fun idx d => (d, f idx)) (x :: l)).*1)
    with (x :: (imap (fun idx d => (d, (f ∘ S) idx)) l).*1).
  rewrite IH. reflexivity.
Qed.

Lemma date_to_idx_keys (l : list Z) :
  (imap (fun idx d => (d, idx)) l).*1 = l.
Proof. exact (date_to_idx_keys_from (fun idx => idx) l). Qed.

(** [date_to_idx] maps each date of a duplicate-free list to its
    position, and holds no other date. *)
Lemma date_to_idx_lookup (l : list Z) (d : Z) (k : nat) :
  NoDup l -> l !! k = Some d ->
  Py.dict_literal (imap (fun idx d => (d, idx)) l) !! d = Some k.
Proof.
  intros Hnodup Hk. apply dict_literal_lookup_NoDup.
  - rewrite date_to_idx_keys. exact Hnodup.
  - apply (elem_of_lookup_imap_2 (fun idx d => (d, idx))). exact Hk.
Qed.

Lemma date_to_idx_absent (l : list Z) (d : Z) :
  d ∉ l -> Py.dict_literal (imap (fun idx d => (d, idx)) l) !! d = None.
Proof.
  intros Hout.
  destruct (Py.dict_literal _ !! d) as [k |] eqn:Hlook; [| reflexivity].
  apply dict_literal_lookup_In, list_elem_of_In in Hlook.
  apply elem_of_lookup_imap in Hlook as (i & y & Heq & Hy).
  injection Heq as <- _. apply list_elem_of_lookup_2 in Hy. contradiction.
Qed.

(** The day's percentage move, once the next trading date is known. *)
Lemma next_change_pct_of_position (dates : list Z) (nifty : gmap Z Q)
    (d : Z) (k : nat) :
  NoDup dates -> dates !! k = Some d ->
  Backtest.next_change_pct_of dates nifty d
  = match dates !! S k with
    | None => Py.Return None
    | Some next_date =>
        match nifty !! next_date, nifty !! d with
        | Some next_nifty, Some current_nifty =>
            if Qeq_bool current_nifty 0
            then Py.Raise Py.ZeroDivisionError
            else Py.Return
                   (Some (((next_nifty - current_nifty) / current_nifty)
                          * 100)%Q)
        | _, _ => Py.Return None
        end
    end.
Proof.
  intros Hnodup Hk. unfold Backtest.next_change_pct_of.
  rewrite (date_to_idx_lookup dates d k Hnodup Hk).
  destruct (dates !! S k) as [next_date |] eqn:Hnext.
  - pose proof (lookup_lt_Some _ _ _ Hnext) as Hlen.
    replace (length dates <=? k + 1)%nat with false
      by (symmetry; apply Nat.leb_gt; lia).
    destruct (getitem_in_range dates (Z.of_nat k + 1)) as (x & Hx & ->);
      [lia |].
    replace (Z.to_nat (Z.of_nat k + 1)) with (S k) in Hx by lia.
    rewrite Hnext in Hx. injection Hx as <-.
    rewrite bind_Return. reflexivity.
  - apply lookup_ge_None in Hnext.
    replace (length dates <=? k + 1)%nat with true
      by (symmetry; apply Nat.leb_le; lia).
    reflexivity.
Qed.

(** X10: on a duplicate-free list of trading dates, [next_change_pct_of]
    never raises [IndexError].  A date that is not in the list, the last
    date of the list, and a date whose close or whose successor's close is
    missing are skipped; otherwise the close of the date right after it in
    the list is compared with its own, and the division raises
    [ZeroDivisionError] exactly when its own close is zero. *)
Theorem X10_next_change_pct_of (dates : list Z) (nifty : gmap Z Q)
    (d : Z) :
  NoDup dates ->
  (d ∉ dates -> Backtest.next_change_pct_of dates nifty d = Py.Return None)
  /\ forall k : nat,
       dates !! k = Some d ->
       Backtest.next_change_pct_of dates nifty d
       = match dates !! S k with
         | None => Py.Return None
         | Some next_date =>
             match nifty !! next_date, nifty !! d with
             | Some next_nifty, Some current_nifty =>
                 if Qeq_bool current_nifty 0
                 then Py.Raise Py.ZeroDivisionError
                 else Py.Return
                        (Some (((next_nifty - current_nifty)
                                / current_nifty) * 100)%Q)
             | _, _ => Py.Return None
             end
         end.
Proof.
  intros Hnodup. split.
  - intros Hout. unfold Backtest.next_change_pct_of.
    rewrite date_to_idx_absent by exact Hout. reflexivity.
  - intros k. apply next_change_pct_of_position. exact Hnodup.
Qed.

(** Three trading days with a close of zero on the second: the first day
    yields a move of -100 percent, the second raises. *)
Lemma X10_next_change_pct_of_witness :
  Backtest.next_change_pct_of [1; 2; 3]%Z
    (Py.dict_literal [(1%Z, 100%Q); (2%Z, 0%Q); (3%Z, 100%Q)]) 2
  = Py.Raise Py.ZeroDivisionError.
Proof.
  apply (proj2 (X10_next_change_pct_of [1; 2; 3]%Z
                  (Py.dict_literal [(1%Z, 100%Q); (2%Z, 0%Q); (3%Z, 100%Q)])
                  2 ltac:(apply (bool_decide_unpack _); vm_compute; exact I))
           1%nat).
  reflexivity.
Defined.

(** In a sorted list an earlier element is below a later one. *)
Lemma StronglySorted_lookup_le (l : list Z) (i j : nat) (x y : Z) :
  StronglySorted Z.le l -> (i < j)%nat ->
  l !! i = Some x -> l !! j = Some y -> (x <= y)%Z.
Proof.
  intros Hsorted. revert i j.
  induction Hsorted as [| a l Hsorted IH Hall]; intros i j Hij Hi Hj.
  - rewrite lookup_nil in Hi. discriminate.
  - destruct j as [| j]; [lia |]. simpl in Hj.
    destruct i as [| i].
    + simpl in Hi. injection Hi as <-.
      rewrite Forall_forall in Hall. apply Hall.
      eapply list_elem_of_lookup_2. exact Hj.
    + simpl in Hi. apply (IH i j); [lia | exact Hi | exact Hj].
Qed.

Lemma sorted_trading_dates_elem_of (df : list Window.Row) (x : Z) :
  x ∈ sorted_trading_dates df <-> exists r, r ∈ df /\ Window.date r = x.
Proof.
  unfold sorted_trading_dates, Window.Fixed.all_dates.
  rewrite merge_sort_Permutation, sorted_reverse_elem_of, unique_elem_of.
  apply In_map_date.
Qed.

Lemma sorted_trading_dates_NoDup (df : list Window.Row) :
  NoDup (sorted_trading_dates df).
Proof.
  unfold sorted_trading_dates, Window.Fixed.all_dates.
  rewrite merge_sort_Permutation.
  apply sorted_reverse_NoDup, unique_NoDup.
Qed.

Lemma sorted_trading_dates_sorted (df : list Window.Row) :
  StronglySorted Z.le (sorted_trading_dates df).
Proof. apply StronglySorted_merge_sort; apply _. Qed.

Lemma analysis_dates_elem_of (df : list Window.Row) (lookback_days : nat)
    (d : Z) :
  d ∈ Window.Fixed.analysis_dates df lookback_days ->
  d ∈ sorted_trading_dates df.
Proof.
  unfold Window.Fixed.analysis_dates, Py.slice, sorted_trading_dates.
  intros Hd. rewrite merge_sort_Permutation.
  eapply elem_of_sublist; [exact Hd |].
  etransitivity; [apply sublist_drop | apply sublist_take].
Qed.

(** X11: every date the accuracy summary analyses has a successor in the
    sorted list of trading dates, which is the next trading date of the
    frame (a later date, with no trading date in between); so
    [next_change_pct_of] skips an analysis date only when one of the two
    closes is missing, and otherwise yields the move to that next trading
    date or, on a close of zero, raises. *)
Theorem X11_analysis_dates_have_next (df : list Window.Row)
    (lookback_days : nat) (d : Z) :
  d ∈ Window.Fixed.analysis_dates df lookback_days ->
  exists (k : nat) (next_date : Z),
    sorted_trading_dates df !! k = Some d
    /\ sorted_trading_dates df !! S k = Some next_date
    /\ (d < next_date)%Z
    /\ (exists r, r ∈ df /\ Window.date r = next_date)
    /\ (forall r, r ∈ df ->
          ~ (d < Window.date r /\ Window.date r < next_date)%Z)
    /\ forall nifty : gmap Z Q,
         Backtest.next_change_pct_of (sorted_trading_dates df) nifty d
         = match nifty !! next_date, nifty !! d with
           | Some next_nifty, Some current_nifty =>
               if Qeq_bool current_nifty 0
               then Py.Raise Py.ZeroDivisionError
               else Py.Return
                      (Some (((next_nifty - current_nifty)
                              / current_nifty) * 100)%Q)
           | _, _ => Py.Return None
           end.
Proof.
  intros Hd.
  pose proof (sorted_trading_dates_NoDup df) as Hnodup.
  pose proof (sorted_trading_dates_sorted df) as Hsorted.
  destruct (fixed_window_looks_ahead df lookback_days d Hd)
    as (later & Hlater & Hlt).
  apply list_elem_of_filter in Hlater as [_ Hlater].
  assert (Window.date later ∈ sorted_trading_dates df) as Hlatest
    by (apply sorted_trading_dates_elem_of; eauto).
  apply analysis_dates_elem_of in Hd.
  apply list_elem_of_lookup_1 in Hd as [k Hk].
  apply list_elem_of_lookup_1 in Hlatest as [j Hj].
  assert (k < j)%nat as Hkj.
  { destruct (Nat.lt_trichotomy j k) as [Hjk | [-> | Hkj]];
      [| | exact Hkj].
    - pose proof (StronglySorted_lookup_le _ _ _ _ _ Hsorted Hjk Hj Hk).
      lia.
    - rewrite Hk in Hj. injection Hj as Heq. lia. }
  destruct (lookup_lt_is_Some_2 (sorted_trading_dates df) (S k))
    as [next_date Hnext].
  { apply lookup_lt_Some in Hj. lia. }
  assert (d < next_date)%Z as Hdn.
  { pose proof (StronglySorted_lookup_le _ k (S k) _ _ Hsorted
                  ltac:(lia) Hk Hnext) as Hle.
    assert (d <> next_date) as Hne.
    { intros <-. pose proof (NoDup_lookup _ _ _ _ Hnodup Hk Hnext). lia. }
    lia. }
  exists k, next_date. split; [exact Hk |]. split; [exact Hnext |].
  split; [exact Hdn |]. split; [| split].
  - apply sorted_trading_dates_elem_of.
    eapply list_elem_of_lookup_2. exact Hnext.
  - intros r Hr [Hlo Hhi].
    assert (Window.date r ∈ sorted_trading_dates df) as Hin
      by (apply sorted_trading_dates_elem_of; eauto).
    apply list_elem_of_lookup_1 in Hin as [i Hi].
    destruct (Nat.lt_trichotomy i k) as [Hik | [-> | Hki]].
    + pose proof (StronglySorted_lookup_le _ _ _ _ _ Hsorted Hik Hi Hk).
      lia.
    + rewrite Hk in Hi. injection Hi as Heq. lia.
    + destruct (Nat.eq_dec i (S k)) as [-> | Hne].
      * rewrite Hnext in Hi. injection Hi as Heq. lia.
      * pose proof (StronglySorted_lookup_le _ (S k) i _ _ Hsorted
                      ltac:(lia) Hnext Hi).
        lia.
  - intros nifty.
    rewrite (next_change_pct_of_position _ nifty d k Hnodup Hk), Hnext.
    reflexivity.
Qed.

(** The first of the two sample days is analysed and the second is its
    next trading date. *)
Lemma X11_analysis_dates_have_next_witness :
  exists (k : nat) (next_date : Z),
    sorted_trading_dates (two_days 50) !! k = Some 1%Z
    /\ sorted_trading_dates (two_days 50) !! S k = Some next_date
    /\ (1 < next_date)%Z
    /\ (exists r, r ∈ two_days 50 /\ Window.date r = next_date)
    /\ (forall r, r ∈ two_days 50 ->
          ~ (1 < Window.date r /\ Window.date r < next_date)%Z)
    /\ forall nifty : gmap Z Q,
         Backtest.next_change_pct_of (sorted_trading_dates (two_days 50))
           nifty 1
         = match nifty !! next_date, nifty !! 1%Z with
           | Some next_nifty, Some current_nifty =>
               if Qeq_bool current_nifty 0
               then Py.Raise Py.ZeroDivisionError
               else Py.Return
                      (Some (((next_nifty - current_nifty)
                              / current_nifty) * 100)%Q)
           | _, _ => Py.Return None
           end.
Proof.
  apply (X11_analysis_dates_have_next (two_days 50) 60 1).
  vm_compute. apply list_elem_of_here.
Defined.

(** ** The rolling window on a trading day and on the latest day *)

Lemma foldl_max_start (ds : list Z) (d : Z) : (d <= foldl Z.max d ds)%Z.
Proof.
  revert d. induction ds as [| y ds IH]; intros d; simpl; [lia |].
  etransitivity; [| apply IH]. lia.
Qed.

Lemma foldl_max_ge (ds : list Z) (d x : Z) :
  x = d \/ x ∈ ds -> (x <= foldl Z.max d ds)%Z.
Proof.
  intros [-> | Hin]; [apply foldl_max_start |].
  revert d. induction ds as [| y ds IH]; intros d; simpl.
  - apply elem_of_nil in Hin. contradiction.
  - apply elem_of_cons in Hin as [-> | Hin].
    + etransitivity; [| apply foldl_max_start]. lia.
    + apply IH. exact Hin.
Qed.

Lemma latest_date_ge (df : list Window.Row) (d : Z) (r : Window.Row) :
  latest_date df = Some d -> r ∈ df -> (Window.date r <= d)%Z.
Proof.
  unfold latest_date. intros Hmax Hr.
  assert (Window.date r ∈ map Window.date df) as Hin
    by (apply In_map_date; eauto).
  destruct (map Window.date df) as [| x ds]; [discriminate Hmax |].
  injection Hmax as <-. apply foldl_max_ge.
  apply elem_of_cons in Hin. exact Hin.
Qed.

Lemma filter_all {A : Type} (P : A -> Prop) `{forall x, Decision (P x)}
    (l : list A) :
  (forall x, x ∈ l -> P x) -> filter P l = l.
Proof.
  induction l as [| x l IH]; intros Hall; [reflexivity |].
  rewrite filter_cons_True by (apply Hall, list_elem_of_here).
  rewrite IH; [reflexivity |].
  intros y Hy. apply Hall, list_elem_of_further. exact Hy.
Qed.

(** X12: for a target date that is a trading date of the frame and a
    lookback of one day or more, the rolling window starts with the target
    date itself, so the day being classified is part of its own sample;
    and for the latest date of the frame, which is what
    [calculate_latest_day_strength] passes, the rolling window and its
    rows are those of the fixed-window scripts. *)
Theorem X12_rolling_window_on_trading_day (df : list Window.Row)
    (target_date : Z) (lookback_days : nat) :
  (exists r, r ∈ df /\ Window.date r = target_date) ->
  (0 < lookback_days)%nat ->
  head (Window.Rolling.lookback_dates df target_date lookback_days)
  = Some target_date
  /\ (exists r, r ∈ Window.Rolling.historical_data df target_date
                      lookback_days
                 /\ Window.date r = target_date)
  /\ (latest_date df = Some target_date ->
      Window.Rolling.lookback_dates df target_date lookback_days
      = Py.slice 0 lookback_days (Window.Fixed.all_dates df)
      /\ Window.Rolling.historical_data df target_date lookback_days
         = Window.Fixed.historical_data df lookback_days).
Proof.
  intros (r & Hr & Hdate) Hpos.
  assert (head (Window.Rolling.lookback_dates df target_date lookback_days)
          = Some target_date) as Hhead.
  { rewrite rolling_window_take.
    pose proof (proj2 (dates_before_elem_of df target_date target_date)
                  (conj (Z.le_refl _) (ex_intro _ r (conj Hr Hdate))))
      as Hin.
    pose proof (fun x => proj1 (dates_before_elem_of df target_date x))
      as Hbefore.
    pose proof (sorted_reverse_descending
                  (Py.unique
                     (map Window.date
                        (filter (fun r => (Window.date r <= target_date)%Z)
                           df)))) as Hsorted.
    destruct (sorted_reverse _) as [| x l]; [apply elem_of_nil in Hin;
                                             contradiction |].
    destruct lookback_days as [| n]; [lia |]. simpl. f_equal.
    pose proof (proj1 (Hbefore x (list_elem_of_here _ _))) as Hle.
    apply StronglySorted_cons in Hsorted as [Hall _].
    apply elem_of_cons in Hin as [-> | Hin]; [reflexivity |].
    rewrite Forall_forall in Hall. specialize (Hall _ Hin).
    unfold flip in Hall. lia. }
  split; [exact Hhead |]. split.
  - exists r. split; [| exact Hdate].
    unfold Window.Rolling.historical_data, Window.isin_dates.
    apply list_elem_of_filter. split; [| exact Hr].
    rewrite Hdate.
    destruct (Window.Rolling.lookback_dates df target_date lookback_days)
      as [| x l]; [discriminate Hhead |].
    injection Hhead as ->. apply list_elem_of_here.
  - intros Hlatest.
    assert (Window.Rolling.lookback_dates df target_date lookback_days
            = Py.slice 0 lookback_days (Window.Fixed.all_dates df))
      as Hsame.
    { rewrite rolling_window_take.
      rewrite filter_all
        by (intros x Hx; eapply latest_date_ge; eassumption).
      reflexivity. }
    split; [exact Hsame |].
    unfold Window.Rolling.historical_data, Window.Fixed.historical_data.
    rewrite Hsame. reflexivity.
Qed.

(** The ten sample days, seen from the tenth with a lookback of three. *)
Lemma X12_rolling_window_on_trading_day_witness :
  Window.Rolling.lookback_dates ten_days 10 3
  = Py.slice 0 3 (Window.Fixed.all_dates ten_days)
  /\ Window.Rolling.historical_data ten_days 10 3
     = Window.Fixed.historical_data ten_days 3.
Proof.
  apply (X12_rolling_window_on_trading_day ten_days 10 3).
  - apply (proj1 (In_map_date ten_days 10)). vm_compute.
    repeat first [apply list_elem_of_here | apply list_elem_of_further].
  - lia.
  - vm_compute. reflexivity.
Defined.

(** ** The daily changes of the loaded frame *)







Example load_data_of_raw_days :
  Loader.load_data raw_days
  = [ Window.mkRow 1 "FII" (Some 10%Q) (Some 0%Q) (Some 5%Q) (Some 0%Q)
        None (Some 0%Q);
      Window.mkRow 3 "FII" (Some 4%Q) (Some (4 - 10)%Q)
        (Some 6%Q) (Some (6 - 5)%Q) (Some 2%Q) (Some 0%Q) ].
Proof. vm_compute. reflexivity. Qed.

(** ** The classifiers beyond their case tables *)

Lemma get_strength_level_tier (value p80 p_lower : Q) (is_change : bool) :
  exists t : StrengthTier,
    Classifier.Respective.get_strength_level value p80 p_lower is_change
    = tier_str t
    /\ match t with
       | STRONG => (p80 <= Qabs value)%Q
       | MEDIUM => (Qabs value < p80)%Q /\ (p_lower <= Qabs value)%Q
       | MILD => (Qabs value < p80)%Q /\ (Qabs value < p_lower)%Q
       end.
Proof.
  unfold Classifier.Respective.get_strength_level.
  replace (if negb is_change then p_lower else p_lower) with p_lower
    by (destruct is_change; reflexivity).
  destruct (Py.Qge_bool (Qabs value) p80) eqn:H80;
    [| destruct (Py.Qge_bool (Qabs value) p_lower) eqn:Hlow];
    repeat match goal with
    | H : Py.Qge_bool _ _ = true |- _ => apply Qge_bool_true in H
    | H : Py.Qge_bool _ _ = false |- _ => apply Qge_bool_false in H
    end;
    [exists STRONG | exists MEDIUM | exists MILD];
    (split; [reflexivity |]); auto.
Qed.

(** X14: [get_strength_level], in both scripts, ignores the sign of the
    value and its [is_change] flag, and is monotone in the size of the
    value: of two values classified against the same two thresholds the
    one that is larger in absolute value never gets the lower tier, however
    the two thresholds are ordered. *)
Theorem X14_get_strength_level_monotone
    (v1 v2 p80 p_lower : Q) (c1 c2 : bool) :
  (Qabs v1 <= Qabs v2)%Q ->
  exists t1 t2 : StrengthTier,
    Classifier.Respective.get_strength_level v1 p80 p_lower c1 = tier_str t1
    /\ Classifier.Platform.get_strength_level v1 p80 p_lower c1 = tier_str t1
    /\ Classifier.Respective.get_strength_level (- v1) p80 p_lower (negb c1)
       = tier_str t1
    /\ Classifier.Respective.get_strength_level v2 p80 p_lower c2
       = tier_str t2
    /\ (Pipeline.tier_rank t1 <= Pipeline.tier_rank t2)%nat.
Proof.
  intros Hle.
  destruct (get_strength_level_tier v1 p80 p_lower c1) as (t1 & H1 & Hc1).
  destruct (get_strength_level_tier (- v1) p80 p_lower (negb c1))
    as (t1' & H1' & Hc1').
  destruct (get_strength_level_tier v2 p80 p_lower c2) as (t2 & H2 & Hc2).
  pose proof (Qabs_opp v1) as Hopp.
  assert (t1' = t1) as ->
    by (destruct t1, t1'; try reflexivity; exfalso; lra).
  exists t1, t2. rewrite get_strength_level_variants.
  repeat (split; [assumption |]).
  destruct t1, t2; simpl; try lia; exfalso; lra.
Qed.

(** An OI of -1200 against one of 300, thresholds 1000 and 400. *)
Lemma X14_get_strength_level_monotone_witness :
  exists t1 t2 : StrengthTier,
    Classifier.Respective.get_strength_level 300 1000 400 false = tier_str t1
    /\ Classifier.Platform.get_strength_level 300 1000 400 false
       = tier_str t1
    /\ Classifier.Respective.get_strength_level (- 300) 1000 400 true
       = tier_str t1
    /\ Classifier.Respective.get_strength_level (- 1200) 1000 400 true
       = tier_str t2
    /\ (Pipeline.tier_rank t1 <= Pipeline.tier_rank t2)%nat.
Proof.
  apply (X14_get_strength_level_monotone 300 (- 1200) 1000 400 false true).
  vm_compute. discriminate.
Defined.

(** X15: the direction depends on the segment string only through the
    put test, which the two scripts make differently.
    custom_percentile_method_2.py inverts the sign rule exactly on the four
    strings of its put list (its futures, call and default branches all
    apply the plain rule); the fixed-percentile scripts invert it exactly
    on the strings that contain [Put Options].  The two answers agree on a
    segment string exactly when the two tests do; on the column name
    PUT_OI, for one, they are opposite. *)
Theorem X15_get_direction_put_test (value : Q) (segment : string) :
  let put_listed :=
    bool_decide (segment ∈ ["PUT"; "PUT_OPTIONS"; "PUT_OI"; "Put Options"]) in
  let put_named := Py.contains "Put Options" segment in
  Classifier.Platform.get_direction value segment
  = direction_str (if xorb put_listed (Py.Qgt_bool value 0)
                   then BULLISH else BEARISH)
  /\ Classifier.Respective.get_direction value segment
     = direction_str (if xorb put_named (Py.Qgt_bool value 0)
                      then BULLISH else BEARISH)
  /\ (Classifier.Platform.get_direction value segment
      = Classifier.Respective.get_direction value segment
      <-> put_listed = put_named)
  /\ Classifier.Platform.get_direction value "PUT_OI"
     <> Classifier.Respective.get_direction value "PUT_OI".
Proof.
  intros put_listed put_named.
  assert (Classifier.Platform.get_direction value segment
          = direction_str (if xorb put_listed (Py.Qgt_bool value 0)
                           then BULLISH else BEARISH)) as Hplatform.
  { subst put_listed. unfold Classifier.Platform.get_direction.
    destruct (decide (segment
                      ∈ ["FUTURE_INDEX"; "FUTURE-INDEX"; "INDEX_FUTURES"]))
      as [Hf | Hf].
    { rewrite (bool_decide_eq_true_2 _ Hf).
      split_elem_of; destruct (Py.Qgt_bool value 0); reflexivity. }
    rewrite (bool_decide_eq_false_2 _ Hf).
    destruct (decide (segment
                      ∈ ["CALL"; "CALL_OPTIONS"; "CALL_OI"; "Call Options"]))
      as [Hc | Hc].
    { rewrite (bool_decide_eq_true_2 _ Hc).
      split_elem_of; destruct (Py.Qgt_bool value 0); reflexivity. }
    rewrite (bool_decide_eq_false_2 _ Hc).
    destruct (bool_decide (segment ∈ _)), (Py.Qgt_bool value 0);
      reflexivity. }
  assert (Classifier.Respective.get_direction value segment
          = direction_str (if xorb put_named (Py.Qgt_bool value 0)
                           then BULLISH else BEARISH)) as Hrespective.
  { subst put_named. unfold Classifier.Respective.get_direction.
    destruct (Py.contains _ _), (Py.Qgt_bool value 0); reflexivity. }
  split; [exact Hplatform |]. split; [exact Hrespective |]. split.
  - rewrite Hplatform, Hrespective.
    destruct put_listed, put_named, (Py.Qgt_bool value 0); simpl;
      split; intros H; first [reflexivity | discriminate H].
  - unfold Classifier.Platform.get_direction,
      Classifier.Respective.get_direction.
    eval_bool_decide. cbv iota.
    change (Py.contains "Put Options" "PUT_OI") with false. cbv iota.
    destruct (Py.Qgt_bool value 0); discriminate.
Qed.

(** ** The shape of the two tables *)

(** X16: what the truth table does with the two directions and tiers.
    The result is a label.  It is INDECISIVE only when the OI and the
    change point in opposite directions; a decisive result never has a
    tier above both inputs' tiers, and it points where the OI points,
    except that a STRONG change against a MILD OI wins (with tier MEDIUM).
    When the two agree the result is in their direction with the OI's
    tier, raised by one step when the change is STRONG.  When they oppose,
    a STRONG change against a MILD OI gives MEDIUM in the direction of the
    change, a MILD change against a STRONG or MEDIUM OI is ignored (the
    result is the OI's label), and every other pair is INDECISIVE. *)
Theorem X16_truth_table_shape
    (ot : StrengthTier) (od : Direction)
    (ct : StrengthTier) (cd : Direction) :
  exists l : Label,
    SignalComposer.apply_truth_table
      (tier_str ot) (direction_str od) (tier_str ct) (direction_str cd)
    = label_str l
    /\ match l with
       | INDECISIVE => od <> cd
       | Decisive t d =>
           (d = od \/ (d = cd /\ ot = MILD /\ ct = STRONG))
           /\ (Pipeline.tier_rank t
               <= Nat.max (Pipeline.tier_rank ot) (Pipeline.tier_rank ct))%nat
       end
    /\ (od = cd ->
        l = Decisive
              match ot, ct with
              | STRONG, _ | MEDIUM, STRONG => STRONG
              | MEDIUM, _ | MILD, STRONG => MEDIUM
              | MILD, _ => MILD
              end od)
    /\ (od <> cd ->
        l = match ot, ct with
            | MILD, STRONG => Decisive MEDIUM cd
            | STRONG, MILD | MEDIUM, MILD => Decisive ot od
            | _, _ => INDECISIVE
            end).
Proof.
  exists (SignalComposer.spec_matrix (Decisive ot od) (Decisive ct cd)).
  destruct ot, od, ct, cd;
    (split; [vm_compute; reflexivity |]);
    (split; [simpl; first [discriminate | split; [auto | lia]] |]);
    (split; [intros H; first [reflexivity | discriminate H]
            | intros H;
              first [reflexivity | exfalso; apply H; reflexivity]]).
Qed.

Lemma net_final_label_cases (s : string) :
  s ∈ map label_str
        [Decisive STRONG BULLISH; Decisive MEDIUM BULLISH;
         Decisive MILD BULLISH; Decisive STRONG BEARISH;
         Decisive MEDIUM BEARISH; Decisive MILD BEARISH; INDECISIVE] ->
  exists l : Label, s = label_str l.
Proof.
  intros Hs. apply list_elem_of_In, in_map_iff in Hs as (l & <- & _).
  exists l. reflexivity.
Qed.

(** X17: the Net Options strength on the 49 pairs of labels, in the two
    scripts.  With an INDECISIVE Call label fii_strength_calculator_3.py
    always answers INDECISIVE, where the respective-percentile script
    answers the Put label unless that is MILD or INDECISIVE.  On the four
    conflicts, a STRONG or MEDIUM Call label against the Put label of the
    same tier and the opposite direction, the first script answers
    [INDECISIVE VOLATILE] or [INDECISIVE NEUTRAL] and the second
    [VOLATILE VOLATILE] or [NEUTRAL NEUTRAL], none of which is a label or
    the plain INDECISIVE.  Everywhere else the two agree, on a label. *)
Theorem X17_net_options_on_labels (lc lp : Label) :
  let combined :=
    NetOptions.net_final NetOptions.Combined.net_oi_mapping
      (label_str lc) (label_str lp) in
  let respective :=
    NetOptions.net_final NetOptions.Respective.net_oi_mapping
      (label_str lc) (label_str lp) in
  let conflict :=
    exists (t : StrengthTier) (d : Direction),
      t <> MILD /\ lc = Decisive t d
      /\ lp = Decisive t (flip_direction d) in
  (lc = INDECISIVE ->
     combined = "INDECISIVE"
     /\ respective = label_str match lp with
                               | Decisive MILD _ => INDECISIVE
                               | _ => lp
                               end)
  /\ (forall (t : StrengthTier) (d : Direction),
        t <> MILD -> lc = Decisive t d ->
        lp = Decisive t (flip_direction d) ->
        let tag := match d with
                   | BULLISH => "VOLATILE"
                   | BEARISH => "NEUTRAL"
                   end in
        combined = Py.fmt2 "INDECISIVE" tag
        /\ respective = Py.fmt2 tag tag
        /\ forall l : Label, combined <> label_str l
                             /\ respective <> label_str l)
  /\ (lc <> INDECISIVE -> ~ conflict ->
      combined = respective /\ exists l : Label, combined = label_str l).
Proof.
  intros combined respective conflict.
  subst combined respective conflict.
  split; [| split].
  - intros ->. destruct lp as [[] [] |]; split; vm_compute; reflexivity.
  - intros t d Hmild -> ->.
    destruct t, d; try (exfalso; apply Hmild; reflexivity);
      (split; [vm_compute; reflexivity |]);
      (split; [vm_compute; reflexivity |]);
      intros [[] [] |]; split; vm_compute; discriminate.
  - intros Hdecisive Hpeace.
    destruct lc as [tc dc |]; [| exfalso; apply Hdecisive; reflexivity].
    destruct lp as [tp dp |].
    + destruct tc, dc, tp, dp;
        try (exfalso; apply Hpeace; eexists _, _;
             split; [| split; reflexivity]; discriminate);
        (split; [vm_compute; reflexivity |]);
        apply net_final_label_cases; vm_compute;
        repeat first [apply list_elem_of_here | apply list_elem_of_further].
    + destruct tc, dc;
        (split; [vm_compute; reflexivity |]);
        apply net_final_label_cases; vm_compute;
        repeat first [apply list_elem_of_here | apply list_elem_of_further].
Qed.

(** ** The platform's classification and the scripts' *)

Lemma helper_view_strength_some (v : Q) (sorted_list : list Q)
    (medium_threshold strong_threshold : Q) (is_change : bool) :
  (0 <= medium_threshold <= 100)%Q -> (0 <= strong_threshold <= 100)%Q ->
  sorted_list <> [] ->
  exists (p_medium p_strong : Q) (t : StrengthTier),
    Percentile.Platform.get_threshold medium_threshold sorted_list
    = Py.Return p_medium
    /\ Percentile.Platform.get_threshold strong_threshold sorted_list
       = Py.Return p_strong
    /\ Helper.get_view_strength (Some v) sorted_list
         medium_threshold strong_threshold
       = Py.Return (helper_tier t)
    /\ Classifier.Platform.get_strength_level v p_strong p_medium is_change
       = tier_str t.
Proof.
  intros Hm Hs Hne.
  destruct (get_threshold_interpolate medium_threshold sorted_list Hm Hne)
    as [Hpm _].
  destruct (get_threshold_interpolate strong_threshold sorted_list Hs Hne)
    as [Hps _].
  eexists _, _. 
  assert (exists t : StrengthTier,
            Helper.get_view_strength (Some v) sorted_list
              medium_threshold strong_threshold
            = Py.Return (helper_tier t)
            /\ Classifier.Platform.get_strength_level v
                 (Percentile.interpolate sorted_list
                    (Percentile.position strong_threshold sorted_list))
                 (Percentile.interpolate sorted_list
                    (Percentile.position medium_threshold sorted_list))
                 is_change
               = tier_str t) as (t & Ht & Hl).
  { unfold Helper.get_view_strength, Helper.get_threshold.
    destruct sorted_list as [| x l]; [contradiction |].
    change (length (x :: l) =? 0)%nat with false. cbv iota.
    rewrite Hpm, Hps, !bind_Return. simpl Helper.opt_abs. cbv iota beta.
    rewrite get_strength_level_variants.
    unfold Classifier.Respective.get_strength_level.
    replace (if negb is_change then _ else _)
      with (Percentile.interpolate (x :: l)
              (Percentile.position medium_threshold (x :: l)))
      by (destruct is_change; reflexivity).
    cbv zeta.
    destruct (Py.Qge_bool (Qabs v) _);
      [exists STRONG; split; reflexivity |].
    destruct (Py.Qge_bool (Qabs v) _);
      [exists MEDIUM | exists MILD]; split; reflexivity. }
  exists t. split; [exact Hpm |]. split; [exact Hps |].
  split; [exact Ht | exact Hl].
Qed.

(** X18: the three strength wrappers of the platform never raise,
    whatever the value and the sample: the guard on the empty sample in
    [get_view_strength] keeps the unguarded [get_threshold] away from it.
    They answer INDECISIVE (the empty string) on an empty sample or a
    missing value, and otherwise the tier that [get_strength_level] of the
    scripts gives for the same value and the 80th and 40th (for a change:
    20th) percentile of the same sample. *)
Theorem X18_helper_view_strength (value : option Q) (sorted_list : list Q) :
  (exists s : string,
      Helper.get_view_strength_old value sorted_list = Py.Return s)
  /\ match value, sorted_list with
     | Some v, _ :: _ =>
         exists (p80 p40 p20 : Q) (t_oi t_change : StrengthTier),
           Percentile.Platform.get_threshold 80 sorted_list = Py.Return p80
           /\ Percentile.Platform.get_threshold 40 sorted_list
              = Py.Return p40
           /\ Percentile.Platform.get_threshold 20 sorted_list
              = Py.Return p20
           /\ Helper.get_view_strength_for_oi value sorted_list
              = Py.Return (helper_tier t_oi)
           /\ Classifier.Platform.get_strength_level v p80 p40 false
              = tier_str t_oi
           /\ Helper.get_view_strength_for_oi_change value sorted_list
              = Py.Return (helper_tier t_change)
           /\ Classifier.Platform.get_strength_level v p80 p20 true
              = tier_str t_change
     | _, _ =>
         Helper.get_view_strength_for_oi value sorted_list
         = Py.Return Helper.INDECISIVE
         /\ Helper.get_view_strength_for_oi_change value sorted_list
            = Py.Return Helper.INDECISIVE
         /\ Helper.get_view_strength_old value sorted_list
            = Py.Return Helper.INDECISIVE
     end.
Proof.
  assert (forall medium strong : Q,
            (0 <= medium <= 100)%Q -> (0 <= strong <= 100)%Q ->
            sorted_list <> [] ->
            Helper.get_view_strength None sorted_list medium strong
            = Py.Return Helper.INDECISIVE) as Hnone.
  { intros medium strong Hm Hs Hne.
    destruct (get_threshold_interpolate medium sorted_list Hm Hne)
      as [Hpm _].
    destruct (get_threshold_interpolate strong sorted_list Hs Hne)
      as [Hps _].
    unfold Helper.get_view_strength, Helper.get_threshold.
    destruct sorted_list as [| x l]; [contradiction |].
    change (length (x :: l) =? 0)%nat with false. cbv iota.
    rewrite Hpm, Hps, !bind_Return. reflexivity. }
  assert (0 <= 33 <= 100 /\ 0 <= 66 <= 100 /\ 0 <= 40 <= 100
          /\ 0 <= 80 <= 100 /\ 0 <= 20 <= 100)%Q
    as (H33 & H66 & H40 & H80 & H20)
    by (repeat split; discriminate).
  destruct sorted_list as [| x l].
  { split; [eexists; reflexivity |].
    destruct value; repeat split; reflexivity. }
  destruct value as [v |].
  - split.
    + destruct (helper_view_strength_some v (x :: l) 33 66 false H33 H66)
        as (_ & _ & t & _ & _ & Ht & _); [discriminate |].
      eexists. exact Ht.
    + destruct (helper_view_strength_some v (x :: l) 40 80 false H40 H80)
        as (p40 & p80 & t_oi & Hp40 & Hp80 & Hoi & Hloi); [discriminate |].
      destruct (helper_view_strength_some v (x :: l) 20 80 true H20 H80)
        as (p20 & p80' & t_ch & Hp20 & Hp80' & Hch & Hlch);
        [discriminate |].
      rewrite Hp80 in Hp80'. injection Hp80' as <-.
      exists p80, p40, p20, t_oi, t_ch. repeat split; assumption.
  - split; [eexists; apply Hnone; [exact H33 | exact H66 | discriminate] |].
    repeat split; apply Hnone; try assumption; discriminate.
Qed.

(** The direction of the scripts and the view of the platform for one
    value: they agree away from zero, and at zero the scripts answer
    BEARISH for calls and BULLISH for puts where the platform answers
    INDECISIVE. *)
Lemma helper_views_and_directions (v : Q) :
  exists d : Direction,
    Classifier.Platform.get_direction v "Call Options" = direction_str d
    /\ Classifier.Platform.get_direction v "Put Options"
       = direction_str (flip_direction d)
    /\ ((v == 0)%Q -> d = BEARISH)
    /\ (if Qeq_bool v 0
        then Helper.get_view_for_net_value (Some v) = Helper.INDECISIVE
             /\ Helper.get_view_for_put_option (Some v) = Helper.INDECISIVE
        else Helper.get_view_for_net_value (Some v) = direction_str d
             /\ Helper.get_view_for_put_option (Some v)
                = direction_str (flip_direction d)).
Proof.
  unfold Helper.get_view_for_net_value, Helper.get_view_for_put_option,
    Classifier.Platform.get_direction.
  eval_bool_decide. cbv iota.
  destruct (Py.Qgt_bool v 0) eqn:Hpos.
  - exists BULLISH. split; [reflexivity |]. split; [reflexivity |].
    apply Qgt_bool_true in Hpos. split.
    + intros Hz. exfalso. rewrite Hz in Hpos. exact (Qlt_irrefl _ Hpos).
    + destruct (Qeq_bool v 0) eqn:Hz; [| split; reflexivity].
      apply Qeq_bool_iff in Hz. exfalso. rewrite Hz in Hpos.
      exact (Qlt_irrefl _ Hpos).
  - exists BEARISH. split; [reflexivity |]. split; [reflexivity |].
    split; [reflexivity |].
    destruct (Qeq_bool v 0); split; reflexivity.
Qed.

Lemma helper_mapping_labels (ot : StrengthTier) (od : Direction)
    (ct : StrengthTier) (cd : Direction) :
  Helper.get_strength_view_from_oi_and_oi_change_strength
    (direction_str od) (helper_tier ot) (direction_str cd) (helper_tier ct)
  = helper_pair (SignalComposer.spec_matrix (Decisive ot od)
                                            (Decisive ct cd)).
Proof. destruct ot, od, ct, cd; vm_compute; reflexivity. Qed.

Lemma helper_mapping_keys (oi_view oi_strength change_view change_strength
                           : string) :
  oi_view = Helper.INDECISIVE \/ change_view = Helper.INDECISIVE ->
  Helper.get_strength_view_from_oi_and_oi_change_strength
    oi_view oi_strength change_view change_strength
  = (Helper.INDECISIVE, Helper.INDECISIVE).
Proof.
  intros Hblank.
  unfold Helper.get_strength_view_from_oi_and_oi_change_strength,
    Py.dict_get.
  destruct (Py.dict_literal Helper.mapping_entries !! _) as [v |] eqn:Hlook;
    [| reflexivity].
  apply dict_literal_lookup_In in Hlook.
  unfold Helper.mapping_entries in Hlook. simpl in Hlook.
  repeat match goal with
  | H : _ \/ _ |- _ => destruct H as [H | H]
  end; try contradiction;
  injection Hlook as <- <- <- <- <-; discriminate.
Qed.

(** X19: the platform and the scripts summarise a segment alike, except
    at zero.  For non-empty samples, custom_percentile_method_2.py gives
    the OI and the change of a Call or Put segment a tier and a direction
    each and answers the entry of the truth table for them, whatever the
    values; a value of zero gets the direction BEARISH (for puts:
    BULLISH) like any other value that is not above zero, and the script
    goes on to the table with it.  When the OI and the change are both
    non-zero the platform's (strength, view) is that same label, in the
    platform's spelling; when one of them is zero the platform answers
    INDECISIVE instead. *)
Theorem X19_helper_segment_summary (oi change : Q)
    (oi_vals change_vals : list Q) :
  oi_vals <> [] -> change_vals <> [] ->
  exists (p80 p40 c80 c20 : Q),
    Percentile.Platform.get_threshold 80 oi_vals = Py.Return p80
    /\ Percentile.Platform.get_threshold 40 oi_vals = Py.Return p40
    /\ Percentile.Platform.get_threshold 80 change_vals = Py.Return c80
    /\ Percentile.Platform.get_threshold 20 change_vals = Py.Return c20
    /\ forall (segment_name : string) (view : option Q -> string)
              (zero_direction : Direction),
         (segment_name = "Call Options"
          /\ view = Helper.get_view_for_net_value
          /\ zero_direction = BEARISH)
         \/ (segment_name = "Put Options"
             /\ view = Helper.get_view_for_put_option
             /\ zero_direction = BULLISH) ->
         exists (ot ct : StrengthTier) (od cd : Direction),
           Classifier.Platform.get_strength_level oi p80 p40 false
           = tier_str ot
           /\ Classifier.Platform.get_direction oi segment_name
              = direction_str od
           /\ Classifier.Platform.get_strength_level change c80 c20 true
              = tier_str ct
           /\ Classifier.Platform.get_direction change segment_name
              = direction_str cd
           /\ ((oi == 0)%Q -> od = zero_direction)
           /\ ((change == 0)%Q -> cd = zero_direction)
           /\ SignalComposer.apply_truth_table
                (Classifier.Platform.get_strength_level oi p80 p40 false)
                (Classifier.Platform.get_direction oi segment_name)
                (Classifier.Platform.get_strength_level change c80 c20 true)
                (Classifier.Platform.get_direction change segment_name)
              = label_str (SignalComposer.spec_matrix (Decisive ot od)
                                                      (Decisive ct cd))
           /\ Helper.segment_summary view (Some oi) (Some change)
                oi_vals change_vals
              = Py.Return
                  (if Qeq_bool oi 0 || Qeq_bool change 0
                   then (Helper.INDECISIVE, Helper.INDECISIVE)
                   else helper_pair
                          (SignalComposer.spec_matrix (Decisive ot od)
                                                      (Decisive ct cd))).
Proof.
  intros Hoi Hch.
  assert (0 <= 40 <= 100 /\ 0 <= 80 <= 100 /\ 0 <= 20 <= 100)%Q
    as (H40 & H80 & H20) by (repeat split; discriminate).
  destruct (helper_view_strength_some oi oi_vals 40 80 false H40 H80 Hoi)
    as (p40 & p80 & t_oi & Hp40 & Hp80 & Hsoi & Hloi).
  destruct (helper_view_strength_some change change_vals 20 80 true
              H20 H80 Hch)
    as (c20 & c80 & t_ch & Hc20 & Hc80 & Hsch & Hlch).
  exists p80, p40, c80, c20.
  repeat (split; [assumption |]).
  intros segment_name view zero_direction Hseg.
  destruct (helper_views_and_directions oi)
    as (d_oi & Hd1 & Hd1p & Hz1 & Hv1).
  destruct (helper_views_and_directions change)
    as (d_ch & Hd2 & Hd2p & Hz2 & Hv2).
  assert (exists od cd : Direction,
            Classifier.Platform.get_direction oi segment_name
            = direction_str od
            /\ Classifier.Platform.get_direction change segment_name
               = direction_str cd
            /\ ((oi == 0)%Q -> od = zero_direction)
            /\ ((change == 0)%Q -> cd = zero_direction)
            /\ (if Qeq_bool oi 0 then view (Some oi) = Helper.INDECISIVE
                else view (Some oi) = direction_str od)
            /\ (if Qeq_bool change 0
                then view (Some change) = Helper.INDECISIVE
                else view (Some change) = direction_str cd))
    as (od & cd & Hod & Hcd & Hzo & Hzc & Hvo & Hvc).
  { destruct Hseg as [(-> & -> & ->) | (-> & -> & ->)].
    - exists d_oi, d_ch. repeat (split; [assumption |]).
      split; [destruct (Qeq_bool oi 0); apply Hv1
             | destruct (Qeq_bool change 0); apply Hv2].
    - exists (flip_direction d_oi), (flip_direction d_ch).
      split; [exact Hd1p |]. split; [exact Hd2p |].
      split; [intros Hz; rewrite (Hz1 Hz); reflexivity |].
      split; [intros Hz; rewrite (Hz2 Hz); reflexivity |].
      split; [destruct (Qeq_bool oi 0); apply Hv1
             | destruct (Qeq_bool change 0); apply Hv2]. }
  exists t_oi, t_ch, od, cd.
  split; [exact Hloi |]. split; [exact Hod |]. split; [exact Hlch |].
  split; [exact Hcd |]. split; [exact Hzo |]. split; [exact Hzc |].
  split.
  - rewrite Hloi, Hlch, Hod, Hcd. apply apply_truth_table_labels.
  - unfold Helper.segment_summary, Helper.get_view_strength_for_oi,
      Helper.get_view_strength_for_oi_change.
    rewrite Hsoi, Hsch, !bind_Return. cbv zeta.
    change (mret ?x) with (Py.Return x). f_equal.
    destruct (Qeq_bool oi 0).
    { apply helper_mapping_keys. left. exact Hvo. }
    destruct (Qeq_bool change 0).
    { apply helper_mapping_keys. right. exact Hvc. }
    simpl orb. cbv iota. rewrite Hvo, Hvc.
    apply helper_mapping_labels.
Qed.

(** A Call segment with OI 1200 whose change is zero: the platform
    answers INDECISIVE, the script STRONG BULLISH. *)
Lemma X19_helper_segment_summary_witness :
  Helper.segment_summary Helper.get_view_for_net_value
    (Some 1200%Q) (Some 0%Q) [400%Q; 1000%Q] [50%Q; 150%Q]
  = Py.Return (Helper.INDECISIVE, Helper.INDECISIVE)
  /\ SignalComposer.apply_truth_table
       (Classifier.Platform.get_strength_level 1200 880 640 false)
       (Classifier.Platform.get_direction 1200 "Call Options")
       (Classifier.Platform.get_strength_level 0 130 70 true)
       (Classifier.Platform.get_direction 0 "Call Options")
     = "STRONG BULLISH".
Proof.
  destruct (X19_helper_segment_summary 1200 0 [400%Q; 1000%Q]
              [50%Q; 150%Q] ltac:(discriminate) ltac:(discriminate))
    as (p80 & p40 & c80 & c20 & _ & _ & _ & _ & Hsum).
  destruct (Hsum "Call Options" Helper.get_view_for_net_value BEARISH
              (or_introl (conj eq_refl (conj eq_refl eq_refl))))
    as (ot & ct & od & cd & _ & _ & _ & _ & _ & _ & _ & Hhelper).
  split; [exact Hhelper |]. vm_compute. reflexivity.
Defined.

(** X20: the platform's Net Options table.  Every line of its literal is
    in force (its six repeated keys repeat the same value), and on the 49
    pairs of labels it is the table of fii_strength_calculator_3.py in the
    platform's spelling; so it answers a conflict with the strength
    INDECISIVE and the view VOLATILE or NEUTRAL, which is where the
    respective-percentile script differs from both. *)
Theorem X20_helper_net_mapping :
  Forall (fun kv =>
            Py.dict_literal Helper.net_mapping_entries !! kv.1 = Some kv.2)
         Helper.net_mapping_entries
  /\ length Helper.net_mapping_entries = 48%nat
  /\ size (Py.dict_literal Helper.net_mapping_entries) = 42%nat
  /\ forall lc lp : Label,
       let call := helper_pair lc in
       let put := helper_pair lp in
       let script :=
         NetOptions.net_tuple NetOptions.Combined.net_oi_mapping
           (label_str lc) (label_str lp) in
       Helper.get_net_strength_view_from_call_put_values
         call.1 call.2 put.1 put.2
       = (helper_word script.1, helper_word script.2).
Proof.
  split; [| split; [| split]].
  - unfold Helper.net_mapping_entries.
    repeat (apply Forall_cons; split; [vm_compute; reflexivity |]).
    apply Forall_nil. exact I.
  - reflexivity.
  - vm_compute. reflexivity.
  - intros [[] [] |] [[] [] |]; vm_compute; reflexivity.
Qed.

(** ** The pooled percentiles *)




(** ** The segments a date's results hold *)

Lemma filter_none {A : Type} (P : A -> Prop) `{forall x, Decision (P x)}
    (l : list A) :
  (forall x, x ∈ l -> ~ P x) -> filter P l = [].
Proof.
  induction l as [| x l IH]; intros Hall; [reflexivity |].
  rewrite filter_cons_False by (apply Hall, list_elem_of_here).
  apply IH. intros y Hy. apply Hall, list_elem_of_further. exact Hy.
Qed.

Section InstitutionLoop.

Variable step : list Pipeline.Result -> string -> list Pipeline.Result.

Hypothesis step_app :
  forall (prev : list Pipeline.Result) (inst : string),
    (forall r, r ∈ prev -> Pipeline.institution r <> inst) ->
    step prev inst = (prev ++ step [] inst)%list.

Hypothesis step_own :
  forall (inst : string) (r : Pipeline.Result),
    r ∈ step [] inst -> Pipeline.institution r = inst.

Lemma institution_loop_concat (insts : list string) :
  forall acc : list Pipeline.Result,
    NoDup insts ->
    (forall r, r ∈ acc -> Pipeline.institution r ∉ insts) ->
    foldl step acc insts = (acc ++ concat (map (step []) insts))%list.
Proof.
  induction insts as [| i insts IH]; intros acc Hnodup Hacc.
  - simpl. rewrite app_nil_r. reflexivity.
  - apply NoDup_cons in Hnodup as [Hfresh Hnodup].
    cbn [foldl map concat].
    rewrite step_app.
    + rewrite IH; [rewrite <- app_assoc; reflexivity | exact Hnodup |].
      intros r Hr. apply elem_of_app in Hr as [Hr | Hr].
      * intros Hin. apply (Hacc r Hr). apply list_elem_of_further. exact Hin.
      * rewrite (step_own i r Hr). exact Hfresh.
    + intros r Hr Heq. apply (Hacc r Hr). rewrite Heq.
      apply list_elem_of_here.
Qed.

Lemma institution_loop_members (insts : list string) (r : Pipeline.Result) :
  r ∈ concat (map (step []) insts) -> Pipeline.institution r ∈ insts.
Proof.
  induction insts as [| i insts IH]; cbn [map concat]; intros Hr.
  - apply elem_of_nil in Hr. contradiction.
  - apply elem_of_app in Hr as [Hr | Hr].
    + rewrite (step_own i r Hr). apply list_elem_of_here.
    + apply list_elem_of_further, IH. exact Hr.
Qed.

(** The results of an institution are what its own pass of the loop
    adds. *)
Lemma institution_loop_filter (insts : list string) (inst : string) :
  NoDup insts -> inst ∈ insts ->
  filter (fun r => Pipeline.institution r = inst) (foldl step [] insts)
  = step [] inst.
Proof.
  intros Hnodup Hin.
  rewrite institution_loop_concat;
    [| exact Hnodup | intros r Hr; apply elem_of_nil in Hr; contradiction].
  rewrite app_nil_l.
  induction insts as [| i insts IH];
    [apply elem_of_nil in Hin; contradiction |].
  apply NoDup_cons in Hnodup as [Hfresh Hnodup].
  cbn [map concat]. rewrite filter_app.
  destruct (decide (i = inst)) as [-> | Hne].
  - rewrite filter_all by (intros r Hr; apply step_own; exact Hr).
    rewrite filter_none; [apply app_nil_r |].
    intros r Hr Heq. apply Hfresh. rewrite <- Heq.
    apply institution_loop_members. exact Hr.
  - rewrite filter_none.
    + rewrite app_nil_l. apply IH; [exact Hnodup |].
      apply elem_of_cons in Hin as [-> | Hin]; [contradiction | exact Hin].
    + intros r Hr Heq. apply Hne. rewrite <- Heq. symmetry.
      apply step_own. exact Hr.
Qed.

End InstitutionLoop.

Lemma institution_step_own
    (m : gmap ((string * string) * (string * string)) (string * string))
    (target_data : list Window.Row) (d : Z)
    (fp cp pp : option Percentile.ThresholdSet) (inst : string)
    (r : Pipeline.Result) :
  r ∈ Pipeline.institution_step m target_data d fp cp pp [] inst ->
  Pipeline.institution r = inst.
Proof.
  destruct (filter (fun r => Window.institution r = inst) target_data)
    as [| row rest] eqn:Hrows.
  - unfold Pipeline.institution_step. rewrite Hrows. intros Hr.
    apply elem_of_nil in Hr. contradiction.
  - rewrite (institution_block m target_data d fp cp pp inst row rest Hrows).
    intros Hr. apply elem_of_app in Hr as [Hr | Hr].
    + apply list_elem_of_In, in_map_iff in Hr as ([[[n oi] ch] p] & <- & _).
      reflexivity.
    + destruct cp, pp; try (apply elem_of_nil in Hr; contradiction).
      apply list_elem_of_singleton in Hr as ->. reflexivity.
Qed.

(** The segment names one institution's pass adds, in order. *)
Lemma institution_step_segments
    (m : gmap ((string * string) * (string * string)) (string * string))
    (target_data : list Window.Row) (d : Z)
    (fp cp pp : option Percentile.ThresholdSet) (inst : string) :
  map Pipeline.segment
      (Pipeline.institution_step m target_data d fp cp pp [] inst)
  = match filter (fun r => Window.institution r = inst) target_data with
    | [] => []
    | _ :: _ =>
        (when_present fp ["Index Futures"]
         ++ when_present cp ["Call Options"]
         ++ when_present pp ["Put Options"]
         ++ when_present cp (when_present pp ["Net Options"]))%list
    end.
Proof.
  destruct (filter (fun r => Window.institution r = inst) target_data)
    as [| row rest] eqn:Hrows.
  - unfold Pipeline.institution_step. rewrite Hrows. reflexivity.
  - rewrite (institution_block m target_data d fp cp pp inst row rest Hrows).
    destruct fp, cp, pp; reflexivity.
Qed.

(** X22: which results a date gets.  In the result list of
    [calculate_strength_for_date] the results of FII, PRO or CLIENT are
    those its own pass of the loop adds: none when the institution has no
    row on the date, and otherwise, in this order, Index Futures, Call
    Options and Put Options, each when its percentile key is present, and
    Net Options when the Call and the Put key both are.  In
    fii_strength_calculator_3.py the Call and the Put segment share the
    key Combined Options, so an institution has all three options results
    or none of them. *)
Theorem X22_segments_of_a_date (df : list Window.Row) (d : Z)
    (inst : string) :
  inst ∈ ["FII"; "PRO"; "CLIENT"] ->
  let own (results : list Pipeline.Result) : list string :=
    map Pipeline.segment
        (filter (fun r => Pipeline.institution r = inst) results) in
  let rows :=
    filter (fun r => Window.institution r = inst)
           (filter (fun r => Window.date r = d) df) in
  (forall combined_percentiles : gmap string Percentile.ThresholdSet,
      own (Pipeline.Combined.calculate_strength_for_date df d
             combined_percentiles)
      = match rows with
        | [] => []
        | _ :: _ =>
            (when_present (combined_percentiles !! "Index Futures")
               ["Index Futures"]
             ++ when_present (combined_percentiles !! "Combined Options")
                  ["Call Options"; "Put Options"; "Net Options"])%list
        end)
  /\ (forall institution_percentiles :
              gmap string (gmap string Percentile.ThresholdSet),
        own (Pipeline.Respective.calculate_strength_for_date df d
               institution_percentiles)
        = match rows, institution_percentiles !! inst with
          | _ :: _, Some p =>
              (when_present (p !! "Index Futures") ["Index Futures"]
               ++ when_present (p !! "Call Options") ["Call Options"]
               ++ when_present (p !! "Put Options") ["Put Options"]
               ++ when_present (p !! "Call Options")
                    (when_present (p !! "Put Options") ["Net Options"]))%list
          | _, _ => []
          end).
Proof.
  intros Hinst own rows. subst own rows. cbv beta.
  assert (NoDup ["FII"; "PRO"; "CLIENT"]) as Hnodup
    by (apply (bool_decide_unpack _); vm_compute; exact I).
  split.
  - intros P. unfold Pipeline.Combined.calculate_strength_for_date.
    cbv zeta.
    rewrite (institution_loop_filter
               (Pipeline.institution_step NetOptions.Combined.net_oi_mapping
                  (filter (fun r => Window.date r = d) df) d
                  (P !! "Index Futures") (P !! "Combined Options")
                  (P !! "Combined Options")));
      [| intros prev i Hprev; apply institution_step_app; exact Hprev
       | intros i r; apply institution_step_own
       | exact Hnodup | exact Hinst].
    rewrite institution_step_segments.
    destruct (filter _ (filter _ df)); [reflexivity |].
    destruct (P !! "Index Futures"), (P !! "Combined Options"); reflexivity.
  - intros P. unfold Pipeline.Respective.calculate_strength_for_date.
    cbv zeta.
    rewrite (institution_loop_filter
               (fun results i =>
                  match P !! i with
                  | None => results
                  | Some inst_percentiles =>
                      Pipeline.institution_step
                        NetOptions.Respective.net_oi_mapping
                        (filter (fun r => Window.date r = d) df) d
                        (inst_percentiles !! "Index Futures")
                        (inst_percentiles !! "Call Options")
                        (inst_percentiles !! "Put Options") results i
                  end));
      [| intros prev i Hprev; destruct (P !! i);
         [apply institution_step_app; exact Hprev
         | rewrite app_nil_r; reflexivity]
       | intros i r; destruct (P !! i);
         [apply institution_step_own
         | intros Hr; apply elem_of_nil in Hr; contradiction]
       | exact Hnodup | exact Hinst].
    destruct (P !! inst) as [p |].
    + rewrite institution_step_segments.
      destruct (filter _ (filter _ df)); reflexivity.
    + destruct (filter _ (filter _ df)); reflexivity.
Qed.

(** FII on the second sample day, with percentiles for the futures
    only. *)
Lemma X22_segments_of_a_date_witness :
  map Pipeline.segment
      (filter (fun r => Pipeline.institution r = "FII")
         (Pipeline.Combined.calculate_strength_for_date (two_days 50) 2
            {["Index Futures" := Percentile.mkThresholdSet 6 5 1 0]}))
  = ["Index Futures"].
Proof.
  exact (proj1 (X22_segments_of_a_date (two_days 50) 2 "FII"
                  ltac:(apply list_elem_of_here))
           {["Index Futures" := Percentile.mkThresholdSet 6 5 1 0]}).
Defined.

(** ** The direction rule of the first version *)

(** X23: in fii_strength_calculator.py the put branch of [get_direction]
    is never taken by its caller.  [calculate_strength_for_date] passes the
    column name, and PUT_OI is not in the put list, so on all three
    columns the plain sign rule applies: a positive Put OI is BULLISH,
    the opposite of what custom_percentile_method_2.py answers for the Put
    segment.  On the strings of its put list the first version inverts as
    the later one does. *)
Theorem X23_v1_direction_of_columns (value : Q) (oi_col : string) :
  oi_col ∈ V1.oi_cols ->
  V1.get_direction value oi_col
  = direction_str (if Py.Qgt_bool value 0 then BULLISH else BEARISH)
  /\ V1.get_direction value "PUT_OI"
     <> Classifier.Platform.get_direction value "Put Options"
  /\ V1.get_direction value "PUT"
     = Classifier.Platform.get_direction value "Put Options".
Proof.
  intros Hcol. split; [| split].
  - unfold V1.oi_cols in Hcol. unfold V1.get_direction.
    split_elem_of; eval_bool_decide; cbv iota;
      destruct (Py.Qgt_bool value 0); reflexivity.
  - unfold V1.get_direction, Classifier.Platform.get_direction.
    eval_bool_decide. cbv iota.
    destruct (Py.Qgt_bool value 0); discriminate.
  - unfold V1.get_direction, Classifier.Platform.get_direction.
    eval_bool_decide. cbv iota. reflexivity.
Qed.

(** A Put OI of 500. *)
Lemma X23_v1_direction_of_columns_witness :
  V1.get_direction 500 "PUT_OI" = direction_str BULLISH.
Proof.
  apply (proj1 (X23_v1_direction_of_columns 500 "PUT_OI"
                  ltac:(unfold V1.oi_cols;
                        repeat first [apply list_elem_of_here
                                     | apply list_elem_of_further]))).
Defined.

(** ** The accuracy summary as a whole *)

Lemma institution_percentiles_fold (historical_data : list Window.Row)
    (insts : list string) :
  forall m : gmap string (gmap string Percentile.ThresholdSet),
    exists run,
      foldl (fun acc inst =>
               m ← acc;
               let inst_hist :=
                 filter (fun r => Window.institution r = inst)
                        historical_data in
               if bool_decide (inst_hist <> [])
               then
                 p ← Window.Fixed.calculate_respective_percentiles
                        inst_hist inst;
                 mret (<[inst := p]> m)
               else mret m)
            (mret m) insts
      = Py.Return run.
Proof.
  induction insts as [| i insts IH]; intros m.
  - exists m. reflexivity.
  - cbn [foldl].
    change (mret m ≫= ?k) with (k m). cbv beta zeta.
    destruct (bool_decide _); [| apply IH].
    destruct (respective_percentiles_ordered
                (filter (fun r => Window.institution r = i) historical_data)
                i) as (p & -> & _).
    rewrite bind_Return. apply IH.
Qed.

(** The percentiles of a run are always computed. *)
Lemma institution_percentiles_acc_returns (df : list Window.Row)
    (lookback_days : nat) :
  exists run,
    Window.Fixed.institution_percentiles_acc df lookback_days
    = Py.Return run.
Proof.
  unfold Window.Fixed.institution_percentiles_acc.
  apply institution_percentiles_fold.
Qed.

Lemma next_change_pct_of_raises (dates : list Z) (nifty : gmap Z Q)
    (d : Z) :
  (exists o, Backtest.next_change_pct_of dates nifty d = Py.Return o)
  \/ (Backtest.next_change_pct_of dates nifty d
      = Py.Raise Py.ZeroDivisionError
      /\ exists c, nifty !! d = Some c /\ (c == 0)%Q).
Proof.
  unfold Backtest.next_change_pct_of.
  destruct (Py.dict_literal _ !! d) as [k |] eqn:Hk;
    [| left; eexists; reflexivity].
  destruct (length dates <=? k + 1)%nat eqn:Hlen;
    [left; eexists; reflexivity |].
  apply Nat.leb_gt in Hlen.
  destruct (getitem_in_range dates (Z.of_nat k + 1)) as (x & _ & ->);
    [lia |].
  rewrite bind_Return.
  destruct (nifty !! x) as [n |]; [| left; eexists; reflexivity].
  destruct (nifty !! d) as [c |]; [| left; eexists; reflexivity].
  destruct (Qeq_bool c 0) eqn:Hz; [| left; eexists; reflexivity].
  right. split; [reflexivity |]. exists c. split; [reflexivity |].
  apply Qeq_bool_iff. exact Hz.
Qed.

Lemma accuracy_fold_outcome
    (strength_for_date : Z -> list Backtest.StrengthResult)
    (dates : list Z) (nifty : gmap Z Q) (t : Q) (l : list Z) :
  forall counts0 : gmap string Backtest.Counts,
    (exists counts,
        foldl (fun acc date =>
                 counts ← acc;
                 pct ← Backtest.next_change_pct_of dates nifty date;
                 match pct with
                 | None => mret counts
                 | Some next_change_pct =>
                     let results := strength_for_date date in
                     mret (foldl (Backtest.score_institution t
                                    next_change_pct results)
                                 counts Backtest.institutions)
                 end) (mret counts0) l = Py.Return counts)
    \/ (foldl (fun acc date =>
                 counts ← acc;
                 pct ← Backtest.next_change_pct_of dates nifty date;
                 match pct with
                 | None => mret counts
                 | Some next_change_pct =>
                     let results := strength_for_date date in
                     mret (foldl (Backtest.score_institution t
                                    next_change_pct results)
                                 counts Backtest.institutions)
                 end) (mret counts0) l = Py.Raise Py.ZeroDivisionError
        /\ exists d c, nifty !! d = Some c /\ (c == 0)%Q).
Proof.
  induction l as [| d l IH]; intros counts0.
  - left. exists counts0. reflexivity.
  - cbn [foldl]. change (mret counts0 ≫= ?k) with (k counts0). cbv beta.
    destruct (next_change_pct_of_raises dates nifty d)
      as [[o ->] | [-> Hzero]].
    + rewrite bind_Return. destruct o as [pct |]; apply IH.
    + right. split.
      * clear IH. induction l as [| d' l IHl]; [reflexivity | exact IHl].
      * destruct Hzero as (c & Hc & Hz). exists d, c. auto.
Qed.

Lemma report_rows_of_counts (counts : gmap string Backtest.Counts)
    (n : nat) :
  (forall inst : string,
      match counts !! inst with
      | Some c => inst ∈ Backtest.institutions /\ (scored c <= n)%nat
      | None => inst ∉ Backtest.institutions
      end) ->
  map (fun row => row.1.1) (Backtest.report_rows counts)
  = ["CLIENT"; "PRO"; "FII"]
  /\ Forall (fun row => (scored row.1.2 <= n)%nat
                        /\ row.2 = Backtest.percent_correct row.1.2)
            (Backtest.report_rows counts).
Proof.
  intros Hkeys. unfold Backtest.report_rows.
  pose proof (Hkeys "CLIENT") as Hc. pose proof (Hkeys "PRO") as Hp.
  pose proof (Hkeys "FII") as Hf.
  destruct (counts !! "CLIENT") as [c1 |] eqn:H1;
    [| exfalso; apply Hc; unfold Backtest.institutions;
       repeat first [apply list_elem_of_here | apply list_elem_of_further]].
  destruct (counts !! "PRO") as [c2 |] eqn:H2;
    [| exfalso; apply Hp; unfold Backtest.institutions;
       repeat first [apply list_elem_of_here | apply list_elem_of_further]].
  destruct (counts !! "FII") as [c3 |] eqn:H3;
    [| exfalso; apply Hf; unfold Backtest.institutions;
       repeat first [apply list_elem_of_here | apply list_elem_of_further]].
  cbn [omap list_omap]. rewrite H1, H2, H3. cbn.
  split; [reflexivity |].
  repeat (apply Forall_cons; split; [split; [tauto | reflexivity] |]).
  apply Forall_nil. exact I.
Qed.

(** X24: the accuracy summary as a whole.  It never raises [IndexError]:
    the only failure is the division by a close of zero.  When no close is
    zero it returns one report per threshold, for 0.2, 0.3 and 0.4 in this
    order, each with a row for CLIENT, PRO and FII in this order; a row's
    counts stand for no more scorings than there are analysis dates, and
    its percentage is the one of its counts. *)
Theorem X24_accuracy_summary_total
    (calculate_strength_for_date :
       Z -> gmap string (gmap string Percentile.ThresholdSet)
       -> list Backtest.StrengthResult)
    (df : list Window.Row) (date_to_nifty : gmap Z Q)
    (lookback_days : nat) :
  let summary :=
    Backtest.calculate_accuracy_summary calculate_strength_for_date df
      date_to_nifty lookback_days in
  (forall e : Py.exn,
      summary = Py.Raise e ->
      e = Py.ZeroDivisionError
      /\ exists d c, date_to_nifty !! d = Some c /\ (c == 0)%Q)
  /\ ((forall d c, date_to_nifty !! d = Some c -> ~ (c == 0)%Q) ->
      exists rows1 rows2 rows3 : list (string * Backtest.Counts * Q),
        summary = Py.Return [((2 # 10)%Q, rows1); ((3 # 10)%Q, rows2);
                             ((4 # 10)%Q, rows3)]
        /\ Forall
             (fun rows =>
                map (fun row => row.1.1) rows = ["CLIENT"; "PRO"; "FII"]
                /\ Forall
                     (fun row =>
                        (scored row.1.2
                         <= length (Window.Fixed.analysis_dates df
                                      lookback_days))%nat
                        /\ row.2 = Backtest.percent_correct row.1.2)
                     rows)
             [rows1; rows2; rows3]).
Proof.
  intros summary.
  assert ((exists rows1 rows2 rows3 : list (string * Backtest.Counts * Q),
             summary = Py.Return [((2 # 10)%Q, rows1); ((3 # 10)%Q, rows2);
                                  ((4 # 10)%Q, rows3)]
             /\ Forall
                  (fun rows =>
                     map (fun row => row.1.1) rows
                     = ["CLIENT"; "PRO"; "FII"]
                     /\ Forall
                          (fun row =>
                             (scored row.1.2
                              <= length (Window.Fixed.analysis_dates df
                                           lookback_days))%nat
                             /\ row.2 = Backtest.percent_correct row.1.2)
                          rows)
                  [rows1; rows2; rows3])
          \/ (summary = Py.Raise Py.ZeroDivisionError
              /\ exists d c, date_to_nifty !! d = Some c /\ (c == 0)%Q))
    as Houtcome.
  { subst summary. unfold Backtest.calculate_accuracy_summary.
    destruct (institution_percentiles_acc_returns df lookback_days)
      as (run & Hrun).
    cbv zeta. rewrite Hrun, bind_Return.
    unfold Backtest.thresholds. cbn [foldl].
    change (mret [] ≫= ?k) with (k []). cbv beta.
    pose (run_counts := fun t =>
           Backtest.accuracy_counts
             (fun date => calculate_strength_for_date date run)
             (merge_sort Z.le (Window.Fixed.all_dates df)) date_to_nifty
             (Window.Fixed.analysis_dates df lookback_days) t).
    assert (forall t,
              (exists counts, run_counts t = Py.Return counts
                 /\ map (fun row => row.1.1) (Backtest.report_rows counts)
                    = ["CLIENT"; "PRO"; "FII"]
                 /\ Forall
                      (fun row =>
                         (scored row.1.2
                          <= length (Window.Fixed.analysis_dates df
                                       lookback_days))%nat
                         /\ row.2 = Backtest.percent_correct row.1.2)
                      (Backtest.report_rows counts))
              \/ (run_counts t = Py.Raise Py.ZeroDivisionError
                  /\ exists d c, date_to_nifty !! d = Some c /\ (c == 0)%Q))
      as Hcounts.
    { intros t. subst run_counts. cbv beta.
      destruct (accuracy_fold_outcome
                  (fun date => calculate_strength_for_date date run)
                  (merge_sort Z.le (Window.Fixed.all_dates df))
                  date_to_nifty t
                  (reverse (Window.Fixed.analysis_dates df lookback_days))
                  (Py.dict_literal
                     (map (fun inst => (inst, Backtest.mkCounts 0 0 0))
                          Backtest.institutions)))
        as [[counts Hret] | [Hraise Hzero]].
      - left. exists counts. split; [exact Hret |].
        apply report_rows_of_counts.
        exact (accuracy_counts_keys _ _ _ _ _ _ Hret).
      - right. split; [exact Hraise | exact Hzero]. }
    subst run_counts. cbv beta in Hcounts.
    destruct (Hcounts (2 # 10)%Q) as [(c1 & -> & Hn1 & Hb1) | [-> Hz]];
      [| right; split; [reflexivity | exact Hz]].
    rewrite bind_Return.
    change (mret ?x ≫= ?k) with (k x). cbv beta.
    destruct (Hcounts (3 # 10)%Q) as [(c2 & -> & Hn2 & Hb2) | [-> Hz]];
      [| right; split; [reflexivity | exact Hz]].
    rewrite bind_Return.
    change (mret ?x ≫= ?k) with (k x). cbv beta.
    destruct (Hcounts (4 # 10)%Q) as [(c3 & -> & Hn3 & Hb3) | [-> Hz]];
      [| right; split; [reflexivity | exact Hz]].
    rewrite bind_Return.
    left. eexists _, _, _. split; [reflexivity |].
    repeat (apply Forall_cons; split; [split; assumption |]).
    apply Forall_nil. exact I. }
  split.
  - intros e He. destruct Houtcome as [(r1 & r2 & r3 & Hret & _) | [Hr Hz]].
    + rewrite Hret in He. discriminate He.
    + rewrite Hr in He. injection He as <-. split; [reflexivity | exact Hz].
  - intros Hnonzero.
    destruct Houtcome as [Hret | [_ (d & c & Hc & Hz)]]; [exact Hret |].
    exfalso. exact (Hnonzero d c Hc Hz).
Qed.

(** The two sample days with the closes 100 and 101. *)
Lemma X24_accuracy_summary_total_witness :
  exists rows1 rows2 rows3 : list (string * Backtest.Counts * Q),
    Backtest.calculate_accuracy_summary (fun _ _ => three_days_results)
      (two_days 50) three_days_nifty 60
    = Py.Return [((2 # 10)%Q, rows1); ((3 # 10)%Q, rows2);
                 ((4 # 10)%Q, rows3)]
    /\ Forall
         (fun rows =>
            map (fun row => row.1.1) rows = ["CLIENT"; "PRO"; "FII"]
            /\ Forall
                 (fun row =>
                    (scored row.1.2
                     <= length (Window.Fixed.analysis_dates (two_days 50)
                                  60))%nat
                    /\ row.2 = Backtest.percent_correct row.1.2)
                 rows)
         [rows1; rows2; rows3].
Proof.
  apply (proj2 (X24_accuracy_summary_total (fun _ _ => three_days_results)
                  (two_days 50) three_days_nifty 60)).
  intros d c Hc Hz. unfold three_days_nifty in Hc.
  apply dict_literal_lookup_In in Hc. simpl in Hc.
  destruct Hc as [Hc | [Hc | [Hc | []]]]; injection Hc as <- <-;
    vm_compute in Hz; discriminate Hz.
Defined.

(** ** The back-test loop and the specification's account of it *)

Lemma dict_literal_fold_last {K V : Type} `{Countable K} (key : V -> K)
    (l : list V) (k : K) :
  forall m : gmap K V,
    fold_left (fun m kv => <[kv.1 := kv.2]> m)
              (map (fun r => (key r, r)) l) m !! k
    = match last (filter (fun r => key r = k) l) with
      | Some r => Some r
      | None => m !! k
      end.
Proof.
  induction l as [| x l IH]; intros m; [reflexivity |].
  cbn [map fold_left]. rewrite IH. cbn [fst snd].
  destruct (decide (key x = k)) as [Hk | Hk].
  - rewrite filter_cons_True by exact Hk. rewrite last_cons.
    destruct (last (filter _ l)); [reflexivity |].
    rewrite Hk. apply lookup_insert_eq.
  - rewrite filter_cons_False by exact Hk.
    destruct (last (filter _ l)); [reflexivity |].
    apply lookup_insert_ne. exact Hk.
Qed.

(** In the index of an institution's results a segment stands for the
    institution's last result of that segment. *)
Lemma inst_results_last (results : list Backtest.StrengthResult)
    (inst name : string) :
  inst_results results inst !! name
  = last (filter (fun r => Backtest.r_segment r = name
                           /\ Backtest.r_institution r = inst) results).
Proof.
  unfold inst_results, Py.dict_literal.
  rewrite (dict_literal_fold_last Backtest.r_segment).
  rewrite list_filter_filter.
  destruct (last _); [reflexivity | apply lookup_empty].
Qed.

Lemma score_institution_index (t pct : Q)
    (results : list Backtest.StrengthResult)
    (counts : gmap string Backtest.Counts) (inst : string) :
  Backtest.score_institution t pct results counts inst
  = match inst_results results inst !! "Call Options",
          inst_results results inst !! "Put Options" with
    | Some call_result, Some put_result =>
        alter (Backtest.score t pct inst
                 (Backtest.r_final_strength call_result)
                 (Backtest.r_final_strength put_result)) inst counts
    | _, _ => counts
    end.
Proof. reflexivity. Qed.

Lemma score_institution_labels (t pct : Q)
    (results : list Backtest.StrengthResult)
    (counts : gmap string Backtest.Counts) (inst : string) :
  Backtest.score_institution t pct results counts inst
  = match spec_labels results inst with
    | Some (call, put) =>
        alter (Backtest.score t pct inst call put) inst counts
    | None => counts
    end.
Proof.
  rewrite score_institution_index, !inst_results_last.
  unfold spec_labels.
  destruct (last (filter _ results)) as [call |]; [| reflexivity].
  destruct (last (filter _ results)) as [put |]; reflexivity.
Qed.

Lemma word_of_move_str (m : Backtest.Move) :
  word_of (Backtest.move_str m) = Some m.
Proof. destruct m; vm_compute; reflexivity. Qed.

(** One scoring is the specification's verdict, counted. *)
Lemma score_verdict (t pct : Q) (inst call put : string)
    (c : Backtest.Counts) :
  Backtest.score t pct inst call put c
  = match spec_verdict (Backtest.exp_str_for inst call put) pct t with
    | Correct => Backtest.incr_correct c
    | Wrong => Backtest.incr_wrong c
    | Undecided => Backtest.incr_indecisive c
    end.
Proof.
  unfold Backtest.score, spec_verdict.
  destruct (exp_str_for_words inst call put) as [-> | [m ->]].
  - reflexivity.
  - rewrite (bool_decide_eq_false_2 _ (move_str_nonempty m)).
    rewrite word_of_move_str.
    destruct (judge_move m pct t) as (b & -> & Hb).
    destruct (decide (Backtest.predicted m pct t)) as [Hp | Hn].
    + apply Hb in Hp. rewrite Hp. reflexivity.
    + destruct b; [exfalso; apply Hn, Hb; reflexivity | reflexivity].
Qed.

(** What the loop over the institutions does to the counts of one of
    them. *)
Lemma date_step_lookup (t pct : Q) (results : list Backtest.StrengthResult)
    (counts : gmap string Backtest.Counts) (inst : string) :
  inst ∈ Backtest.institutions ->
  foldl (Backtest.score_institution t pct results) counts
    Backtest.institutions !! inst
  = match spec_labels results inst with
    | Some (call, put) =>
        Backtest.score t pct inst call put <$> counts !! inst
    | None => counts !! inst
    end.
Proof.
  intros Hinst. unfold Backtest.institutions in *. cbn [foldl].
  assert (forall m, Backtest.score_institution t pct results m inst !! inst
                    = match spec_labels results inst with
                      | Some (call, put) =>
                          Backtest.score t pct inst call put <$> m !! inst
                      | None => m !! inst
                      end) as Hown.
  { intros m. rewrite score_institution_labels.
    destruct (spec_labels results inst) as [[call put] |]; [| reflexivity].
    apply lookup_alter_eq. }
  split_elem_of.
  - rewrite !score_institution_other by discriminate. apply Hown.
  - rewrite score_institution_other by discriminate.
    rewrite Hown. rewrite score_institution_other by discriminate.
    reflexivity.
  - rewrite Hown. rewrite !score_institution_other by discriminate.
    reflexivity.
Qed.

(** The loop runs over [reversed(analysis_dates)]: the first analysis
    date is scored last. *)
Lemma accuracy_counts_cons
    (strength_for_date : Z -> list Backtest.StrengthResult)
    (dates : list Z) (date_to_nifty : gmap Z Q) (d : Z) (rest : list Z)
    (t : Q) :
  Backtest.accuracy_counts strength_for_date dates date_to_nifty
    (d :: rest) t
  = (counts ← Backtest.accuracy_counts strength_for_date dates
                date_to_nifty rest t;
     pct ← Backtest.next_change_pct_of dates date_to_nifty d;
     match pct with
     | None => mret counts
     | Some next_change_pct =>
         mret (foldl (Backtest.score_institution t next_change_pct
                        (strength_for_date d))
                     counts Backtest.institutions)
     end).
Proof.
  unfold Backtest.accuracy_counts. rewrite reverse_cons, foldl_app.
  reflexivity.
Qed.

Lemma accuracy_counts_tally
    (strength_for_date : Z -> list Backtest.StrengthResult)
    (dates : list Z) (date_to_nifty : gmap Z Q) (t : Q) (inst : string)
    (analysis_dates : list Z) :
  inst ∈ Backtest.institutions ->
  forall counts : gmap string Backtest.Counts,
    Backtest.accuracy_counts strength_for_date dates date_to_nifty
      analysis_dates t = Py.Return counts ->
    counts !! inst
    = Some (Backtest.mkCounts
              (spec_tally strength_for_date dates date_to_nifty
                 analysis_dates t inst Correct)
              (spec_tally strength_for_date dates date_to_nifty
                 analysis_dates t inst Wrong)
              (spec_tally strength_for_date dates date_to_nifty
                 analysis_dates t inst Undecided)).
Proof.
  intros Hinst.
  induction analysis_dates as [| d rest IH]; intros counts Hrun.
  - unfold Backtest.accuracy_counts in Hrun. simpl in Hrun.
    injection Hrun as <-. unfold Backtest.institutions in Hinst.
    split_elem_of; vm_compute; reflexivity.
  - rewrite accuracy_counts_cons in Hrun.
    destruct (Backtest.accuracy_counts strength_for_date dates
                date_to_nifty rest t) as [counts_rest | e];
      [| discriminate Hrun].
    rewrite bind_Return in Hrun.
    specialize (IH counts_rest eq_refl).
    assert (counts !! inst
            = (match spec_date_verdict strength_for_date dates
                       date_to_nifty t inst d with
               | Some Correct => Backtest.incr_correct
               | Some Wrong => Backtest.incr_wrong
               | Some Undecided => Backtest.incr_indecisive
               | None => fun c => c
               end) <$> counts_rest !! inst) as Hstep.
    { unfold spec_date_verdict.
      destruct (Backtest.next_change_pct_of dates date_to_nifty d)
        as [[pct |] | e]; [| | discriminate Hrun].
      - rewrite bind_Return in Hrun. injection Hrun as <-.
        pose proof (date_step_lookup t pct (strength_for_date d)
                      counts_rest inst Hinst) as Hlook.
        unfold Backtest.institutions in Hlook. cbn [foldl] in Hlook.
        rewrite Hlook. clear Hlook.
        destruct (spec_labels (strength_for_date d) inst)
          as [[call put] |];
          cbn [mbind option_bind fst snd];
          [| destruct (counts_rest !! inst); reflexivity].
        destruct (counts_rest !! inst) as [c |]; [| reflexivity].
        cbn [fmap option_fmap option_map]. rewrite score_verdict.
        destruct (spec_verdict _ pct t); reflexivity.
      - rewrite bind_Return in Hrun. injection Hrun as <-.
        destruct (counts_rest !! inst); reflexivity. }
    rewrite Hstep, IH. clear Hstep IH Hrun.
    unfold spec_tally. rewrite !filter_cons.
    destruct (spec_date_verdict strength_for_date dates date_to_nifty t
                inst d) as [[] |];
      repeat match goal with
      | |- context [decide (Some ?a = Some ?b)] =>
          first [rewrite (decide_True (P := Some a = Some b))
                   by reflexivity
                | rewrite (decide_False (P := Some a = Some b))
                    by discriminate]
      | |- context [decide (None = Some ?b)] =>
          rewrite (decide_False (P := None = Some b)) by discriminate
      end; reflexivity.
Qed.

(** The rows of a report when the three institutions have counts. *)
Lemma report_rows_counts (counts : gmap string Backtest.Counts)
    (c1 c2 c3 : Backtest.Counts) :
  counts !! "CLIENT" = Some c1 -> counts !! "PRO" = Some c2 ->
  counts !! "FII" = Some c3 ->
  Backtest.report_rows counts
  = [("CLIENT", c1, Backtest.percent_correct c1);
     ("PRO", c2, Backtest.percent_correct c2);
     ("FII", c3, Backtest.percent_correct c3)].
Proof.
  intros H1 H2 H3. unfold Backtest.report_rows.
  cbn [omap list_omap]. rewrite H1, H2, H3. reflexivity.
Qed.

(** C3: the back-test, from one scoring to the report.  A run of the loop
    over the analysis dates that returns leaves, for CLIENT, PRO and FII,
    the counts of the specification: correct, wrong and indecisive are the
    numbers of analysis dates whose verdict for the institution and the
    threshold is Correct, Wrong and Undecided, where a date has a verdict
    when its next trading day and both closes are known and the
    institution has a Call and a Put label, and the verdict is that of the
    expectation string of the two labels and the institution class.  An
    empty expectation is Undecided and adds one to the indecisive count and
    nothing else; otherwise the expectation is one of the seven words, the
    verdict is Correct exactly when the word's prediction holds for the
    next-day return and the threshold, and one is added to the correct or
    to the wrong count.  The summary runs the loop once for each of the
    thresholds 0.2, 0.3 and 0.4 with the percentiles of the run, and
    reports for each the counts of CLIENT, PRO and FII with the percentage
    [correct / (correct + wrong) * 100], which is 0 when [correct + wrong]
    is 0. *)
Theorem C3_backtest_scoring :
  (forall (strength_for_date : Z -> list Backtest.StrengthResult)
          (dates : list Z) (date_to_nifty : gmap Z Q)
          (analysis_dates : list Z) (t : Q)
          (counts : gmap string Backtest.Counts) (inst : string),
      Backtest.accuracy_counts strength_for_date dates date_to_nifty
        analysis_dates t = Py.Return counts ->
      inst ∈ Backtest.institutions ->
      counts !! inst
      = Some (Backtest.mkCounts
                (spec_tally strength_for_date dates date_to_nifty
                   analysis_dates t inst Correct)
                (spec_tally strength_for_date dates date_to_nifty
                   analysis_dates t inst Wrong)
                (spec_tally strength_for_date dates date_to_nifty
                   analysis_dates t inst Undecided)))
  /\ (forall (t pct : Q) (inst call put : string) (c : Backtest.Counts),
        let exp_str := Backtest.exp_str_for inst call put in
        (exp_str = EmptyString ->
           spec_verdict exp_str pct t = Undecided
           /\ Backtest.score t pct inst call put c
              = Backtest.mkCounts (Backtest.correct c) (Backtest.wrong c)
                                  (S (Backtest.indecisive c)))
        /\ (exp_str <> EmptyString ->
            exists m : Backtest.Move,
              exp_str = Backtest.move_str m
              /\ (Backtest.predicted m pct t ->
                    spec_verdict exp_str pct t = Correct
                    /\ Backtest.score t pct inst call put c
                       = Backtest.mkCounts (S (Backtest.correct c))
                           (Backtest.wrong c) (Backtest.indecisive c))
              /\ (~ Backtest.predicted m pct t ->
                    spec_verdict exp_str pct t = Wrong
                    /\ Backtest.score t pct inst call put c
                       = Backtest.mkCounts (Backtest.correct c)
                           (S (Backtest.wrong c)) (Backtest.indecisive c))))
  /\ (forall (t pct : Q) (results : list Backtest.StrengthResult)
             (counts : gmap string Backtest.Counts) (inst : string),
        Backtest.score_institution t pct results counts inst
        = match spec_labels results inst with
          | Some (call, put) =>
              alter (Backtest.score t pct inst call put) inst counts
          | None => counts
          end)
  /\ (forall (calculate_strength_for_date :
                Z -> gmap string (gmap string Percentile.ThresholdSet)
                -> list Backtest.StrengthResult)
             (df : list Window.Row) (date_to_nifty : gmap Z Q)
             (lookback_days : nat)
             (report : list (Q * list (string * Backtest.Counts * Q))),
        Backtest.calculate_accuracy_summary calculate_strength_for_date df
          date_to_nifty lookback_days = Py.Return report ->
        exists run : gmap string (gmap string Percentile.ThresholdSet),
          Window.Fixed.institution_percentiles_acc df lookback_days
          = Py.Return run
          /\ Forall2
               (fun (t : Q) (entry : Q * list (string * Backtest.Counts * Q))
                => entry.1 = t
                   /\ exists counts : gmap string Backtest.Counts,
                        Backtest.accuracy_counts
                          (fun date => calculate_strength_for_date date run)
                          (sorted_trading_dates df) date_to_nifty
                          (Window.Fixed.analysis_dates df lookback_days) t
                        = Py.Return counts
                        /\ Forall2
                             (fun (inst : string)
                                  (row : string * Backtest.Counts * Q) =>
                                row.1.1 = inst
                                /\ counts !! inst = Some row.1.2
                                /\ row.2
                                   = Backtest.percent_correct row.1.2)
                             ["CLIENT"; "PRO"; "FII"] entry.2)
               [(2 # 10)%Q; (3 # 10)%Q; (4 # 10)%Q] report)
  /\ Backtest.thresholds = [(2 # 10)%Q; (3 # 10)%Q; (4 # 10)%Q]
  /\ (forall c : Backtest.Counts,
        ((Backtest.correct c + Backtest.wrong c = 0)%nat ->
         Backtest.percent_correct c = 0%Q)
        /\ ((0 < Backtest.correct c + Backtest.wrong c)%nat ->
            Backtest.percent_correct c
            = (inject_Z (Z.of_nat (Backtest.correct c))
               / inject_Z (Z.of_nat (Backtest.correct c + Backtest.wrong c))
               * 100)%Q)).
Proof.
  split; [| split; [| split; [| split; [| split]]]].
  - intros f dates nifty analysis_dates t counts inst Hrun Hinst.
    exact (accuracy_counts_tally f dates nifty t inst analysis_dates Hinst
             counts Hrun).
  - intros t pct inst call put c exp_str. split.
    + intros Hempty. rewrite score_verdict. fold exp_str.
      rewrite Hempty. split; reflexivity.
    + intros Hne.
      destruct (exp_str_for_words inst call put) as [Hempty | [m Hm]];
        [contradiction |].
      exists m. split; [exact Hm |].
      rewrite score_verdict. fold exp_str. unfold exp_str.
      rewrite Hm. unfold spec_verdict. rewrite word_of_move_str.
      split; intros Hpred.
      * rewrite decide_True by exact Hpred. split; reflexivity.
      * rewrite decide_False by exact Hpred. split; reflexivity.
  - exact score_institution_labels.
  - intros f df nifty lookback_days report Hsum.
    unfold Backtest.calculate_accuracy_summary in Hsum.
    destruct (Window.Fixed.institution_percentiles_acc df lookback_days)
      as [run | e]; [| discriminate Hsum].
    exists run. split; [reflexivity |].
    rewrite bind_Return in Hsum. cbv zeta in Hsum.
    unfold Backtest.thresholds in Hsum. cbn [foldl] in Hsum.
    change (mret [] ≫= ?k) with (k []) in Hsum. cbv beta in Hsum.
    fold (sorted_trading_dates df) in Hsum.
    assert (forall t counts,
              Backtest.accuracy_counts (fun date => f date run)
                (sorted_trading_dates df) nifty
                (Window.Fixed.analysis_dates df lookback_days) t
              = Py.Return counts ->
              Forall2
                (fun (inst : string) (row : string * Backtest.Counts * Q) =>
                   row.1.1 = inst /\ counts !! inst = Some row.1.2
                   /\ row.2 = Backtest.percent_correct row.1.2)
                ["CLIENT"; "PRO"; "FII"] (Backtest.report_rows counts))
      as Hrows.
    { intros t counts Hrun.
      assert (forall inst, inst ∈ Backtest.institutions ->
                           is_Some (counts !! inst)) as Hkeys.
      { intros inst Hinst.
        rewrite (accuracy_counts_tally _ _ _ _ _ _ Hinst counts Hrun).
        eexists. reflexivity. }
      destruct (Hkeys "CLIENT") as [c1 H1];
        [unfold Backtest.institutions;
         repeat first [apply list_elem_of_here | apply list_elem_of_further]
        |].
      destruct (Hkeys "PRO") as [c2 H2];
        [unfold Backtest.institutions;
         repeat first [apply list_elem_of_here | apply list_elem_of_further]
        |].
      destruct (Hkeys "FII") as [c3 H3];
        [unfold Backtest.institutions;
         repeat first [apply list_elem_of_here | apply list_elem_of_further]
        |].
      rewrite (report_rows_counts counts c1 c2 c3 H1 H2 H3).
      repeat (apply Forall2_cons; split;
              [split; [reflexivity | split; [assumption | reflexivity]] |]).
      apply Forall2_nil. exact I. }
    destruct (Backtest.accuracy_counts _ _ _ _ (2 # 10)%Q)
      as [c1 | e1] eqn:H1; [| discriminate Hsum].
    rewrite bind_Return in Hsum.
    change (mret ?x ≫= ?k) with (k x) in Hsum. cbv beta in Hsum.
    destruct (Backtest.accuracy_counts _ _ _ _ (3 # 10)%Q)
      as [c2 | e2] eqn:H2; [| discriminate Hsum].
    rewrite bind_Return in Hsum.
    change (mret ?x ≫= ?k) with (k x) in Hsum. cbv beta in Hsum.
    destruct (Backtest.accuracy_counts _ _ _ _ (4 # 10)%Q)
      as [c3 | e3] eqn:H3; [| discriminate Hsum].
    rewrite bind_Return in Hsum. injection Hsum as <-.
    cbn [app].
    apply Forall2_cons. split.
    { split; [reflexivity |]. exists c1. split; [exact H1 |].
      exact (Hrows _ _ H1). }
    apply Forall2_cons. split.
    { split; [reflexivity |]. exists c2. split; [exact H2 |].
      exact (Hrows _ _ H2). }
    apply Forall2_cons. split.
    { split; [reflexivity |]. exists c3. split; [exact H3 |].
      exact (Hrows _ _ H3). }
    apply Forall2_nil. exact I.
  - reflexivity.
  - intros c. split.
    + intros Hzero. unfold Backtest.percent_correct. rewrite Hzero.
      reflexivity.
    + intros Hpos. unfold Backtest.percent_correct.
      apply Nat.ltb_lt in Hpos. rewrite Hpos. reflexivity.
Qed.

(** The run over three trading days with the threshold 0.3 (CLIENT expects
    FLAT OR UP on both analysis dates; the index rises by 1 percent after
    the first and falls by about 0.99 percent after the second), and the
    accuracy scenario of the specification (CLIENT, Call MEDIUM BEARISH,
    Put INDECISIVE, next-day return +0.5, threshold 0.3: FLAT OR UP,
    correct). *)
Lemma C3_backtest_scoring_witness :
  three_days_counts !! "CLIENT"
  = Some (Backtest.mkCounts
            (spec_tally (fun _ => three_days_results) [1; 2; 3]%Z
               three_days_nifty [2; 1]%Z (3 # 10) "CLIENT" Correct)
            (spec_tally (fun _ => three_days_results) [1; 2; 3]%Z
               three_days_nifty [2; 1]%Z (3 # 10) "CLIENT" Wrong)
            (spec_tally (fun _ => three_days_results) [1; 2; 3]%Z
               three_days_nifty [2; 1]%Z (3 # 10) "CLIENT" Undecided))
  /\ Backtest.score (3 # 10) (5 # 10) "CLIENT" "MEDIUM BEARISH" "INDECISIVE"
       (Backtest.mkCounts 0 0 0) = Backtest.mkCounts 1 0 0
  /\ Backtest.score (3 # 10) (5 # 10) "FII" "MILD BULLISH" "MILD BEARISH"
       (Backtest.mkCounts 0 0 0) = Backtest.mkCounts 0 0 1
  /\ Backtest.percent_correct (Backtest.mkCounts 0 0 2) = 0%Q
  /\ Backtest.percent_correct (Backtest.mkCounts 3 1 0)
     = (inject_Z 3 / inject_Z 4 * 100)%Q.
Proof.
  split; [| split; [| split; [| split]]].
  - apply (proj1 C3_backtest_scoring (fun _ => three_days_results)
             [1; 2; 3]%Z three_days_nifty [2; 1]%Z (3 # 10)
             three_days_counts "CLIENT").
    + vm_compute. reflexivity.
    + unfold Backtest.institutions. apply list_elem_of_here.
  - destruct (proj2 (proj1 (proj2 C3_backtest_scoring) (3 # 10) (5 # 10)
                "CLIENT" "MEDIUM BEARISH" "INDECISIVE"
                (Backtest.mkCounts 0 0 0)))
      as (m & Hm & Hcorrect & _).
    + vm_compute. discriminate.
    + apply Hcorrect.
      destruct m; vm_compute in Hm; try discriminate Hm.
      vm_compute. discriminate.
  - apply (proj1 (proj1 (proj2 C3_backtest_scoring) (3 # 10) (5 # 10)
                    "FII" "MILD BULLISH" "MILD BEARISH"
                    (Backtest.mkCounts 0 0 0))).
    vm_compute. reflexivity.
  - apply (proj1 (proj2 (proj2 (proj2 (proj2 (proj2 C3_backtest_scoring))))
                    (Backtest.mkCounts 0 0 2))).
    reflexivity.
  - apply (proj2 (proj2 (proj2 (proj2 (proj2 (proj2 C3_backtest_scoring))))
                    (Backtest.mkCounts 3 1 0))).
    simpl. lia.
Defined.

(** The tallies of that run: one correct and one wrong date for CLIENT,
    two undecided dates for FII, and none for PRO, which has no Put
    label. *)
Example spec_tally_three_days :
  let tally := spec_tally (fun _ => three_days_results) [1; 2; 3]%Z
                 three_days_nifty [2; 1]%Z (3 # 10) in
  (tally "CLIENT" Correct, tally "CLIENT" Wrong, tally "CLIENT" Undecided)
  = (1, 1, 0)%nat
  /\ (tally "FII" Correct, tally "FII" Wrong, tally "FII" Undecided)
     = (0, 0, 2)%nat
  /\ (tally "PRO" Correct, tally "PRO" Wrong, tally "PRO" Undecided)
     = (0, 0, 0)%nat.
Proof. vm_compute. repeat split; reflexivity. Qed.
